(** * The action-extraction adapter of the AI smoke tests

    A shallow embedding of the Python sources under [ai-smoke-test/]:
    [ai_smoke_test.py] (module [SmokeTest]), [ai_smoke_test_clean.py]
    (module [SmokeTestClean]), [ai_smoke_test_fixed.py] (module
    [SmokeTestFixed]) and [start_single_player_test.py] (module
    [StartSinglePlayer]).

    Conventions of the embedding.
    - A Python [str] is a [string] whose characters are the code points
      below 256.
    - A call that may raise returns an [outcome]; [try]/[except] is
      [try_except], with the test of the class caught.
    - The model endpoint is a function of the requests made so far; the
      list of requests is threaded as state.
    - [json.loads] belongs to the Python library: the functions take the
      decoder as an argument, a function that gives the value or says
      which exception is raised.  [Json.json_decode] is a decoder for
      the JSON texts used in the examples. *)

From Stdlib Require Import Bool Arith ZArith Lia List Ascii String.
Import ListNotations.
Set Warnings "-register-all".
Local Open Scope string_scope.
Local Open Scope Z_scope.

(* ================================================================== *)
(** * Python strings *)
(* ================================================================== *)

Module PyStr.

Definition dquote : ascii := "034"%char.
Definition newline : ascii := "010"%char.
Definition nl : string := String newline EmptyString.

(** Source literals that contain the double-quote character are written
    with an apostrophe in its place and passed through [q]. *)
Fixpoint q (s : string) : string :=
  match s with
  | EmptyString => EmptyString
  | String c t => String (if Ascii.eqb c "'"%char then dquote else c) (q t)
  end.

(** The characters below 256 for which [str.isspace] holds:
    tab, LF, VT, FF, CR, FS, GS, RS, US, space, NEL and NBSP. *)
Definition whitespace : list ascii :=
  ["009"; "010"; "011"; "012"; "013"; "028"; "029"; "030"; "031";
   "032"; "133"; "160"]%char.

Definition is_space (c : ascii) : bool := existsb (Ascii.eqb c) whitespace.

Fixpoint lstrip (s : string) : string :=
  match s with
  | EmptyString => EmptyString
  | String c t => if is_space c then lstrip t else s
  end.

Fixpoint rstrip (s : string) : string :=
  match s with
  | EmptyString => EmptyString
  | String c t =>
      match rstrip t with
      | EmptyString => if is_space c then EmptyString else String c EmptyString
      | r => String c r
      end
  end.

(** [s.strip()] *)
Definition strip (s : string) : string := lstrip (rstrip s).

(** [s.startswith(p)] *)
Fixpoint startswith (s p : string) : bool :=
  match p, s with
  | EmptyString, _ => true
  | String _ _, EmptyString => false
  | String a p', String b s' => Ascii.eqb a b && startswith s' p'
  end.

(** [s.endswith(p)] *)
Fixpoint endswith (s p : string) : bool :=
  String.eqb s p ||
  match s with
  | EmptyString => false
  | String _ t => endswith t p
  end.

(** [p in s] for two strings *)
Fixpoint contains (s p : string) : bool :=
  startswith s p ||
  match s with
  | EmptyString => false
  | String _ t => contains t p
  end.

(** [s.split(sep)] for a one-character separator *)
Fixpoint split (s : string) (sep : ascii) : list string :=
  match s with
  | EmptyString => [EmptyString]
  | String c t =>
      if Ascii.eqb c sep then EmptyString :: split t sep
      else match split t sep with
           | h :: r => String c h :: r
           | [] => [String c EmptyString]
           end
  end.

(** [sep.join(l)] *)
Fixpoint join (sep : string) (l : list string) : string :=
  match l with
  | [] => EmptyString
  | [x] => x
  | x :: r => x ++ sep ++ join sep r
  end.

(** [l[1:-1]] *)
Definition drop_first_last {A} (l : list A) : list A := removelast (tl l).

(** [s.find(c)] for a one-character needle: the first index, or -1 *)
Fixpoint find (s : string) (c : ascii) : Z :=
  match s with
  | EmptyString => -1
  | String a t =>
      if Ascii.eqb a c then 0
      else let r := find t c in if r =? -1 then -1 else r + 1
  end.

(** [s.rfind(c)] for a one-character needle: the last index, or -1 *)
Fixpoint rfind (s : string) (c : ascii) : Z :=
  match s with
  | EmptyString => -1
  | String a t =>
      let r := rfind t c in
      if r =? -1 then (if Ascii.eqb a c then 0 else -1) else r + 1
  end.

(** Every character is white space. *)
Fixpoint all_space (s : string) : bool :=
  match s with
  | EmptyString => true
  | String c t => is_space c && all_space t
  end.

(** [s[i:j]] for [0 <= i] and [0 <= j] (the only slices the sources
    take); it is empty when [j <= i]. *)
Definition slice (s : string) (i j : Z) : string :=
  substring (Z.to_nat i) (Z.to_nat (j - i)) s.

End PyStr.

(* ================================================================== *)
(** * Exceptions and results *)
(* ================================================================== *)

Module Py.

(** The exception classes the sources raise, catch or let through.
    [JSONDecodeError] derives from [ValueError].  [EndpointError] stands
    for whatever else the model client or the browser raises: a class
    that derives from [Exception].  The last two, [CancelledError] of
    asyncio and [KeyboardInterrupt], derive from [BaseException] only:
    an [except Exception] clause lets them through. *)
Inductive exn : Type :=
| JSONDecodeError (msg : string)
| ValueError (msg : string)
| TypeError (msg : string)
| KeyError (msg : string)
| IndexError (msg : string)
| AttributeError (msg : string)
| RecursionError (msg : string)
| TimeoutError (msg : string)
| EndpointError (msg : string)
| CancelledError (msg : string)
| KeyboardInterrupt (msg : string).

(** [isinstance(e, ValueError)] *)
Definition is_ValueError (e : exn) : bool :=
  match e with
  | JSONDecodeError _ | ValueError _ => true
  | _ => false
  end.

Inductive outcome (A : Type) : Type :=
| Returns (a : A)
| Raises (e : exn).
Arguments Returns {A} a.
Arguments Raises {A} e.

Definition bind {A B} (m : outcome A) (k : A -> outcome B) : outcome B :=
  match m with
  | Returns a => k a
  | Raises e => Raises e
  end.

(** [try: body  except <class>: handler], the class given by [catches]. *)
Definition try_except {A} (body : outcome A) (catches : exn -> bool)
    (handler : exn -> outcome A) : outcome A :=
  match body with
  | Returns a => Returns a
  | Raises e => if catches e then handler e else Raises e
  end.

(** [except Exception]: [isinstance(e, Exception)] *)
Definition any_Exception (e : exn) : bool :=
  match e with
  | CancelledError _ | KeyboardInterrupt _ => false
  | _ => true
  end.

(** Truth value of a [str]-or-[None] *)
Definition truthy (x : option string) : bool :=
  match x with
  | None => false
  | Some s => negb (String.eqb s EmptyString)
  end.

End Py.

(* ================================================================== *)
(** * JSON values *)
(* ================================================================== *)

Module Json.
Import PyStr Py.

(** What [json.loads] returns.  A [dict] keeps its keys in insertion
    order. *)
Inductive json : Type :=
| JNull
| JBool (b : bool)
| JInt (n : Z)
| JFloat (lexeme : string)
| JStr (s : string)
| JArr (xs : list json)
| JObj (kvs : list (string * json)).

(** [k in d] for a dict *)
Definition has_key (k : string) (kvs : list (string * json)) : bool :=
  existsb (fun kv => String.eqb (fst kv) k) kvs.

(** [d[k]] where the key is present *)
Fixpoint lookup (k : string) (kvs : list (string * json)) : option json :=
  match kvs with
  | [] => None
  | (k', v) :: r => if String.eqb k' k then Some v else lookup k r
  end.

(** [d[k] = v] *)
Fixpoint dict_set (k : string) (v : json) (kvs : list (string * json))
  : list (string * json) :=
  match kvs with
  | [] => [(k, v)]
  | (k', v') :: r =>
      if String.eqb k' k then (k, v) :: r else (k', v') :: dict_set k v r
  end.

Definition is_JStr (s : string) (v : json) : bool :=
  match v with
  | JStr t => String.eqb t s
  | _ => false
  end.

(** [k in v] for a string [k] and a decoded value [v]: key membership in
    a dict, element membership in a list, substring test in a str, and
    [TypeError] for the values that are not containers. *)
Definition py_in (k : string) (v : json) : outcome bool :=
  match v with
  | JObj kvs => Returns (has_key k kvs)
  | JArr xs => Returns (existsb (is_JStr k) xs)
  | JStr s => Returns (contains s k)
  | _ => Raises (TypeError "argument is not iterable")
  end.

(** What [json.loads] raises on a [str]: [JSONDecodeError], with its
    diagnostic, for a text that is not JSON; [ValueError] for an integer
    literal with more digits than [int] converts (4300 by default);
    [RecursionError] for nesting beyond the recursion limit. *)
Inductive decode_failure : Type :=
| Malformed (diagnostic : string)
| DigitLimit (msg : string)
| TooDeep (msg : string).

Definition failure_exn (f : decode_failure) : exn :=
  match f with
  | Malformed d => JSONDecodeError d
  | DigitLimit m => ValueError m
  | TooDeep m => RecursionError m
  end.

(** [str(e)] for the exception raised *)
Definition diagnostic (f : decode_failure) : string :=
  match f with
  | Malformed d | DigitLimit d | TooDeep d => d
  end.

(** The type of [json.loads] on a [str]: the decoded value, or what it
    raises. *)
Definition decoder : Type := string -> json + decode_failure.

Definition loads (json_loads : decoder) (s : string) : outcome json :=
  match json_loads s with
  | inl v => Returns v
  | inr f => Raises (failure_exn f)
  end.

(** ** A decoder for the examples

    [json_decode] reads objects, arrays, strings with the one-character
    escapes, integers and the three literals, with JSON white space
    between tokens.  An integer literal of more than 4300 digits stops
    the scan with the [ValueError] of [int]; its message is cut to the
    first clause.  Anything else is a decode error. *)

(** What a scan gives: a value and the text after it, a text that is
    not JSON, or an integer literal beyond the digit limit. *)
Inductive scanned (A : Type) : Type :=
| Scanned (a : A) (rest : string)
| Invalid
| OverLimit.
Arguments Scanned {A} a rest.
Arguments Invalid {A}.
Arguments OverLimit {A}.

(** [sys.int_info.default_max_str_digits] *)
Definition max_str_digits : nat := 4300.

Definition is_json_ws (c : ascii) : bool :=
  existsb (Ascii.eqb c) [" "; "009"; "010"; "013"]%char.

Fixpoint skip_ws (s : string) : string :=
  match s with
  | String c t => if is_json_ws c then skip_ws t else s
  | EmptyString => EmptyString
  end.

Definition unescape (c : ascii) : option ascii :=
  if Ascii.eqb c dquote then Some dquote
  else if Ascii.eqb c "\" then Some "\"%char
  else if Ascii.eqb c "/" then Some "/"%char
  else if Ascii.eqb c "b" then Some "008"%char
  else if Ascii.eqb c "f" then Some "012"%char
  else if Ascii.eqb c "n" then Some "010"%char
  else if Ascii.eqb c "r" then Some "013"%char
  else if Ascii.eqb c "t" then Some "009"%char
  else None.

(** The body of a string after its opening quote: the decoded text and
    what follows the closing quote. *)
Fixpoint scan_string (s : string) : option (string * string) :=
  match s with
  | EmptyString => None
  | String c t =>
      if Ascii.eqb c dquote then Some (EmptyString, t)
      else if Ascii.eqb c "\" then
        match t with
        | String e t' =>
            match unescape e, scan_string t' with
            | Some ch, Some (body, rest) => Some (String ch body, rest)
            | _, _ => None
            end
        | EmptyString => None
        end
      else if (nat_of_ascii c <? 32)%nat then None
      else match scan_string t with
           | Some (body, rest) => Some (String c body, rest)
           | None => None
           end
  end.

Definition digit_of (c : ascii) : option Z :=
  let n := Z.of_nat (nat_of_ascii c) in
  if (48 <=? n) && (n <=? 57) then Some (n - 48) else None.

(** A run of decimal digits, most significant first: its value, the
    number of digits, and the text after it. *)
Fixpoint scan_digits (s : string) (acc : Z) (seen : nat)
  : option (Z * nat * string) :=
  match s with
  | String c t =>
      match digit_of c with
      | Some d => scan_digits t (10 * acc + d) (S seen)
      | None => if (0 <? seen)%nat then Some (acc, seen, s) else None
      end
  | EmptyString => if (0 <? seen)%nat then Some (acc, seen, s) else None
  end.

(** An integer literal, negated when [negative]. *)
Definition scan_int (negative : bool) (s : string) : scanned json :=
  match scan_digits s 0 0 with
  | Some (n, digits, r) =>
      if (max_str_digits <? digits)%nat then OverLimit
      else Scanned (JInt (if negative then - n else n)) r
  | None => Invalid
  end.

Definition scan_literal (s : string) : scanned json :=
  if startswith s "true" then Scanned (JBool true) (slice s 4 (Z.of_nat (length s)))
  else if startswith s "false" then Scanned (JBool false) (slice s 5 (Z.of_nat (length s)))
  else if startswith s "null" then Scanned JNull (slice s 4 (Z.of_nat (length s)))
  else match s with
       | String c t => if Ascii.eqb c "-" then scan_int true t else scan_int false s
       | EmptyString => Invalid
       end.

Fixpoint parse_value (fuel : nat) (s : string) : scanned json :=
  match fuel with
  | O => Invalid
  | S f =>
      match skip_ws s with
      | EmptyString => Invalid
      | String c t =>
          if Ascii.eqb c "{" then
            match skip_ws t with
            | String "}" r => Scanned (JObj []) r
            | _ => match parse_members f t [] with
                   | Scanned kvs r => Scanned (JObj kvs) r
                   | Invalid => Invalid
                   | OverLimit => OverLimit
                   end
            end
          else if Ascii.eqb c "[" then
            match skip_ws t with
            | String "]" r => Scanned (JArr []) r
            | _ => match parse_elements f t with
                   | Scanned xs r => Scanned (JArr xs) r
                   | Invalid => Invalid
                   | OverLimit => OverLimit
                   end
            end
          else if Ascii.eqb c dquote then
            match scan_string t with
            | Some (body, r) => Scanned (JStr body) r
            | None => Invalid
            end
          else scan_literal (String c t)
      end
  end
with parse_members (fuel : nat) (s : string) (acc : list (string * json))
  : scanned (list (string * json)) :=
  match fuel with
  | O => Invalid
  | S f =>
      match skip_ws s with
      | String c t =>
          if Ascii.eqb c dquote then
            match scan_string t with
            | Some (k, r) =>
                match skip_ws r with
                | String ":" r1 =>
                    match parse_value f r1 with
                    | Scanned v r2 =>
                        match skip_ws r2 with
                        | String "," r3 => parse_members f r3 (dict_set k v acc)
                        | String "}" r3 => Scanned (dict_set k v acc) r3
                        | _ => Invalid
                        end
                    | Invalid => Invalid
                    | OverLimit => OverLimit
                    end
                | _ => Invalid
                end
            | None => Invalid
            end
          else Invalid
      | EmptyString => Invalid
      end
  end
with parse_elements (fuel : nat) (s : string) : scanned (list json) :=
  match fuel with
  | O => Invalid
  | S f =>
      match parse_value f s with
      | Scanned v r =>
          match skip_ws r with
          | String "," r1 =>
              match parse_elements f r1 with
              | Scanned xs r2 => Scanned (v :: xs) r2
              | Invalid => Invalid
              | OverLimit => OverLimit
              end
          | String "]" r1 => Scanned [v] r1
          | _ => Invalid
          end
      | Invalid => Invalid
      | OverLimit => OverLimit
      end
  end.

Definition json_decode : decoder := fun s =>
  match parse_value (S (length s)) s with
  | Scanned v r =>
      match skip_ws r with
      | EmptyString => inl v
      | _ => inr (Malformed "Extra data")
      end
  | Invalid => inr (Malformed "Expecting value")
  | OverLimit =>
      inr (DigitLimit "Exceeds the limit (4300 digits) for integer string conversion")
  end.

End Json.

(* ================================================================== *)
(** * The chat-completion client *)
(* ================================================================== *)

Module Llm.
Import PyStr Py Json.

Record message : Type := { role : string; content : string }.

(** The keyword arguments of [chat.completions.create].  The temperature
    is kept as the decimal literal of the source. *)
Record request : Type :=
  { req_model : string;
    req_messages : list message;
    req_temperature : option string }.

(** [response.usage]: [None], an object with integer attributes, or a
    [dict]. *)
Inductive usage_val : Type :=
| UsageNone
| UsageObj (attrs : list (string * Z))
| UsageDict (items : list (string * Z)).

(** A choice: [message.content] ([None] or a str) and the [action]
    attribute, absent until something sets it. *)
Record choice : Type :=
  { message_content : option string;
    action : option json }.

(** A response object.  [completion] is an attribute only the
    interceptors set: the outer [None] is an absent attribute. *)
Record response : Type :=
  { choices : list choice;
    usage : usage_val;
    model : string;
    created : Z;
    completion : option (option string) }.

(** Truth value of [response.usage]: an object is true, a dict is true
    when it is not empty. *)
Definition usage_truthy (u : usage_val) : bool :=
  match u with
  | UsageNone => false
  | UsageObj _ => true
  | UsageDict items => negb (Nat.eqb (List.length items) 0)
  end.

Fixpoint assoc (k : string) (l : list (string * Z)) : option Z :=
  match l with
  | [] => None
  | (k', v) :: r => if String.eqb k' k then Some v else assoc k r
  end.

(** [getattr(u, name, default)]: a dict has items, not attributes. *)
Definition getattr (u : usage_val) (name : string) (default : Z) : Z :=
  match u with
  | UsageObj attrs =>
      match assoc name attrs with
      | Some v => v
      | None => default
      end
  | _ => default
  end.

(** The fixed-shape usage record built from [u] with [getattr]. *)
Definition usage_record (u : usage_val) : list (string * Z) :=
  [("prompt_tokens", getattr u "prompt_tokens" 0);
   ("completion_tokens", getattr u "completion_tokens" 0);
   ("total_tokens", getattr u "total_tokens" 0);
   ("prompt_cached_tokens", 0);
   ("prompt_cache_creation_tokens", 0);
   ("prompt_image_tokens", 0)].

(** [choice.action = a] *)
Definition set_action (c : choice) (a : json) : choice :=
  {| message_content := message_content c; action := Some a |}.

(** [response.choices[0].message.content] handed on as a str: [IndexError]
    without a choice; a [None] content raises at its first use as a str. *)
Definition first_content (r : response) : outcome string :=
  match choices r with
  | [] => Raises (IndexError "list index out of range")
  | c :: _ =>
      match message_content c with
      | Some s => Returns s
      | None => Raises (TypeError "NoneType")
      end
  end.

(** [len(response.choices[0].message.content)] inside [if
    response.choices:], as the log lines of both [create] methods take
    it: [TypeError] when the first content is [None]. *)
Definition log_first_content (r : response) : outcome unit :=
  match choices r with
  | [] => Returns tt
  | c :: _ =>
      match message_content c with
      | Some _ => Returns tt
      | None => Raises (TypeError "object of type 'NoneType' has no len()")
      end
  end.

(** The model endpoint: its answer to a request, given the requests made
    before. *)
Definition endpoint : Type := list request -> request -> outcome response.

(** Computations that call the endpoint: the requests made so far are the
    state. *)
Definition M (A : Type) : Type := list request -> outcome A * list request.

Definition ret {A} (a : A) : M A := fun h => (Returns a, h).
Definition raise {A} (e : exn) : M A := fun h => (Raises e, h).
Definition lift {A} (o : outcome A) : M A := fun h => (o, h).

Definition bindM {A B} (m : M A) (k : A -> M B) : M B :=
  fun h =>
    match m h with
    | (Returns a, h') => k a h'
    | (Raises e, h') => (Raises e, h')
    end.

Definition try_exceptM {A} (body : M A) (catches : exn -> bool)
    (handler : exn -> M A) : M A :=
  fun h =>
    match body h with
    | (Returns a, h') => (Returns a, h')
    | (Raises e, h') => if catches e then handler e h' else (Raises e, h')
    end.

(** [await client.chat.completions.create(...)] *)
Definition call (ep : endpoint) (req : request) : M response :=
  fun h => (ep h req, (h ++ [req])%list).

(** A block that either returns from the enclosing function or falls
    through to the statement after it. *)
Inductive flow (A B : Type) : Type :=
| Return_ (a : A)
| Fallthrough (b : B).
Arguments Return_ {A B} a.
Arguments Fallthrough {A B} b.

End Llm.

Declare Scope py_scope.
Delimit Scope py_scope with py.
Notation "x <- m ;; k" := (Llm.bindM m (fun x => k))
  (at level 61, m at next level, right associativity) : py_scope.
Notation "' pat <- m ;; k" := (Llm.bindM m (fun x => match x with pat => k end))
  (at level 61, pat pattern, m at next level, right associativity) : py_scope.
Notation "x <~ m ;; k" := (Py.bind m (fun x => k))
  (at level 61, m at next level, right associativity) : py_scope.

(* ================================================================== *)
(** * ai_smoke_test.py *)
(* ================================================================== *)

Module SmokeTest.
Import PyStr Py Json Llm.
Local Open Scope py_scope.

Section Adapter.
Variable json_loads : decoder.
Variable APP_URL : string.
Variable ep : endpoint.

Definition is_JSONDecodeError (e : exn) : bool :=
  match e with
  | JSONDecodeError _ => true
  | _ => false
  end.

(** [str(e)] *)
Definition exn_str (e : exn) : string :=
  match e with
  | JSONDecodeError m | ValueError m | TypeError m | KeyError m
  | IndexError m | AttributeError m | RecursionError m | TimeoutError m
  | EndpointError m | CancelledError m | KeyboardInterrupt m => m
  end.

(** Lines 377-383 of [parse_action]; lines 111-117 of
    [_transform_choices] are the same. *)
Definition strip_code_fence (content : string) : string :=
  if startswith content "```json" && endswith content "```" then
    let lines := split content newline in
    join nl (drop_first_last lines)
  else if startswith content "```" && endswith content "```" then
    let lines := split content newline in
    join nl (drop_first_last lines)
  else content.

(** [parse_action(raw_text)]: the pair [(obj, err)]. *)
Definition parse_action (raw_text : string)
  : outcome (option json * option string) :=
  let content := strip_code_fence (strip raw_text) in
  let start := find content "{" in
  let end_ := rfind content "}" in
  if (start =? -1) || (end_ =? -1) || (end_ <=? start) then
    Returns (None, Some "no-json")
  else
    r <~ try_except
           (obj <~ loads json_loads (slice content start (end_ + 1)) ;;
            Returns (Fallthrough obj))
           is_JSONDecodeError
           (fun e => Returns (Return_ (None, Some ("bad-json: " ++ exn_str e)))) ;;
    match r with
    | Return_ v => Returns v
    | Fallthrough obj =>
        has_action <~ py_in "action" obj ;;
        if negb has_action then Returns (None, Some "no-action")
        else
          has_params <~ py_in "params" obj ;;
          if negb has_params then Returns (None, Some "no-params")
          else Returns (Some obj, None)
    end.

(** The body of the loop of [_transform_choices] for one choice. *)
Definition transform_choice (c : choice) : outcome choice :=
  match message_content c with
  | Some content =>
      if negb (String.eqb content EmptyString) then
        try_except
          (let json_content := strip_code_fence (strip content) in
           let start := find json_content "{" in
           let end_ := rfind json_content "}" in
           if negb (start =? -1) && negb (end_ =? -1) && (start <? end_) then
             parsed <~ loads json_loads (slice json_content start (end_ + 1)) ;;
             has_action <~ py_in "action" parsed ;;
             if has_action then Returns (set_action c parsed)
             else Returns c
           else Returns c)
          any_Exception
          (fun _ => Returns c)
      else Returns c
  | None => Returns c
  end.

(** The [for] loop: the choices in order, stopping at the first
    exception that leaves the body. *)
Fixpoint for_each (f : choice -> outcome choice) (cs : list choice)
  : outcome (list choice) :=
  match cs with
  | [] => Returns []
  | c :: r =>
      c' <~ f c ;;
      r' <~ for_each f r ;;
      Returns (c' :: r')
  end.

Definition _transform_choices (cs : list choice) : outcome (list choice) :=
  for_each transform_choice cs.

(** [OpenAIResponseInterceptor(original_response)]: the attributes of the
    response, its choices transformed. *)
Definition OpenAIResponseInterceptor (original : response) : outcome response :=
  cs <~ _transform_choices (choices original) ;;
  Returns {| choices := cs; usage := usage original; model := model original;
             created := created original; completion := completion original |}.

(** [CompletionsInterceptor.create]: the request goes to the client as it
    is; the first content is measured for the log (lines 187-191); the
    response comes back wrapped. *)
Definition create (req : request) : M response :=
  try_exceptM
    (response <- call ep req ;;
     _ <- lift (log_first_content response) ;;
     lift (OpenAIResponseInterceptor response))
    any_Exception
    (fun e => raise e).

(** [d[k]] for a decoded value and a string key *)
Definition getitem (v : option json) (k : string) : outcome json :=
  match v with
  | Some (JObj kvs) =>
      match lookup k kvs with
      | Some x => Returns x
      | None => Raises (KeyError k)
      end
  | _ => Raises (TypeError "not subscriptable by str")
  end.

(** [f"{err}"] *)
Definition format_opt (x : option string) : string :=
  match x with
  | Some s => s
  | None => "None"
  end.

Definition corrective_messages (err : option string) : list message :=
  [{| role := "user";
      content := q "Reply with ONLY JSON: {'action': 'goto', 'params': {'url': '"
                 ++ APP_URL ++ q "'}}" ++ nl ++ nl ++ "Error: " ++ format_opt err |}].

Definition final_messages : list message :=
  [{| role := "user";
      content := q "Respond exactly: {'action': 'goto', 'params': {'url': '"
                 ++ APP_URL ++ q "'}}" |}].

(** One corrective attempt: the [try] block of lines 419-433 (and of
    442-456).  It returns from the function on a parse without error,
    and falls through with the new [(obj, err)] otherwise; an exception
    anywhere in the block that derives from [Exception] is caught and
    leaves [(obj, err)] as they were. *)
Definition attempt (model_name : string) (messages : list message)
    (obj : option json) (err : option string)
  : M (flow (string * option json) (option json * option string)) :=
  try_exceptM
    (retry_response <- call ep {| req_model := model_name;
                                  req_messages := messages;
                                  req_temperature := Some "0.1" |} ;;
     retry_content <- lift (first_content retry_response) ;;
     ' (obj', err') <- lift (parse_action retry_content) ;;
     if negb (truthy err') then ret (Return_ (retry_content, obj'))
     else ret (Fallthrough (obj', err')))
    any_Exception
    (fun _ => ret (Fallthrough (obj, err))).

Definition validate_and_retry_llm_response (raw_content : string)
    (model_name : string) : M (string * option json) :=
  ' (obj, err) <- lift (parse_action raw_content) ;;
  if truthy err then
    r1 <- attempt model_name (corrective_messages err) obj err ;;
    match r1 with
    | Return_ v => ret v
    | Fallthrough (obj1, err1) =>
        r2 <- attempt model_name final_messages obj1 err1 ;;
        match r2 with
        | Return_ v => ret v
        | Fallthrough (obj2, err2) =>
            raise (ValueError
              ("LLM did not return a valid action JSON after retries. Error: "
               ++ format_opt err2 ++ nl ++ "Last response: " ++ raw_content))
        end
    end
  else ret (raw_content, obj).

(** The object [ainvoke] returns. *)
Record LLMResponse : Type :=
  { resp_content : string;
    resp_completion : string;
    resp_usage : list (string * Z);
    resp_action : json }.

Definition error_action : json :=
  JObj [("action", JStr "error"); ("params", JObj [])].

(** Lines 277-290 of [ainvoke] *)
Definition extract_json_content (content : string) : string :=
  if startswith (strip content) "```json" then
    let lines := split (strip content) newline in
    if String.eqb (strip (hd EmptyString lines)) "```json"
       && String.eqb (strip (last lines EmptyString)) "```"
    then join nl (drop_first_last lines)
    else content
  else if startswith (strip content) "```" && endswith (strip content) "```" then
    let lines := split (strip content) newline in
    join nl (drop_first_last lines)
  else content.

(** The [try] statement of [ainvoke] from the call on (lines 253-372),
    for a receiver whose [client.chat.completions.create] is [ep] and
    whose [model] is [model_name]; [messages] is the list lines 215-242
    leave, [temperature] the keyword of that name.  Log lines are not
    modelled. *)
Definition ainvoke_body (model_name : string) (messages : list message)
    (temperature : option string) : M LLMResponse :=
  try_exceptM
    (response <- call ep {| req_model := model_name;
                            req_messages := messages;
                            req_temperature :=
                              Some (match temperature with
                                    | Some t => t
                                    | None => "0.1"
                                    end) |} ;;
     content <- lift (first_content response) ;;
     let json_content := extract_json_content content in
     let content :=
       match loads json_loads json_content with
       | Returns _ => json_content
       | Raises _ => content
       end in
     let usage_dict :=
       if usage_truthy (usage response) then usage_record (usage response)
       else usage_record UsageNone in
     validated_content <-
       try_exceptM
         (' (validated_content, action_obj) <-
              validate_and_retry_llm_response content model_name ;;
          _ <- lift (getitem action_obj "action") ;;
          _ <- lift (getitem action_obj "params") ;;
          ret validated_content)
         is_ValueError
         (fun _ => ret content) ;;
     let parsed_action :=
       match loads json_loads validated_content with
       | Returns v => v
       | Raises _ => error_action
       end in
     ret {| resp_content := validated_content;
            resp_completion := validated_content;
            resp_usage := usage_dict;
            resp_action := parsed_action |})
    any_Exception
    (fun e => raise e).

End Adapter.

(** ** The method [ainvoke] *)

(** The attributes of the receiver that [ainvoke] reads; [None] is an
    object without the attribute.  [self_client] stands for
    [self.client.chat.completions.create].  Where Python words the
    message of an exception with the name of a class or of a function,
    the message here is the part that does not depend on it. *)
Record receiver : Type :=
  { self_call_count : option Z;
    self_client : option endpoint;
    self_model : option string }.

(** [CompletionsInterceptor(client, wrapper)], the object the method is
    bound to (lines 158-160): its attributes are [_client] and
    [_wrapper]. *)
Definition CompletionsInterceptor : receiver :=
  {| self_call_count := None; self_client := None; self_model := None |}.

(** [OpenAICompatWrapper(client, model)] (lines 133-140), the object the
    body of [ainvoke] has the attributes of. *)
Definition OpenAICompatWrapper (client : endpoint) (model_name : string)
  : receiver :=
  {| self_call_count := Some 0;
     self_client := Some client;
     self_model := Some model_name |}.

(** [self.call_count += 1] *)
Definition count_call (self : receiver) : outcome receiver :=
  match self_call_count self with
  | Some n =>
      Returns {| self_call_count := Some (n + 1);
                 self_client := self_client self;
                 self_model := self_model self |}
  | None => Raises (AttributeError "object has no attribute 'call_count'")
  end.

(** A value passed to [ainvoke] by position: a str, a dict that holds a
    str [role] and a str [content], a list, the receiver itself, or
    another object, one that is none of these and is equal to itself
    only.  Neither the receiver nor such an object has a [get]
    attribute. *)
Inductive pyval : Type :=
| VStr (s : string)
| VDict (m : message)
| VList (items : list pyval)
| VSelf
| VOther (id : nat).

(** The keywords [temperature], [messages] and [model], when given.  Any
    other keyword goes to the client as it is and is not kept in the
    request record. *)
Record kwargs : Type :=
  { kw_temperature : option string;
    kw_messages : option pyval;
    kw_model : option string }.

Section Entry.
Variable json_loads : decoder.
Variable APP_URL : string.
(** [str(v)] *)
Variable py_str : pyval -> string.

(** [args[0] == self] *)
Definition is_self (v : pyval) : bool :=
  match v with
  | VSelf => true
  | _ => false
  end.

(** Lines 215-226: the argument taken as [messages]. *)
Definition select_messages (args : list pyval) : pyval :=
  match args with
  | [a] => a
  | [a0; a1] => if is_self a0 then a1 else a0
  | [] => VStr EmptyString
  | a :: _ => a
  end.

(** [isinstance(v, dict)] *)
Definition is_dict (v : pyval) : bool :=
  match v with
  | VDict _ => true
  | _ => false
  end.

(** The loop of lines 248-249 calls [msg.get] on every item. *)
Fixpoint logged (items : list pyval) : outcome (list message) :=
  match items with
  | [] => Returns []
  | VDict m :: rest =>
      ms <~ logged rest ;;
      Returns (m :: ms)
  | _ :: _ => Raises (AttributeError "object has no attribute 'get'")
  end.

(** Lines 232-249: the message list. *)
Definition message_list (messages : pyval) : outcome (list message) :=
  match messages with
  | VStr s => Returns [{| role := "user"; content := s |}]
  | VList items =>
      if negb (Nat.eqb (List.length items) 0)
         && is_dict (hd (VStr EmptyString) items)
      then logged items
      else Returns [{| role := "user"; content := py_str messages |}]
  | _ => Returns [{| role := "user"; content := py_str messages |}]
  end.

(** [ainvoke(self, *args, **kwargs)]: the call is counted, the message
    list is built, and the [try] statement makes the request.  There the
    attributes [client] and [model] are read, and a keyword [messages]
    or [model] clashes with the ones the call passes itself.  The result
    is the outcome, the receiver afterwards, and the requests made. *)
Definition ainvoke (self : receiver) (args : list pyval) (kw : kwargs)
    (h : list request) : outcome LLMResponse * receiver * list request :=
  match count_call self with
  | Raises x => (Raises x, self, h)
  | Returns self =>
      match message_list (select_messages args) with
      | Raises x => (Raises x, self, h)
      | Returns messages =>
          match self_client self, self_model self with
          | None, _ =>
              (Raises (AttributeError "object has no attribute 'client'"), self, h)
          | Some _, None =>
              (Raises (AttributeError "object has no attribute 'model'"), self, h)
          | Some client, Some model_name =>
              match kw_messages kw, kw_model kw with
              | None, None =>
                  let (o, h') :=
                    ainvoke_body json_loads APP_URL client model_name messages
                      (kw_temperature kw) h in
                  (o, self, h')
              | _, _ =>
                  (Raises (TypeError "got multiple values for keyword argument"),
                   self, h)
              end
          end
      end
  end.

End Entry.
End SmokeTest.

(* ================================================================== *)
(** * ai_smoke_test_clean.py *)
(* ================================================================== *)

Module SmokeTestClean.
Import PyStr Py Json Llm.
Local Open Scope py_scope.

Section Adapter.
Variable json_loads : decoder.
Variable ep : endpoint.

(** The dict both fallback branches of [_transform_choices] build. *)
Definition fallback_action : json :=
  JObj [("action", JStr "click");
        ("params", JObj [("text", JStr "Start Single Player")])].

(** The body of the loop of [_transform_choices] for one choice.  The
    inner block yields the choice with its parsed action ([continue]) or
    nothing, in which case the default action is attached. *)
Definition transform_choice (c : choice) : outcome choice :=
  match message_content c with
  | Some content =>
      if negb (String.eqb content EmptyString) then
        try_except
          (let json_content := SmokeTest.strip_code_fence (strip content) in
           let start := find json_content "{" in
           let end_ := rfind json_content "}" in
           r <~ (if negb (start =? -1) && negb (end_ =? -1) && (start <? end_)
                 then
                   parsed <~ loads json_loads
                               (slice json_content start (end_ + 1)) ;;
                   has_action <~ py_in "action" parsed ;;
                   if has_action then Returns (Return_ (set_action c parsed))
                   else Returns (Fallthrough tt)
                 else Returns (Fallthrough tt)) ;;
           match r with
           | Return_ c' => Returns c'
           | Fallthrough _ => Returns (set_action c fallback_action)
           end)
          any_Exception
          (fun _ => Returns (set_action c fallback_action))
      else Returns c
  | None => Returns c
  end.

Definition _transform_choices (cs : list choice) : outcome (list choice) :=
  SmokeTest.for_each transform_choice cs.

(** [OpenAIResponseInterceptor(original_response)] *)
Definition OpenAIResponseInterceptor (original : response) : outcome response :=
  let completion :=
    match choices original with
    | c :: _ => message_content c
    | [] => Some EmptyString
    end in
  cs <~ _transform_choices (choices original) ;;
  Returns {| choices := cs; usage := usage original; model := model original;
             created := created original; completion := Some completion |}.

(** Lines 249-261 of [create]: the usage attribute becomes the fixed-shape
    dict when it is present and true. *)
Definition fix_usage (r : response) : response :=
  if usage_truthy (usage r) then
    {| choices := choices r; usage := UsageDict (usage_record (usage r));
       model := model r; created := created r; completion := completion r |}
  else r.

(** What [create] does to the response it received (lines 213 and
    249-261): the normalization. *)
Definition normalize (r : response) : outcome response :=
  transformed_response <~ OpenAIResponseInterceptor r ;;
  Returns (fix_usage transformed_response).

Definition json_enforcement : string :=
  nl ++ nl ++
  "IMPORTANT: You MUST respond with ONLY a single JSON object containing 'action' and 'params' fields. No other text, no explanations."
  ++ nl ++ nl ++ "Example: "
  ++ q "{'action': 'click', 'params': {'text': 'Start Single Player'}}"
  ++ nl ++
  "Available actions: goto, click, type, keypress, select, scroll, wait_for, assert_text, screenshot, finish".

Definition modify_message (m : message) : message :=
  if String.eqb (role m) "system"
  then {| role := role m; content := content m ++ json_enforcement |}
  else m.

(** Lines 176-192 change the system messages in place and put the very
    objects they were given in the list they send: what the caller's
    list holds after [create] is what was sent. *)
Definition messages_after_create (messages : list message) : list message :=
  map modify_message messages.

(** [CompletionsInterceptor.create] called with a [messages] keyword;
    [wrapper_model] is [self._wrapper.model].  After the call the first
    content is measured for the log (lines 206-210). *)
Definition create (wrapper_model : string) (kw_model : option string)
    (messages : list message) (temperature : option string) : M response :=
  try_exceptM
    (let modified_messages := messages_after_create messages in
     let model_name := match kw_model with
                       | Some m => m
                       | None => wrapper_model
                       end in
     response <- call ep {| req_model := model_name;
                            req_messages := modified_messages;
                            req_temperature := temperature |} ;;
     _ <- lift (log_first_content response) ;;
     lift (normalize response))
    any_Exception
    (fun e => raise e).

End Adapter.
End SmokeTestClean.

(* ================================================================== *)
(** * ai_smoke_test_fixed.py *)
(* ================================================================== *)

Module SmokeTestFixed.
Import PyStr Py Json Llm.
Local Open Scope py_scope.

Section Wrapper.
Variable json_loads : decoder.
Variable ep : endpoint.

(** [ActionString]: a str with two more attributes. *)
Record ActionString : Type :=
  { text : string;
    action : json;
    completion : option string }.

Definition fallback_action : json :=
  JObj [("action", JStr "click");
        ("params", JObj [("text", JStr "Start Single Player")])].

Definition modify_message (m : message) : message :=
  if String.eqb (role m) "system"
  then {| role := "system";
          content := content m ++ nl ++ nl ++
            "IMPORTANT: You must respond with valid JSON in this format: "
            ++ q "{'action': 'action_type', 'params': {...}}" |}
  else m.

(** Lines 59-74: the action read from the content. *)
Definition extract_action (content : option string) : json :=
  match
    try_except
      (match content with
       | None => Raises (TypeError "argument of type NoneType is not iterable")
       | Some content =>
           if contains content "{" && contains content "}" then
             let start := find content "{" in
             let end_ := rfind content "}" + 1 in
             let json_str := slice content start end_ in
             loads json_loads json_str
           else Returns fallback_action
       end)
      any_Exception
      (fun _ => Returns fallback_action)
  with
  | Returns a => a
  | Raises _ => fallback_action
  end.

Definition ainvoke (model_name : string) (messages : list message)
  : M ActionString :=
  let modified_messages := map modify_message messages in
  response <- call ep {| req_model := model_name;
                         req_messages := modified_messages;
                         req_temperature := Some "0.7" |} ;;
  match choices response with
  | [] => raise (IndexError "list index out of range")
  | c :: _ =>
      let content := message_content c in
      ret {| text := match content with
                     | Some s => s
                     | None => "None"
                     end;
             action := extract_action content;
             completion := content |}
  end.

End Wrapper.
End SmokeTestFixed.

(* ================================================================== *)
(** * start_single_player_test.py: the polling waits *)
(* ================================================================== *)

Module StartSinglePlayer.
Import PyStr Py.

(** Times are in milliseconds: the sleep of 0.2 s is [200], the default
    timeout of 10.0 s is [10000]. *)

(** What the browser and the scheduler do, by the number of awaits made
    so far: the value of the k-th [evaluate_js], the k-th
    [get_current_page_url], the time each takes, and by how much a sleep
    overruns the delay asked for. *)
Record env : Type :=
  { evaluate_js : nat -> bool;
    get_current_page_url : nat -> option string;
    io_time : nat -> Z;
    sleep_lag : nat -> Z }.

(** The clock ([time.time()]) and the number of awaits made. *)
Record world : Type := { now : Z; awaits : nat }.

Definition tick (w : world) (dt : Z) : world :=
  {| now := now w + dt; awaits := S (awaits w) |}.

(** [await asyncio.sleep(delay)] *)
Definition asyncio_sleep (e : env) (delay : Z) (w : world) : world :=
  tick w (delay + sleep_lag e (awaits w)).

Definition default_timeout : Z := 10000.

Section Waits.
Variable e : env.
(** [urlparse(url).path] *)
Variable url_path : string -> string.

(** The [while] loop of [_wait_for_selector]; [None] when the fuel runs
    out before the loop ends. *)
Fixpoint selector_loop (fuel : nat) (selector : string) (deadline : Z)
    (w : world) : option (outcome unit * world) :=
  match fuel with
  | O => None
  | S fuel' =>
      if now w <? deadline then
        let is_ready := evaluate_js e (awaits w) in
        let w1 := tick w (io_time e (awaits w)) in
        if is_ready then Some (Returns tt, w1)
        else selector_loop fuel' selector deadline (asyncio_sleep e 200 w1)
      else
        Some (Raises (TimeoutError ("Timed out waiting for selector " ++ selector)), w)
  end.

Definition _wait_for_selector (fuel : nat) (selector : string) (timeout : Z)
    (w : world) : option (outcome unit * world) :=
  let deadline := now w + timeout in
  selector_loop fuel selector deadline w.

(** The [while] loop of [_wait_for_path] *)
Fixpoint path_loop (fuel : nat) (prefix : string) (deadline : Z)
    (w : world) : option (outcome string * world) :=
  match fuel with
  | O => None
  | S fuel' =>
      if now w <? deadline then
        let current_url := get_current_page_url e (awaits w) in
        let w1 := tick w (io_time e (awaits w)) in
        match current_url with
        | Some url =>
            if negb (String.eqb url EmptyString)
               && startswith (url_path url) prefix
            then Some (Returns url, w1)
            else path_loop fuel' prefix deadline (asyncio_sleep e 200 w1)
        | None => path_loop fuel' prefix deadline (asyncio_sleep e 200 w1)
        end
      else
        Some (Raises (TimeoutError
                ("Timed out waiting for path starting with " ++ prefix)), w)
  end.

Definition _wait_for_path (fuel : nat) (prefix : string) (timeout : Z)
    (w : world) : option (outcome string * world) :=
  let deadline := now w + timeout in
  path_loop fuel prefix deadline w.

End Waits.
End StartSinglePlayer.

(* ================================================================== *)
(** * Vocabulary for the statements about the polling waits *)
(* ================================================================== *)

Module Polling.
Import PyStr Py StartSinglePlayer.

Section Vocabulary.
Variable e : env.
Variable url_path : string -> string.

(** Iterations that are enough for a timeout: one for each 200 ms of it,
    and two more. *)
Definition enough (timeout : Z) : nat := (Z.to_nat (timeout / 200) + 2)%nat.

(** Each iteration awaits the check and then the sleep: the k-th check
    of a wait that starts in [w] is await number [awaits w + 2 k]. *)
Definition poll_index (w : world) (k : nat) : nat := (awaits w + 2 * k)%nat.

(** The condition of [_wait_for_selector] at the k-th check. *)
Definition selector_ready (w : world) (k : nat) : bool :=
  evaluate_js e (poll_index w k).

(** The condition of [_wait_for_path] at the k-th check: the URL read,
    when it is a non-empty str whose path starts with the prefix. *)
Definition path_ready (prefix : string) (w : world) (k : nat) : option string :=
  match get_current_page_url e (poll_index w k) with
  | Some url =>
      if negb (String.eqb url EmptyString) && startswith (url_path url) prefix
      then Some url
      else None
  | None => None
  end.

(** The clock at the k-th check of a wait that starts in [w]: every
    iteration before it took the time of its check, the 200 ms of its
    sleep, and the lag of that sleep. *)
Fixpoint clock_at (w : world) (k : nat) : Z :=
  match k with
  | O => now w
  | S j =>
      clock_at w j + io_time e (poll_index w j)
      + (200 + sleep_lag e (S (poll_index w j)))
  end.

(** The world in which the k-th check is made. *)
Definition world_at (w : world) (k : nat) : world :=
  {| now := clock_at w k; awaits := poll_index w k |}.

(** How a wait that starts in [w] with the deadline [deadline] ends in
    [w'].  It returns at the first check [k] at which the condition
    holds, the clock having been before the deadline at every check up
    to that one; [w'] is the world right after that check.  Or it raises
    [TimeoutError] at the first check [k] at which the clock has reached
    the deadline, no check before having held; [w'] is the world at that
    moment, nothing having been looked at. *)
Inductive selector_wait (w : world) (deadline : Z) (selector : string)
  : outcome unit -> world -> Prop :=
| selector_found (k : nat) :
    (forall j, (j < k)%nat -> selector_ready w j = false) ->
    (forall j, (j <= k)%nat -> clock_at w j < deadline) ->
    selector_ready w k = true ->
    selector_wait w deadline selector (Returns tt)
      (tick (world_at w k) (io_time e (poll_index w k)))
| selector_timed_out (k : nat) :
    (forall j, (j < k)%nat ->
               selector_ready w j = false /\ clock_at w j < deadline) ->
    deadline <= clock_at w k ->
    selector_wait w deadline selector
      (Raises (TimeoutError ("Timed out waiting for selector " ++ selector)))
      (world_at w k).

Inductive path_wait (w : world) (deadline : Z) (prefix : string)
  : outcome string -> world -> Prop :=
| path_found (k : nat) (url : string) :
    (forall j, (j < k)%nat -> path_ready prefix w j = None) ->
    (forall j, (j <= k)%nat -> clock_at w j < deadline) ->
    path_ready prefix w k = Some url ->
    path_wait w deadline prefix (Returns url)
      (tick (world_at w k) (io_time e (poll_index w k)))
| path_timed_out (k : nat) :
    (forall j, (j < k)%nat ->
               path_ready prefix w j = None /\ clock_at w j < deadline) ->
    deadline <= clock_at w k ->
    path_wait w deadline prefix
      (Raises (TimeoutError
         ("Timed out waiting for path starting with " ++ prefix)))
      (world_at w k).

End Vocabulary.
End Polling.

(* ================================================================== *)
(** * Vocabulary for the statements about the retry coordinator *)
(* ================================================================== *)

Module Retry.
Import PyStr Py Json Llm.

Section Vocabulary.
Variable json_loads : decoder.
Variable APP_URL : string.
Variable ep : endpoint.
Variable model_name : string.

(** The text parses: [parse_action] returns [(obj, None)]. *)
Definition parses (t : string) (obj : json) : Prop :=
  SmokeTest.parse_action json_loads t = Returns (Some obj, None).

(** The text fails to parse: [parse_action] returns [(None, err)]. *)
Definition fails (t : string) (err : string) : Prop :=
  SmokeTest.parse_action json_loads t = Returns (None, Some err).

(** After the requests [h], the endpoint answers [req] with a response
    whose first choice holds the text [t]. *)
Definition answers (h : list request) (req : request) (t : string) : Prop :=
  exists r, ep h req = Returns r /\ first_content r = Returns t.

(** The request of the first corrective call, for the failure [err]. *)
Definition corrective_request (err : string) : request :=
  {| req_model := model_name;
     req_messages := SmokeTest.corrective_messages APP_URL (Some err);
     req_temperature := Some "0.1" |}.

(** The request of the final corrective call. *)
Definition final_request : request :=
  {| req_model := model_name;
     req_messages := SmokeTest.final_messages APP_URL;
     req_temperature := Some "0.1" |}.

(** The message of the terminal [ValueError]. *)
Definition exhausted_message (err last_response : string) : string :=
  "LLM did not return a valid action JSON after retries. Error: "
  ++ err ++ nl ++ "Last response: " ++ last_response.

Definition validate_and_retry (raw : string) : M (string * option json) :=
  SmokeTest.validate_and_retry_llm_response json_loads APP_URL ep raw model_name.

(** The request of the initial call of [ainvoke]. *)
Definition initial_request (messages : list message)
    (temperature : option string) : request :=
  {| req_model := model_name;
     req_messages := messages;
     req_temperature := Some (match temperature with
                              | Some t => t
                              | None => "0.1"
                              end) |}.

(** The text [ainvoke] hands to the coordinator for the model text [c]:
    the de-fenced text when that decodes, [c] itself otherwise. *)
Definition handed_content (c : string) : string :=
  match json_loads (SmokeTest.extract_json_content c) with
  | inl _ => SmokeTest.extract_json_content c
  | inr _ => c
  end.

End Vocabulary.
End Retry.

(* ================================================================== *)
(** * Vocabulary for the statements about [ainvoke] *)
(* ================================================================== *)

Module Entry.
Import PyStr Py Json Llm.

Section Vocabulary.
Variable py_str : SmokeTest.pyval -> string.

(** [ainvoke] gets as far as its request: the receiver has the three
    attributes the method reads, [client] and [model_name] being the
    last two; the arguments give the message list [messages]; and
    neither [messages] nor [model] is passed by keyword. *)
Definition reaches_request (self : SmokeTest.receiver)
    (args : list SmokeTest.pyval) (kw : SmokeTest.kwargs)
    (client : endpoint) (model_name : string) (messages : list message)
  : Prop :=
  (exists n, SmokeTest.self_call_count self = Some n)
  /\ SmokeTest.self_client self = Some client
  /\ SmokeTest.self_model self = Some model_name
  /\ SmokeTest.message_list py_str (SmokeTest.select_messages args)
     = Returns messages
  /\ SmokeTest.kw_messages kw = None
  /\ SmokeTest.kw_model kw = None.

(** The receiver once the call is counted: its counter is one more, if
    it has one, and nothing else has changed. *)
Definition counted (self : SmokeTest.receiver) : SmokeTest.receiver :=
  match SmokeTest.self_call_count self with
  | Some n =>
      {| SmokeTest.self_call_count := Some (n + 1);
         SmokeTest.self_client := SmokeTest.self_client self;
         SmokeTest.self_model := SmokeTest.self_model self |}
  | None => self
  end.

(** The value [ainvoke] takes as [messages]: the second argument when
    there are two and the first is the receiver, the first argument
    otherwise, the empty str when there is none. *)
Definition taken (args : list SmokeTest.pyval) : SmokeTest.pyval :=
  if Nat.eqb (List.length args) 2
     && SmokeTest.is_self (hd (SmokeTest.VStr EmptyString) args)
  then nth 1 args (SmokeTest.VStr EmptyString)
  else hd (SmokeTest.VStr EmptyString) args.

End Vocabulary.
End Entry.

(* ================================================================== *)
(** * The Action Parser as the specification words it *)
(* ================================================================== *)

Module Spec.
Import PyStr Py Json.



(** The text opens and closes with a triple-backtick delimiter (a [json]
    tag after the opening one changes nothing). *)
Definition fenced (t : string) : bool :=
  startswith t "```" && endswith t "```".

(** The lines strictly between the first and the last line. *)
Definition interior (t : string) : string :=
  join nl (drop_first_last (split t newline)).


(** Step 3: the text from the first opening brace to the last closing
    brace, inclusive; nothing when either is absent (index -1) or the
    last closing brace does not come after the first opening brace. *)
Definition brace_span (t : string) : option string :=
  let first := find t "{" in
  let last := rfind t "}" in
  if (first =? -1) || (last =? -1) || (last <=? first) then None
  else Some (slice t first (last + 1)).




End Spec.

(* ================================================================== *)
(** * Vocabulary for the statements about the normalizers *)
(* ================================================================== *)

Module Normalizer.
Import PyStr Py Json Llm.

Section Vocabulary.
Variable json_loads : decoder.

(** The text in which the braces are searched: the content trimmed,
    without the first and last line when it is fenced. *)
Definition searched (content : string) : string :=
  let t := strip content in
  if Spec.fenced t then Spec.interior t else t.

(** The content parses to [v]: there is a closing brace after the first
    opening brace, the text between them (inclusive) decodes to [v], and
    [v] holds the key [action].  The content fails to parse when this
    gives nothing: no JSON object, bad JSON, or no [action] key. *)
Definition parsed_object (content : string) : option json :=
  let t := searched content in
  let first := find t "{" in
  let last := rfind t "}" in
  if (0 <=? first) && (first <? last) then
    match json_loads (slice t first (last + 1)) with
    | inl v =>
        match py_in "action" v with
        | Returns true => Some v
        | _ => None
        end
    | inr _ => None
    end
  else None.

(** [content and isinstance(content, str)] *)
Definition usable (content : option string) : bool :=
  match content with
  | Some t => negb (String.eqb t EmptyString)
  | None => false
  end.

(** What [ai_smoke_test_clean.py] leaves on a choice. *)
Definition clean_result (c : choice) : choice :=
  match message_content c with
  | Some t =>
      if usable (Some t) then
        match parsed_object t with
        | Some v => set_action c v
        | None => set_action c SmokeTestClean.fallback_action
        end
      else c
  | None => c
  end.

(** What [ai_smoke_test.py] leaves on a choice. *)
Definition main_result (c : choice) : choice :=
  match message_content c with
  | Some t =>
      if usable (Some t) then
        match parsed_object t with
        | Some v => set_action c v
        | None => c
        end
      else c
  | None => c
  end.

End Vocabulary.

(** The usage record with every field zero. *)
Definition zero_usage : list (string * Z) :=
  [("prompt_tokens", 0); ("completion_tokens", 0); ("total_tokens", 0);
   ("prompt_cached_tokens", 0); ("prompt_cache_creation_tokens", 0);
   ("prompt_image_tokens", 0)].

End Normalizer.

(* ================================================================== *)
(** * Vocabulary for the statements about the parser *)
(* ================================================================== *)

Module Parser.
Import PyStr Py Json.



End Parser.

(* ================================================================== *)
(** * Inputs of the examples *)
(* ================================================================== *)

Module Examples.
Import PyStr Py Json Llm.

Definition app_url : string := "http://localhost:3000".

(** The end-to-end scenario of the specification: prose, then a fenced
    object. *)
Definition scenario_text : string :=
  "Here you go:" ++ nl ++ "```json" ++ nl
  ++ q "{'action': 'goto', 'params': {'url': 'http://localhost:3000'}}"
  ++ nl ++ "```".

Definition goto_action : json :=
  JObj [("action", JStr "goto");
        ("params", JObj [("url", JStr "http://localhost:3000")])].

(** A response with one choice holding [t]. *)
Definition reply (t : string) : response :=
  {| choices := [{| message_content := Some t; action := None |}];
     usage := UsageNone; model := "qwen2.5vl:3b"; created := 0;
     completion := None |}.

(** A stub that answers the k-th request with the k-th entry of a
    script, and raises once the script is over. *)
Definition scripted (script : list (outcome response)) : endpoint :=
  fun h _ => nth (List.length h) script (Raises (EndpointError "no more replies")).

Definition goto_text : string :=
  q "{'action': 'goto', 'params': {'url': 'http://localhost:3000'}}".

(** Fails to parse on turns 1 and 2 (the first is the raw text the stub
    is not asked for), valid on turn 3. *)
Definition stub_third_ok : endpoint :=
  scripted [Returns (reply "still thinking"); Returns (reply goto_text)].

(** Always fails to parse. *)
Definition stub_never_ok : endpoint :=
  scripted [Returns (reply "second"); Returns (reply "third")].

(** The first corrective call fails in transport, the final one answers. *)
Definition stub_outage_then_ok : endpoint :=
  scripted [Raises (EndpointError "connection refused");
            Returns (reply goto_text)].

(** The initial call of [ainvoke] fails in transport. *)
Definition stub_down : endpoint :=
  scripted [Raises (EndpointError "connection refused")].

(** The model answers with an object that has no [params], then with
    prose twice. *)
Definition stub_no_params : endpoint :=
  scripted [Returns (reply (q "{'action': 'goto'}"));
            Returns (reply "second"); Returns (reply "third")].

(** The model answers with prose three times. *)
Definition stub_prose : endpoint :=
  scripted [Returns (reply "first"); Returns (reply "second");
            Returns (reply "third")].

Definition model_name : string := "qwen2.5vl:3b".

(** A choice with the content [t] and no action yet. *)
Definition choice_of (t : string) : choice :=
  {| message_content := Some t; action := None |}.

(** A response with token counts 10, 5 and 15. *)
Definition counted_response : response :=
  {| choices := [choice_of goto_text];
     usage := UsageObj [("prompt_tokens", 10); ("completion_tokens", 5);
                        ("total_tokens", 15)];
     model := "qwen2.5vl:3b"; created := 0; completion := None |}.

(** A fenced block with its markers on lines of their own. *)
Definition fenced_text : string :=
  "```json" ++ nl ++ goto_text ++ nl ++ "```".

(** A fenced block on one line. *)
Definition one_line_fence : string := "```" ++ goto_text ++ "```".

(** A fence inside a fence, the inner markers on the lines of the
    object. *)
Definition nested_fence : string :=
  "```" ++ nl ++ "```" ++ q "{'action': 1," ++ nl ++ q "'params': 2}" ++ "```"
  ++ nl ++ "```".

(** A page on which nothing ever appears; checks and sleeps take no more
    time than asked. *)
Definition idle_page : StartSinglePlayer.env :=
  {| StartSinglePlayer.evaluate_js := fun _ => false;
     StartSinglePlayer.get_current_page_url := fun _ => None;
     StartSinglePlayer.io_time := fun _ => 0;
     StartSinglePlayer.sleep_lag := fun _ => 0 |}.

(** A page on which the button appears at the third check and the URL
    is right from the start; every check takes 30 ms and every sleep
    overruns by 5 ms. *)
Definition slow_page : StartSinglePlayer.env :=
  {| StartSinglePlayer.evaluate_js := fun k => Nat.eqb k 4;
     StartSinglePlayer.get_current_page_url :=
       fun _ => Some "/single-player/new";
     StartSinglePlayer.io_time := fun _ => 30;
     StartSinglePlayer.sleep_lag := fun _ => 5 |}.

Definition start_world : StartSinglePlayer.world :=
  {| StartSinglePlayer.now := 0; StartSinglePlayer.awaits := 0 |}.

Definition user_message : list message :=
  [{| role := "user"; content := "open the site" |}].

(** [str(v)] on the values of the examples. *)
Definition py_str (v : SmokeTest.pyval) : string :=
  match v with
  | SmokeTest.VStr s => s
  | SmokeTest.VList [] => "[]"
  | _ => "<object>"
  end.

(** No keyword at all. *)
Definition no_kwargs : SmokeTest.kwargs :=
  {| SmokeTest.kw_temperature := None;
     SmokeTest.kw_messages := None;
     SmokeTest.kw_model := None |}.

(** The message list of the examples, as the one positional argument. *)
Definition user_args : list SmokeTest.pyval :=
  [SmokeTest.VList [SmokeTest.VDict {| role := "user"; content := "open the site" |}]].



End Examples.

(* ================================================================== *)
(** * ai_smoke_test.py: the offline client *)
(* ================================================================== *)

Module Mock.
Import PyStr Py Json Llm.

(** [MockUsage]: three class attributes, all zero. *)
Definition MockUsage : usage_val :=
  UsageObj [("prompt_tokens", 0); ("completion_tokens", 0); ("total_tokens", 0)].

(** [MockResponse(content, model)]; [created] is [int(time.time())]. *)
Definition MockResponse (content model_name : string) (created_at : Z)
  : response :=
  {| choices := [{| message_content := Some content; action := None |}];
     usage := MockUsage;
     model := model_name;
     created := created_at;
     completion := None |}.

Section Client.
(** [json.dumps], of the Python library. *)
Variable dumps : json -> string.
Variable APP_URL : string.
(** [int(time.time())] at the call *)
Variable time_now : Z.

(** The dict [MockChatCompletions.create] builds. *)
Definition mock_action : json :=
  JObj [("action", JStr "goto"); ("params", JObj [("url", JStr APP_URL)])].

(** [MockChatCompletions.create(model, messages)] *)
Definition MockChatCompletions_create : endpoint :=
  fun _ req => Returns (MockResponse (dumps mock_action) (req_model req) time_now).

End Client.
End Mock.

(* ================================================================== *)
(** * An encoder for the examples *)
(* ================================================================== *)

Module JsonEncode.
Import PyStr Py Json.

(** [json_encode] writes a value the way [json.dumps] does with its
    default arguments: [", "] and [": "] as separators, and every
    character outside printable ASCII escaped. *)

Definition hex_digit (n : nat) : ascii :=
  nth n ["0"; "1"; "2"; "3"; "4"; "5"; "6"; "7"; "8"; "9";
         "a"; "b"; "c"; "d"; "e"; "f"]%char "0"%char.

Definition escape_char (c : ascii) : string :=
  let n := nat_of_ascii c in
  if Ascii.eqb c dquote then String "\" (String dquote EmptyString)
  else if Ascii.eqb c "\" then "\\"
  else if Ascii.eqb c "010" then "\n"
  else if Ascii.eqb c "013" then "\r"
  else if Ascii.eqb c "009" then "\t"
  else if Ascii.eqb c "008" then "\b"
  else if Ascii.eqb c "012" then "\f"
  else if ((n <? 32) || (126 <? n))%nat then
    "\u00" ++ String (hex_digit (n / 16)) (String (hex_digit (n mod 16)) EmptyString)
  else String c EmptyString.

Fixpoint escape (s : string) : string :=
  match s with
  | EmptyString => EmptyString
  | String c t => escape_char c ++ escape t
  end.

Definition encode_str (s : string) : string :=
  String dquote (escape s ++ String dquote EmptyString).

Fixpoint decimal (fuel : nat) (n : nat) (acc : string) : string :=
  match fuel with
  | O => acc
  | S f =>
      let d := String (ascii_of_nat (48 + n mod 10)) acc in
      if (n <? 10)%nat then d else decimal f (n / 10) d
  end.

Definition encode_int (z : Z) : string :=
  let n := Z.to_nat (Z.abs z) in
  (if z <? 0 then "-" else EmptyString) ++ decimal (S n) n EmptyString.

Fixpoint json_encode (v : json) : string :=
  match v with
  | JNull => "null"
  | JBool true => "true"
  | JBool false => "false"
  | JInt z => encode_int z
  | JFloat lexeme => lexeme
  | JStr s => encode_str s
  | JArr xs =>
      "[" ++ join ", " (map json_encode xs) ++ "]"
  | JObj kvs =>
      "{" ++ join ", "
               (map (fun kv => encode_str (fst kv) ++ ": " ++ json_encode (snd kv))
                    kvs)
      ++ "}"
  end.

End JsonEncode.

(* ================================================================== *)
(** * More inputs of the examples *)
(* ================================================================== *)

Module MoreExamples.
Import PyStr Py Json Llm.

(** The model answers with the braces the wrong way round. *)
Definition stub_reversed : endpoint :=
  Examples.scripted [Returns (Examples.reply "} then {")].

(** The model answers with the end-to-end scenario text. *)
Definition stub_scenario : endpoint :=
  Examples.scripted [Returns (Examples.reply Examples.scenario_text)].

(** The button is there at once, but the wait is given no time. *)
Definition late_world : StartSinglePlayer.world :=
  {| StartSinglePlayer.now := 0; StartSinglePlayer.awaits := 4 |}.

(** The offline client of the examples. *)
Definition mock_client : endpoint :=
  Mock.MockChatCompletions_create JsonEncode.json_encode Examples.app_url 1700000000.

End MoreExamples.

(* ================================================================== *)
(** * ai_smoke_test_clean.py: the entry point of the wrapper *)
(* ================================================================== *)

Module SmokeTestCleanEntry.
Import PyStr Py Json Llm.
Local Open Scope py_scope.

(** The keyword arguments a caller may pass. *)
Record kwargs : Type :=
  { kw_messages : option (list message);
    kw_model : option string;
    kw_temperature : option string }.

Section Wrapper.
Variable json_loads : decoder.
Variable ep : endpoint.
(** [self.model] *)
Variable wrapper_model : string.

(** [OpenAICompatWrapper.ainvoke], the positional arguments being
    message lists.  Passing [messages] both by position
    and by keyword makes the call of [create] itself raise. *)
Definition ainvoke (args : list (list message)) (kw : kwargs) : M response :=
  match args with
  | messages :: _ =>
      match kw_messages kw with
      | Some _ =>
          raise (TypeError "create() got multiple values for keyword argument 'messages'")
      | None =>
          SmokeTestClean.create json_loads ep wrapper_model (kw_model kw)
            messages (kw_temperature kw)
      end
  | [] =>
      match kw_messages kw with
      | Some messages =>
          SmokeTestClean.create json_loads ep wrapper_model (kw_model kw)
            messages (kw_temperature kw)
      | None => raise (ValueError "No messages provided to ainvoke")
      end
  end.

End Wrapper.
End SmokeTestCleanEntry.

(* ================================================================== *)
(** * start_single_player_test.py: the test run *)
(* ================================================================== *)

Module RunTest.
Import PyStr Py StartSinglePlayer.

(** The calls made on the browser, apart from the checks of the waits. *)
Inductive event : Type :=
| Start
| NavigateTo (url : string)
| Click (selector : string)
| TakeScreenshot (path : string)
| Stop.

(** What the browser and the file system do.  A result may depend on
    the number of awaits made so far; [randint] is the value of
    [random.randint(2, 10)]. *)
Record browser : Type :=
  { page : env;
    start_result : outcome unit;
    navigate_result : nat -> string -> outcome unit;
    click_result : nat -> string -> outcome unit;
    screenshot_result : nat -> string -> outcome unit;
    stop_result : nat -> outcome unit;
    mkdir_result : nat -> outcome unit;
    randint : Z }.

(** The clock, the calls made, and the local [session_started]. *)
Record rstate : Type :=
  { clock : world;
    log : list event;
    session_started : bool }.

(** A computation of the run: [None] when a wait runs out of fuel. *)
Definition R (A : Type) : Type := rstate -> option (outcome A * rstate).

Definition retR {A} (a : A) : R A := fun s => Some (Returns a, s).
Definition raiseR {A} (x : exn) : R A := fun s => Some (Raises x, s).

Definition bindR {A B} (m : R A) (k : A -> R B) : R B :=
  fun s =>
    match m s with
    | None => None
    | Some (Returns a, s') => k a s'
    | Some (Raises x, s') => Some (Raises x, s')
    end.

(** [try: body  except Exception: handler]: what does not derive from
    [Exception] goes past the handler. *)
Definition try_exceptR {A} (body : R A) (handler : exn -> R A) : R A :=
  fun s =>
    match body s with
    | None => None
    | Some (Returns a, s') => Some (Returns a, s')
    | Some (Raises x, s') =>
        if any_Exception x then handler x s' else Some (Raises x, s')
    end.

(** [try: body  finally: final]: an exception of [final] replaces the
    outcome of [body]. *)
Definition finallyR {A} (body : R A) (final : R unit) : R A :=
  fun s =>
    match body s with
    | None => None
    | Some (o, s') =>
        match final s' with
        | None => None
        | Some (Returns _, s'') => Some (o, s'')
        | Some (Raises y, s'') => Some (Raises y, s'')
        end
    end.

Section Run.
Variable b : browser.
(** [urlparse(url)]: its path, scheme and netloc *)
Variable url_path : string -> string.
Variable url_scheme : string -> string.
Variable url_netloc : string -> string.
Variable APP_URL : string.
(** [str(ARTIFACT_DIR / name)] *)
Variable artifact_path : string -> string.
(** Fuel of each wait *)
Variable fuel : nat.

(** An awaited call on the browser: it is logged, takes its time, and
    returns or raises. *)
Definition call (ev : event) (result : nat -> outcome unit) : R unit :=
  fun s =>
    Some (result (awaits (clock s)),
          {| clock := tick (clock s) (io_time (page b) (awaits (clock s)));
             log := log s ++ [ev];
             session_started := session_started s |}).

Definition wait_for_selector (selector : string) : R unit :=
  fun s =>
    match _wait_for_selector (page b) fuel selector default_timeout (clock s) with
    | None => None
    | Some (r, w') =>
        Some (r, {| clock := w'; log := log s;
                    session_started := session_started s |})
    end.

Definition wait_for_path (prefix : string) : R string :=
  fun s =>
    match _wait_for_path (page b) url_path fuel prefix default_timeout (clock s) with
    | None => None
    | Some (r, w') =>
        Some (r, {| clock := w'; log := log s;
                    session_started := session_started s |})
    end.

(** [_click_selector]: the script raises when the element is missing or
    disabled. *)
Definition _click_selector (selector : string) : R unit :=
  call (Click selector) (fun k => click_result b k selector).

Definition navigate_to (url : string) : R unit :=
  call (NavigateTo url) (fun k => navigate_result b k url).

Definition take_screenshot (path : string) : R unit :=
  call (TakeScreenshot path) (fun k => screenshot_result b k path).

(** [ARTIFACT_DIR.mkdir(parents=True, exist_ok=True)] *)
Definition mkdir : R unit :=
  fun s => Some (mkdir_result b (awaits (clock s)), s).

(** [await browser.get_current_page_url()] *)
Definition current_page_url : R (option string) :=
  fun s =>
    Some (Returns (get_current_page_url (page b) (awaits (clock s))),
          {| clock := tick (clock s) (io_time (page b) (awaits (clock s)));
             log := log s;
             session_started := session_started s |}).

Definition _select_random_player_count : R unit :=
  let count := randint b in
  let selector :=
    "[data-testid='player-count-" ++ JsonEncode.encode_int count ++ "']" in
  bindR (wait_for_selector selector) (fun _ => _click_selector selector).

Definition _click_create_lineup : R unit :=
  let selector := "[data-testid='create-lineup']" in
  bindR (wait_for_selector selector) (fun _ => _click_selector selector).

Definition success_screenshot : string := artifact_path "start-single-player.png".
Definition failure_screenshot : string :=
  artifact_path "start-single-player-error.png".

(** [x or y] for a str-or-None [x] *)
Definition or_else (x : option string) (y : string) : string :=
  match x with
  | Some u => if String.eqb u EmptyString then y else u
  | None => y
  end.

(** The [try] block of [run_test]. *)
Definition body : R string :=
  bindR (call Start (fun _ => start_result b)) (fun _ =>
  bindR (fun s => Some (Returns tt,
                        {| clock := clock s; log := log s;
                           session_started := true |})) (fun _ =>
  bindR (navigate_to APP_URL) (fun _ =>
  let start_button_selector := "[aria-label='Start Single Player']" in
  bindR (wait_for_selector start_button_selector) (fun _ =>
  bindR (_click_selector start_button_selector) (fun _ =>
  bindR (wait_for_path "/single-player") (fun reached_url =>
  bindR (if negb (startswith (url_path reached_url) "/single-player/new") then
           let base := url_scheme reached_url ++ "://" ++ url_netloc reached_url in
           let target_url := base ++ "/single-player/new" in
           bindR (navigate_to target_url) (fun _ =>
           wait_for_path "/single-player/new")
         else retR reached_url) (fun success_url =>
  bindR _select_random_player_count (fun _ =>
  bindR _click_create_lineup (fun _ =>
  bindR current_page_url (fun current =>
  let final_url := or_else current success_url in
  bindR mkdir (fun _ =>
  bindR (try_exceptR (take_screenshot success_screenshot) (fun _ => retR tt))
    (fun _ =>
  retR final_url)))))))))))).

(** The [except Exception] block. *)
Definition on_exception (x : exn) : R string :=
  bindR mkdir (fun _ =>
  bindR (fun s =>
           if session_started s
           then try_exceptR (take_screenshot failure_screenshot)
                  (fun _ => retR tt) s
           else retR tt s) (fun _ =>
  raiseR x)).

(** The [finally] block. *)
Definition cleanup : R unit :=
  fun s =>
    if session_started s then call Stop (stop_result b) s else retR tt s.

Definition run_test : R string :=
  finallyR (try_exceptR body on_exception) cleanup.

(** The state [run_test] starts in, at the clock [w]. *)
Definition initial (w : world) : rstate :=
  {| clock := w; log := []; session_started := false |}.

End Run.

(** The computation ends from every state. *)
Definition total {A} (m : R A) : Prop :=
  forall s, exists o s', m s = Some (o, s').

End RunTest.

Module RunExamples.
Import Py.

(** A browser that starts but whose first navigation fails; whatever
    else is asked of it succeeds. *)
Definition unreachable_app : RunTest.browser :=
  {| RunTest.page := Examples.idle_page;
     RunTest.start_result := Returns tt;
     RunTest.navigate_result :=
       fun _ _ => Raises (EndpointError "net::ERR_CONNECTION_REFUSED");
     RunTest.click_result := fun _ _ => Returns tt;
     RunTest.screenshot_result := fun _ _ => Returns tt;
     RunTest.stop_result := fun _ => Returns tt;
     RunTest.mkdir_result := fun _ => Returns tt;
     RunTest.randint := 4 |}.

End RunExamples.

(* ================================================================== *)
(** * Facts about the string operations *)
(* ================================================================== *)

Module PyStrFacts.
Import PyStr.

Lemma find_ge (s : string) (c : ascii) : -1 <= find s c.
Proof.
  induction s as [|a t IH]; simpl; [lia|].
  destruct (Ascii.eqb a c); [lia|].
  destruct (find t c =? -1); lia.
Qed.

Lemma rfind_ge (s : string) (c : ascii) : -1 <= rfind s c.
Proof.
  induction s as [|a t IH]; simpl; [lia|].
  destruct (rfind t c =? -1); [destruct (Ascii.eqb a c)|]; lia.
Qed.

(** A non-empty slice taken at the index [find] returns starts with the
    needle. *)
Lemma substring_at_find (s : string) (c : ascii) (n : nat) :
  0 <= find s c ->
  exists t, substring (Z.to_nat (find s c)) (S n) s = String c t.
Proof.
  induction s as [|a t IH]; simpl; [lia|].
  destruct (Ascii.eqb a c) eqn:E.
  - intros _. apply Ascii.eqb_eq in E. subst a. simpl. eauto.
  - destruct (find t c =? -1) eqn:F; [lia|].
    intros _. apply Z.eqb_neq in F.
    pose proof (find_ge t c) as G.
    replace (Z.to_nat (find t c + 1)) with (S (Z.to_nat (find t c))) by lia.
    simpl. apply IH. lia.
Qed.

Lemma slice_at_find (s : string) (c : ascii) (j : Z) :
  0 <= find s c -> find s c < j ->
  exists t, slice s (find s c) j = String c t.
Proof.
  intros H0 Hj. unfold slice.
  destruct (Z.to_nat (j - find s c)) as [|n] eqn:E; [lia|].
  now apply substring_at_find.
Qed.

(** A text that starts with [p ++ r] starts with [p]. *)
Lemma startswith_app (p r t : string) :
  startswith t (p ++ r) = true -> startswith t p = true.
Proof.
  revert t. induction p as [|a p IH]; intros t; [destruct t; reflexivity|].
  destruct t as [|b t]; simpl; [discriminate|].
  intros H. apply andb_true_iff in H as [H1 H2].
  rewrite H1. simpl. now apply IH.
Qed.

Lemma rfind_lt_length (s : string) (c : ascii) :
  rfind s c < Z.of_nat (length s).
Proof.
  induction s as [|a t IH]; [simpl; lia|].
  cbn [rfind length]. rewrite Nat2Z.inj_succ.
  destruct (rfind t c =? -1); [destruct (Ascii.eqb a c)|]; lia.
Qed.

(** White space holds no character that is not white space. *)
Lemma find_all_space (w : string) (c : ascii) :
  all_space w = true -> is_space c = false -> find w c = -1.
Proof.
  intros W C. induction w as [|a t IH]; [reflexivity|].
  simpl in W. apply andb_true_iff in W as [A W]. simpl.
  destruct (Ascii.eqb_spec a c) as [->|_]; [congruence|].
  now rewrite (IH W).
Qed.

Lemma rfind_all_space (w : string) (c : ascii) :
  all_space w = true -> is_space c = false -> rfind w c = -1.
Proof.
  intros W C. induction w as [|a t IH]; [reflexivity|].
  simpl in W. apply andb_true_iff in W as [A W]. simpl.
  rewrite (IH W). simpl.
  destruct (Ascii.eqb_spec a c) as [->|_]; [congruence|reflexivity].
Qed.

(** Trailing white space moves neither index. *)
Lemma find_app_space (u w : string) (c : ascii) :
  all_space w = true -> is_space c = false -> find (u ++ w) c = find u c.
Proof.
  intros W C. induction u as [|a t IH]; simpl.
  - now apply find_all_space.
  - now rewrite IH.
Qed.

Lemma rfind_app_space (u w : string) (c : ascii) :
  all_space w = true -> is_space c = false -> rfind (u ++ w) c = rfind u c.
Proof.
  intros W C. induction u as [|a t IH]; simpl.
  - now apply rfind_all_space.
  - now rewrite IH.
Qed.

(** A slice that ends inside [u] does not see what follows [u]. *)
Lemma substring_app (u w : string) (i n : nat) :
  (i + n <= length u)%nat -> substring i n (u ++ w) = substring i n u.
Proof.
  revert i n. induction u as [|a t IH]; intros i n L; simpl in L.
  - assert (i = 0%nat) by lia. assert (n = 0%nat) by lia. subst.
    simpl. now destruct w.
  - destruct i as [|i]; simpl.
    + destruct n as [|n]; [reflexivity|]. f_equal. apply IH. lia.
    + apply IH. lia.
Qed.

(** What [rstrip] removes is white space. *)
Lemma rstrip_app (s : string) :
  exists w, s = rstrip s ++ w /\ all_space w = true.
Proof.
  induction s as [|a t (w & E & W)]; [now exists EmptyString|].
  simpl. destruct (rstrip t) as [|b r] eqn:R.
  - simpl in E. subst t. destruct (is_space a) eqn:A.
    + exists (String a w). simpl. now rewrite A, W.
    + now exists w.
  - exists w. split; [|assumption]. simpl. now rewrite E at 1.
Qed.

(** Leading white space shifts both indices by one. *)
Lemma brace_span_cons_space (a : ascii) (t : string) :
  is_space a = true -> Spec.brace_span (String a t) = Spec.brace_span t.
Proof.
  intros A. unfold Spec.brace_span. simpl.
  destruct (Ascii.eqb_spec a "{") as [->|_]; [discriminate|].
  destruct (Ascii.eqb_spec a "}") as [->|_]; [discriminate|].
  pose proof (find_ge t "{"). pose proof (rfind_ge t "}").
  destruct (Z.eqb_spec (find t "{") (-1)) as [F|F]; [reflexivity|].
  destruct (Z.eqb_spec (rfind t "}") (-1)) as [G|G]; simpl.
  - rewrite orb_true_r. reflexivity.
  - destruct (Z.eqb_spec (find t "{" + 1) (-1)); [lia|].
    destruct (Z.eqb_spec (rfind t "}" + 1) (-1)); [lia|]. simpl.
    destruct (Z.leb_spec (rfind t "}") (find t "{")),
      (Z.leb_spec (rfind t "}" + 1) (find t "{" + 1)); try lia; [reflexivity|].
    f_equal. unfold slice.
    replace (Z.to_nat (find t "{" + 1)) with (S (Z.to_nat (find t "{"))) by lia.
    replace (rfind t "}" + 1 + 1 - (find t "{" + 1))
      with (rfind t "}" + 1 - find t "{") by lia.
    reflexivity.
Qed.

Lemma brace_span_lstrip (s : string) :
  Spec.brace_span (lstrip s) = Spec.brace_span s.
Proof.
  induction s as [|a t IH]; [reflexivity|].
  simpl. destruct (is_space a) eqn:A; [|reflexivity].
  now rewrite brace_span_cons_space.
Qed.

Lemma brace_span_app_space (u w : string) :
  all_space w = true -> Spec.brace_span (u ++ w) = Spec.brace_span u.
Proof.
  intros W. unfold Spec.brace_span.
  rewrite (find_app_space u w "{" W eq_refl), (rfind_app_space u w "}" W eq_refl).
  destruct (_ || _ || _) eqn:C; [reflexivity|].
  apply orb_false_iff in C as [C C3]. apply orb_false_iff in C as [C1 C2].
  apply Z.eqb_neq in C1. apply Z.leb_gt in C3.
  pose proof (find_ge u "{"). pose proof (rfind_lt_length u "}").
  f_equal. unfold slice. apply substring_app. lia.
Qed.

Lemma brace_span_rstrip (s : string) :
  Spec.brace_span (rstrip s) = Spec.brace_span s.
Proof.
  destruct (rstrip_app s) as (w & E & W).
  rewrite E at 2. symmetry. now apply brace_span_app_space.
Qed.

(** Trimming a text does not change what lies between its braces. *)
Lemma brace_span_strip (s : string) :
  Spec.brace_span (strip s) = Spec.brace_span s.
Proof.
  unfold strip. now rewrite brace_span_lstrip, brace_span_rstrip.
Qed.

End PyStrFacts.

Module JsonFacts.
Import PyStr Py Json.

(** A text that starts with a brace decodes to an object or not at all. *)
Lemma json_decode_object (s : string) (v : json) :
  json_decode (String "{" s) = inl v -> exists kvs, v = JObj kvs.
Proof.
  unfold json_decode.
  change (parse_value (S (length (String "{" s))) (String "{" s))
    with (match skip_ws s with
          | String "}" r => Scanned (JObj []) r
          | _ => match parse_members (length (String "{" s)) s [] with
                 | Scanned kvs r => Scanned (JObj kvs) r
                 | Invalid => Invalid
                 | OverLimit => OverLimit
                 end
          end).
  destruct (skip_ws s) as [|a r].
  - destruct (parse_members _ s []) as [kvs r| |] eqn:P; try discriminate.
    destruct (skip_ws r); [|discriminate]. intros [= <-]. eauto.
  - destruct a as [[] [] [] [] [] [] [] []];
      try (destruct (parse_members _ s []) as [kvs r'| |] eqn:P; try discriminate;
           destruct (skip_ws r'); [|discriminate]; intros [= <-]; eauto).
    destruct (skip_ws r); [|discriminate]. intros [= <-]. eauto.
Qed.

End JsonFacts.

(* ================================================================== *)
(** * The Action Parser *)
(* ================================================================== *)

Section ParserProofs.
Import PyStr Py Json Llm PyStrFacts.
Variable json_loads : decoder.

(** The two branches of the fence test remove the same lines. *)
Lemma strip_code_fence_spec (t : string) :
  SmokeTest.strip_code_fence t = if Spec.fenced t then Spec.interior t else t.
Proof.
  unfold SmokeTest.strip_code_fence, Spec.fenced, Spec.interior.
  destruct (startswith t "```json") eqn:J, (endswith t "```") eqn:E;
    simpl; try reflexivity.
  now rewrite (startswith_app "```" "json" t J).
Qed.

(** json.loads gives an object for a text that opens with a brace. *)
Hypothesis json_loads_object :
  forall s v, json_loads (String "{" s) = inl v -> exists kvs, v = JObj kvs.


End ParserProofs.



(* ================================================================== *)
(** * The Retry Coordinator *)
(* ================================================================== *)

Section RetryProofs.
Import PyStr Py Json Llm Retry.
Variable json_loads : decoder.
Variable APP_URL : string.
Variable ep : endpoint.
Variable model_name : string.

(** Every error text of [parse_action] is a non-empty str, so [if err]
    separates its two kinds of result. *)
Lemma parse_action_result (t : string) (o : option json) (e : option string) :
  SmokeTest.parse_action json_loads t = Returns (o, e) ->
  (exists obj, o = Some obj /\ e = None)
  \/ (o = None /\ exists s, e = Some s /\ truthy (Some s) = true).
Proof.
  unfold SmokeTest.parse_action.
  set (c := SmokeTest.strip_code_fence (strip t)).
  destruct (_ || _ || _); [intros [= <- <-]; right; eauto|].
  unfold loads. destruct (json_loads _) as [obj|[d|m|m]]; simpl;
    try discriminate.
  - destruct (py_in "action" obj) as [[]|]; simpl; try discriminate.
    + destruct (py_in "params" obj) as [[]|]; simpl; try discriminate;
        intros [= <- <-]; [left|right]; eauto.
    + intros [= <- <-]; right; eauto.
  - intros [= <- <-]; right; eauto.
Qed.

Lemma fails_truthy (t err : string) :
  fails json_loads t err -> truthy (Some err) = true.
Proof.
  intros F. destruct (parse_action_result _ _ _ F) as [(o & ? & ?)|(_ & s & E & T)];
    [discriminate|]. now injection E as ->.
Qed.

Local Ltac run_attempt :=
  unfold SmokeTest.attempt, try_exceptM, bindM, call, lift, ret; simpl.

(** A corrective attempt makes exactly one call. *)
Lemma attempt_calls msgs obj err h :
  snd (SmokeTest.attempt json_loads ep model_name msgs obj err h)
  = (h ++ [{| req_model := model_name; req_messages := msgs;
              req_temperature := Some "0.1" |}])%list.
Proof.
  run_attempt. destruct (ep h _) as [r|x]; [|now destruct (any_Exception x)].
  destruct (first_content r) as [t|x]; [|now destruct (any_Exception x)].
  destruct (SmokeTest.parse_action json_loads t) as [[o e]|x];
    [|now destruct (any_Exception x)].
  destruct (truthy e); reflexivity.
Qed.

(** What an attempt lets through does not derive from [Exception]:
    whatever else happens inside is caught. *)
Lemma attempt_raises msgs obj err h x :
  fst (SmokeTest.attempt json_loads ep model_name msgs obj err h) = Raises x ->
  any_Exception x = false.
Proof.
  run_attempt. destruct (ep h _) as [r|y].
  2:{ destruct (any_Exception y) eqn:A; simpl; [discriminate|congruence]. }
  destruct (first_content r) as [t|y].
  2:{ destruct (any_Exception y) eqn:A; simpl; [discriminate|congruence]. }
  destruct (SmokeTest.parse_action json_loads t) as [[o e]|y].
  2:{ destruct (any_Exception y) eqn:A; simpl; [discriminate|congruence]. }
  destruct (truthy e); discriminate.
Qed.

Lemma attempt_parses msgs obj err h t o :
  answers ep h {| req_model := model_name; req_messages := msgs;
                  req_temperature := Some "0.1" |} t ->
  parses json_loads t o ->
  fst (SmokeTest.attempt json_loads ep model_name msgs obj err h)
  = Returns (Return_ (t, Some o)).
Proof.
  intros (r & E & C) P. run_attempt. rewrite E, C, P. reflexivity.
Qed.

Lemma attempt_fails msgs obj err h t e :
  answers ep h {| req_model := model_name; req_messages := msgs;
                  req_temperature := Some "0.1" |} t ->
  fails json_loads t e ->
  fst (SmokeTest.attempt json_loads ep model_name msgs obj err h)
  = Returns (Fallthrough (None, Some e)).
Proof.
  intros (r & E & C) F. pose proof (fails_truthy _ _ F) as T.
  run_attempt. rewrite E, C, F. simpl in T |- *. now rewrite T.
Qed.

(** A transport failure that derives from [Exception] is caught; [obj]
    and [err] stay as they were.  Any other is let through. *)
Lemma attempt_transport_failure msgs obj err h x :
  ep h {| req_model := model_name; req_messages := msgs;
          req_temperature := Some "0.1" |} = Raises x ->
  fst (SmokeTest.attempt json_loads ep model_name msgs obj err h)
  = if any_Exception x then Returns (Fallthrough (obj, err)) else Raises x.
Proof.
  intros E. run_attempt. rewrite E. now destruct (any_Exception x).
Qed.

(** The coordinator in terms of its two attempts, once the raw text has
    failed to parse. *)
Lemma validate_after_failure raw e0 h :
  fails json_loads raw e0 ->
  validate_and_retry json_loads APP_URL ep model_name raw h
  = let a1 := SmokeTest.attempt json_loads ep model_name
                (SmokeTest.corrective_messages APP_URL (Some e0)) None (Some e0) h in
    match fst a1 with
    | Returns (Return_ v) => (Returns v, snd a1)
    | Returns (Fallthrough (obj1, err1)) =>
        let a2 := SmokeTest.attempt json_loads ep model_name
                    (SmokeTest.final_messages APP_URL) obj1 err1 (snd a1) in
        match fst a2 with
        | Returns (Return_ v) => (Returns v, snd a2)
        | Returns (Fallthrough (_, err2)) =>
            (Raises (ValueError
               (exhausted_message (SmokeTest.format_opt err2) raw)), snd a2)
        | Raises x => (Raises x, snd a2)
        end
    | Raises x => (Raises x, snd a1)
    end.
Proof.
  intros F. pose proof (fails_truthy _ _ F) as T.
  unfold validate_and_retry, SmokeTest.validate_and_retry_llm_response.
  unfold bindM at 1. unfold lift at 1. rewrite F. rewrite T.
  unfold bindM at 1.
  destruct (SmokeTest.attempt _ _ _ _ None (Some e0) h) as [[[v|[obj1 err1]]|x] h1];
    simpl; try reflexivity.
  unfold bindM at 1.
  destruct (SmokeTest.attempt _ _ _ _ obj1 err1 h1) as [[[v|[obj2 err2]]|x] h2];
    simpl; reflexivity.
Qed.

(** C2.  The four runs of the coordinator, by what parses: the raw text
    (no call), the answer to the first corrective call (one call), the
    answer to the final corrective call (two calls), nothing (the
    terminal [ValueError] after two calls); and in every run, whatever
    the stub does, the requests made are the earlier ones followed by at
    most two more. *)
Theorem validate_and_retry_runs (raw : string) (h : list request) :
  let run := validate_and_retry json_loads APP_URL ep model_name raw h in
  let req1 := corrective_request APP_URL model_name in
  let req2 := final_request APP_URL model_name in
  (forall obj, parses json_loads raw obj -> run = (Returns (raw, Some obj), h))
  /\ (forall e0 t1 obj1,
         fails json_loads raw e0 ->
         answers ep h (req1 e0) t1 -> parses json_loads t1 obj1 ->
         run = (Returns (t1, Some obj1), h ++ [req1 e0])%list)
  /\ (forall e0 t1 e1 t2 obj2,
         fails json_loads raw e0 ->
         answers ep h (req1 e0) t1 -> fails json_loads t1 e1 ->
         answers ep (h ++ [req1 e0]) req2 t2 -> parses json_loads t2 obj2 ->
         run = (Returns (t2, Some obj2), h ++ [req1 e0; req2])%list)
  /\ (forall e0 t1 e1 t2 e2,
         fails json_loads raw e0 ->
         answers ep h (req1 e0) t1 -> fails json_loads t1 e1 ->
         answers ep (h ++ [req1 e0]) req2 t2 -> fails json_loads t2 e2 ->
         run = (Raises (ValueError (exhausted_message e2 raw)),
                h ++ [req1 e0; req2])%list)
  /\ (exists extra, snd run = (h ++ extra)%list /\ (List.length extra <= 2)%nat).
Proof.
  cbv zeta. repeat split.
  - intros obj P. unfold validate_and_retry, SmokeTest.validate_and_retry_llm_response.
    unfold bindM, lift. rewrite P. reflexivity.
  - intros e0 t1 obj1 F A1 P1. rewrite (validate_after_failure _ _ _ F). cbv zeta.
    rewrite attempt_calls.
    now rewrite (attempt_parses _ _ _ _ _ _ A1 P1).
  - intros e0 t1 e1 t2 obj2 F A1 F1 A2 P2.
    rewrite (validate_after_failure _ _ _ F). cbv zeta.
    rewrite (attempt_fails _ _ _ _ _ _ A1 F1), !attempt_calls.
    rewrite (attempt_parses _ _ _ _ _ _ A2 P2).
    rewrite <- app_assoc. reflexivity.
  - intros e0 t1 e1 t2 e2 F A1 F1 A2 F2.
    rewrite (validate_after_failure _ _ _ F). cbv zeta.
    rewrite (attempt_fails _ _ _ _ _ _ A1 F1), !attempt_calls.
    rewrite (attempt_fails _ _ _ _ _ _ A2 F2).
    rewrite <- app_assoc. reflexivity.
  - unfold validate_and_retry, SmokeTest.validate_and_retry_llm_response.
    unfold bindM at 1. unfold lift at 1.
    destruct (SmokeTest.parse_action json_loads raw) as [[obj err]|x] eqn:P.
    2:{ exists []. split; [simpl; now rewrite app_nil_r|simpl; lia]. }
    destruct (truthy err) eqn:T.
    2:{ exists []. split; [simpl; now rewrite app_nil_r|simpl; lia]. }
    unfold bindM at 1.
    pose proof (attempt_calls (SmokeTest.corrective_messages APP_URL err) obj err h) as C1.
    destruct (SmokeTest.attempt _ _ _ _ obj err h) as [[[v|[obj1 err1]]|x] h1];
      simpl in C1; subst h1; simpl; try (eexists [_]; split; [reflexivity|simpl; lia]).
    unfold bindM at 1.
    pose proof (attempt_calls (SmokeTest.final_messages APP_URL) obj1 err1
                  (h ++ [{| req_model := model_name;
                            req_messages := SmokeTest.corrective_messages APP_URL err;
                            req_temperature := Some "0.1" |}])) as C2.
    destruct (SmokeTest.attempt _ _ _ _ obj1 err1 _) as [[[v|[obj2 err2]]|x] h2];
      simpl in C2; subst h2; simpl;
      (eexists [_; _]; split; [rewrite <- app_assoc; reflexivity|simpl; lia]).
Qed.

End RetryProofs.

(** C2 at two stubs: one that fails to parse on turns 1 and 2 and is
    valid on turn 3, one that never parses. *)
Lemma validate_and_retry_runs_witness :
  Retry.validate_and_retry Json.json_decode Examples.app_url
    Examples.stub_third_ok Examples.model_name "no json here" []
  = (Py.Returns (Examples.goto_text, Some Examples.goto_action),
     [Retry.corrective_request Examples.app_url Examples.model_name "no-json";
      Retry.final_request Examples.app_url Examples.model_name])
  /\ Retry.validate_and_retry Json.json_decode Examples.app_url
       Examples.stub_never_ok Examples.model_name "first" []
     = (Py.Raises (Py.ValueError (Retry.exhausted_message "no-json" "first")),
        [Retry.corrective_request Examples.app_url Examples.model_name "no-json";
         Retry.final_request Examples.app_url Examples.model_name]).
Proof.
  split.
  - pose proof (validate_and_retry_runs Json.json_decode Examples.app_url
                  Examples.stub_third_ok Examples.model_name "no json here" [])
      as H.
    cbv zeta in H. destruct H as (_ & _ & H & _).
    apply (H "no-json" "still thinking" "no-json").
    + reflexivity.
    + eexists; split; reflexivity.
    + reflexivity.
    + eexists; split; reflexivity.
    + vm_compute. reflexivity.
  - pose proof (validate_and_retry_runs Json.json_decode Examples.app_url
                  Examples.stub_never_ok Examples.model_name "first" [])
      as H.
    cbv zeta in H. destruct H as (_ & _ & _ & H & _).
    apply (H "no-json" "second" "no-json" "third").
    + reflexivity.
    + eexists; split; reflexivity.
    + reflexivity.
    + eexists; split; reflexivity.
    + reflexivity.
Defined.

(** C3 (the code at the failing input).  The raw text is [first]; the
    stub answers the two corrective calls with [second] and [third], and
    none of the three parses.  The terminal error holds the failure of
    the last attempt, and after [Last response:] the raw text of the
    first attempt; the text of the last attempt, [third], is nowhere in
    it. *)
Theorem exhausted_error_keeps_first_response :
  exists msg,
    Retry.validate_and_retry Json.json_decode Examples.app_url
      Examples.stub_never_ok Examples.model_name "first" []
    = (Py.Raises (Py.ValueError msg),
       [Retry.corrective_request Examples.app_url Examples.model_name "no-json";
        Retry.final_request Examples.app_url Examples.model_name])
    /\ Llm.first_content (Examples.reply "third")  = Py.Returns "third"
    /\ Examples.stub_never_ok
         [Retry.corrective_request Examples.app_url Examples.model_name "no-json"]
         (Retry.final_request Examples.app_url Examples.model_name)
       = Py.Returns (Examples.reply "third")
    /\ msg = "LLM did not return a valid action JSON after retries. Error: no-json"
             ++ PyStr.nl ++ "Last response: first"
    /\ PyStr.contains msg "third" = false.
Proof.
  eexists. split; [vm_compute; reflexivity|].
  repeat split; reflexivity.
Qed.

Section TransportProofs.
Import PyStr Py Json Llm Retry.
Variable json_loads : decoder.
Variable APP_URL : string.
Variable ep : endpoint.
Variable model_name : string.

(** Once the raw text has gone through [parse_action], the coordinator
    raises its terminal [ValueError], or what does not derive from
    [Exception], and nothing else. *)
Lemma validate_and_retry_raises raw h x :
  (exists r, SmokeTest.parse_action json_loads raw = Returns r) ->
  fst (validate_and_retry json_loads APP_URL ep model_name raw h) = Raises x ->
  (exists m, x = ValueError m) \/ any_Exception x = false.
Proof.
  intros [[o e] P].
  destruct (parse_action_result json_loads _ _ _ P) as [(obj & -> & ->)|(-> & s & -> & T)].
  - unfold validate_and_retry, SmokeTest.validate_and_retry_llm_response.
    unfold bindM, lift. rewrite P. simpl. discriminate.
  - rewrite (validate_after_failure json_loads APP_URL ep model_name raw s h P).
    cbv zeta.
    pose proof (attempt_raises json_loads ep model_name
                  (SmokeTest.corrective_messages APP_URL (Some s)) None (Some s) h)
      as R1.
    destruct (fst (SmokeTest.attempt json_loads ep model_name
                     (SmokeTest.corrective_messages APP_URL (Some s))
                     None (Some s) h))
      as [[v|[obj1 err1]]|y]; simpl.
    + discriminate.
    + pose proof (attempt_raises json_loads ep model_name
                    (SmokeTest.final_messages APP_URL) obj1 err1
                    (snd (SmokeTest.attempt json_loads ep model_name
                            (SmokeTest.corrective_messages APP_URL (Some s))
                            None (Some s) h)))
        as R2.
      destruct (fst (SmokeTest.attempt json_loads ep model_name
                       (SmokeTest.final_messages APP_URL) obj1 err1 _))
        as [[v|[obj2 err2]]|y]; simpl.
      * discriminate.
      * intros [= <-]. left. eauto.
      * intros [= <-]. right. now apply R2.
    + intros [= <-]. right. now apply R1.
Qed.

(** Up to its request, [ainvoke] only counts the call. *)
Lemma ainvoke_reaches (py_str : SmokeTest.pyval -> string)
    (self : SmokeTest.receiver) (args : list SmokeTest.pyval)
    (kw : SmokeTest.kwargs) (messages : list message) (h : list request) :
  Entry.reaches_request py_str self args kw ep model_name messages ->
  SmokeTest.ainvoke json_loads APP_URL py_str self args kw h
  = (fst (SmokeTest.ainvoke_body json_loads APP_URL ep model_name messages
            (SmokeTest.kw_temperature kw) h),
     Entry.counted self,
     snd (SmokeTest.ainvoke_body json_loads APP_URL ep model_name messages
            (SmokeTest.kw_temperature kw) h)).
Proof.
  intros ([n N] & C & M & L & K1 & K2).
  unfold SmokeTest.ainvoke, Entry.counted, SmokeTest.count_call.
  rewrite N. cbn [SmokeTest.self_client SmokeTest.self_model].
  rewrite L, C, M, K1, K2.
  now destruct (SmokeTest.ainvoke_body _ _ _ _ _ _ _).
Qed.

(** An exception of the initial call leaves the [try] statement as it
    is. *)
Lemma ainvoke_body_endpoint_raises (messages : list message)
    (temperature : option string) (h : list request) (x : exn) :
  ep h (initial_request model_name messages temperature) = Raises x ->
  SmokeTest.ainvoke_body json_loads APP_URL ep model_name messages temperature h
  = (Raises x, h ++ [initial_request model_name messages temperature])%list.
Proof.
  intros E.
  unfold SmokeTest.ainvoke_body, try_exceptM. unfold bindM at 1. unfold call at 1.
  fold (initial_request model_name messages temperature). rewrite E.
  now destruct (any_Exception x).
Qed.

(** C4, as amended.  (a) An exception of the initial model call of
    [ainvoke] reaches the caller at once, after that one request.  (b) An
    exception of the first corrective call that derives from [Exception]
    is caught: the final corrective call is still made, and when that
    one raises such an exception too the run ends with the terminal
    [ValueError], which holds the failure of the raw text.  (c) Such an
    exception of the final corrective call is caught as well and ends
    the run with the terminal [ValueError].  An exception of a
    corrective call that does not derive from [Exception] reaches the
    caller at once.  (d) The coordinator raises nothing else. *)
Theorem transport_failures (h : list request) :
  (forall py_str self args kw messages x,
      Entry.reaches_request py_str self args kw ep model_name messages ->
      ep h (initial_request model_name messages (SmokeTest.kw_temperature kw))
      = Raises x ->
      SmokeTest.ainvoke json_loads APP_URL py_str self args kw h
      = (Raises x, Entry.counted self,
         h ++ [initial_request model_name messages (SmokeTest.kw_temperature kw)])%list)
  /\ (forall raw e0 x,
         fails json_loads raw e0 ->
         ep h (corrective_request APP_URL model_name e0) = Raises x ->
         if any_Exception x then
           snd (validate_and_retry json_loads APP_URL ep model_name raw h)
           = (h ++ [corrective_request APP_URL model_name e0;
                    final_request APP_URL model_name])%list
           /\ forall y,
               ep (h ++ [corrective_request APP_URL model_name e0])%list
                  (final_request APP_URL model_name) = Raises y ->
               fst (validate_and_retry json_loads APP_URL ep model_name raw h)
               = if any_Exception y
                 then Raises (ValueError (exhausted_message e0 raw))
                 else Raises y
         else
           validate_and_retry json_loads APP_URL ep model_name raw h
           = (Raises x, h ++ [corrective_request APP_URL model_name e0])%list)
  /\ (forall raw e0 t1 e1 y,
         fails json_loads raw e0 ->
         answers ep h (corrective_request APP_URL model_name e0) t1 ->
         fails json_loads t1 e1 ->
         ep (h ++ [corrective_request APP_URL model_name e0])%list
            (final_request APP_URL model_name) = Raises y ->
         validate_and_retry json_loads APP_URL ep model_name raw h
         = (if any_Exception y
            then Raises (ValueError (exhausted_message e1 raw))
            else Raises y,
            h ++ [corrective_request APP_URL model_name e0;
                  final_request APP_URL model_name])%list)
  /\ (forall raw x,
         (exists r, SmokeTest.parse_action json_loads raw = Returns r) ->
         fst (validate_and_retry json_loads APP_URL ep model_name raw h) = Raises x ->
         (exists m, x = ValueError m) \/ any_Exception x = false).
Proof.
  repeat apply conj.
  - intros py_str self args kw messages x R E.
    rewrite (ainvoke_reaches py_str self args kw messages h R).
    now rewrite (ainvoke_body_endpoint_raises messages _ h x E).
  - intros raw e0 x F E.
    rewrite (validate_after_failure json_loads APP_URL ep model_name raw e0 h F).
    cbv zeta.
    rewrite (attempt_transport_failure json_loads ep model_name _ _ _ _ _ E).
    rewrite attempt_calls.
    destruct (any_Exception x); [|reflexivity].
    split.
    + pose proof (attempt_calls json_loads ep model_name
                    (SmokeTest.final_messages APP_URL) None (Some e0)
                    (h ++ [corrective_request APP_URL model_name e0])) as C.
      unfold corrective_request in C |- *.
      destruct (SmokeTest.attempt json_loads ep model_name
                  (SmokeTest.final_messages APP_URL) None (Some e0) _)
        as [[[v|[obj2 err2]]|y] h2];
        simpl in C |- *; subst h2; rewrite <- app_assoc; reflexivity.
    + intros y E2.
      unfold corrective_request in E2.
      rewrite (attempt_transport_failure json_loads ep model_name _ _ _ _ _ E2).
      now destruct (any_Exception y).
  - intros raw e0 t1 e1 y F A1 F1 E2.
    rewrite (validate_after_failure json_loads APP_URL ep model_name raw e0 h F).
    cbv zeta.
    rewrite (attempt_fails json_loads ep model_name _ _ _ _ _ _ A1 F1), !attempt_calls.
    unfold corrective_request in E2.
    rewrite (attempt_transport_failure json_loads ep model_name _ _ _ _ _ E2).
    rewrite <- app_assoc. now destruct (any_Exception y).
  - intros raw x. apply validate_and_retry_raises.
Qed.

End TransportProofs.

(** C4 as stated fails.  The first corrective call raises in transport;
    the coordinator makes the final corrective call all the same and
    returns its action. *)
Lemma transport_failure_drives_retry :
  Examples.stub_outage_then_ok []
    (Retry.corrective_request Examples.app_url Examples.model_name "no-json")
  = Py.Raises (Py.EndpointError "connection refused")
  /\ Retry.validate_and_retry Json.json_decode Examples.app_url
       Examples.stub_outage_then_ok Examples.model_name "no json here" []
     = (Py.Returns (Examples.goto_text, Some Examples.goto_action),
        [Retry.corrective_request Examples.app_url Examples.model_name "no-json";
         Retry.final_request Examples.app_url Examples.model_name]).
Proof.
  split; vm_compute; reflexivity.
Qed.

(** C4, amended, at an endpoint that is down, the receiver having the
    attributes of an [OpenAICompatWrapper]. *)
Lemma transport_failures_witness :
  SmokeTest.ainvoke Json.json_decode Examples.app_url Examples.py_str
    (SmokeTest.OpenAICompatWrapper Examples.stub_down Examples.model_name)
    Examples.user_args Examples.no_kwargs []
  = (Py.Raises (Py.EndpointError "connection refused"),
     Entry.counted
       (SmokeTest.OpenAICompatWrapper Examples.stub_down Examples.model_name),
     [Retry.initial_request Examples.model_name Examples.user_message None]).
Proof.
  apply (proj1 (transport_failures Json.json_decode Examples.app_url
                  Examples.stub_down Examples.model_name [])
           Examples.py_str
           (SmokeTest.OpenAICompatWrapper Examples.stub_down Examples.model_name)
           Examples.user_args Examples.no_kwargs Examples.user_message).
  - repeat split. exists 0. reflexivity.
  - reflexivity.
Defined.

(* ================================================================== *)
(** * The entry point [ainvoke] *)
(* ================================================================== *)

Section AinvokeProofs.
Import PyStr Py Json Llm Retry.
Variable json_loads : decoder.
Variable APP_URL : string.
Variable ep : endpoint.
Variable model_name : string.
Variable py_str : SmokeTest.pyval -> string.

(** The [try] statement when the coordinator raises a [ValueError]. *)
Lemma ainvoke_body_on_exhaustion (messages : list message)
    (temperature : option string) (h h' : list request)
    (r0 : response) (c0 m : string) :
  ep h (initial_request model_name messages temperature) = Returns r0 ->
  first_content r0 = Returns c0 ->
  validate_and_retry json_loads APP_URL ep model_name
    (handed_content json_loads c0)
    (h ++ [initial_request model_name messages temperature])%list
  = (Raises (ValueError m), h') ->
  SmokeTest.ainvoke_body json_loads APP_URL ep model_name messages temperature h
  = (Returns
       {| SmokeTest.resp_content := handed_content json_loads c0;
          SmokeTest.resp_completion := handed_content json_loads c0;
          SmokeTest.resp_usage :=
            if usage_truthy (usage r0) then usage_record (usage r0)
            else usage_record UsageNone;
          SmokeTest.resp_action :=
            match json_loads (handed_content json_loads c0) with
            | inl v => v
            | inr _ => SmokeTest.error_action
            end |},
     h').
Proof.
  intros E C V.
  unfold SmokeTest.ainvoke_body, try_exceptM at 1.
  unfold bindM at 1. unfold call at 1.
  fold (initial_request model_name messages temperature). rewrite E.
  unfold bindM at 1. unfold lift at 1. rewrite C.
  assert (K : match loads json_loads (SmokeTest.extract_json_content c0) with
              | Returns _ => SmokeTest.extract_json_content c0
              | Raises _ => c0
              end = handed_content json_loads c0).
  { unfold handed_content, loads.
    now destruct (json_loads (SmokeTest.extract_json_content c0)). }
  rewrite K.
  unfold bindM at 1. unfold try_exceptM at 1. unfold bindM at 1.
  unfold validate_and_retry in V. rewrite V. simpl.
  unfold ret, loads.
  now destruct (json_loads (handed_content json_loads c0)).
Qed.

(** C10, as amended.  For a receiver that has the attributes [ainvoke]
    reads: when the coordinator raises its terminal error, [ainvoke]
    catches it and returns a response object; its text is the text that
    was handed to the coordinator, and its action is what that text
    decodes to, or the substitute [{action: error, params: {}}] when it
    does not decode. *)
Theorem ainvoke_on_exhaustion (self : SmokeTest.receiver)
    (args : list SmokeTest.pyval) (kw : SmokeTest.kwargs)
    (messages : list message) (h h' : list request)
    (r0 : response) (c0 m : string) :
  Entry.reaches_request py_str self args kw ep model_name messages ->
  ep h (initial_request model_name messages (SmokeTest.kw_temperature kw))
  = Returns r0 ->
  first_content r0 = Returns c0 ->
  validate_and_retry json_loads APP_URL ep model_name
    (handed_content json_loads c0)
    (h ++ [initial_request model_name messages (SmokeTest.kw_temperature kw)])%list
  = (Raises (ValueError m), h') ->
  SmokeTest.ainvoke json_loads APP_URL py_str self args kw h
  = (Returns
       {| SmokeTest.resp_content := handed_content json_loads c0;
          SmokeTest.resp_completion := handed_content json_loads c0;
          SmokeTest.resp_usage :=
            if usage_truthy (usage r0) then usage_record (usage r0)
            else usage_record UsageNone;
          SmokeTest.resp_action :=
            match json_loads (handed_content json_loads c0) with
            | inl v => v
            | inr _ => SmokeTest.error_action
            end |},
     Entry.counted self,
     h').
Proof.
  intros R E C V.
  rewrite (ainvoke_reaches json_loads APP_URL ep model_name py_str
             self args kw messages h R).
  now rewrite (ainvoke_body_on_exhaustion messages _ h h' r0 c0 m E C V).
Qed.

End AinvokeProofs.

(** C10 as stated fails.  The receiver has the attributes of an
    [OpenAICompatWrapper].  The model answers with an object that lacks
    [params]; the two corrective answers are prose, so the coordinator
    raises.  The text [ainvoke] keeps is valid JSON, and the action of
    the response is that object, not the substitute. *)
Lemma exhausted_content_may_be_json :
  exists m,
    Retry.validate_and_retry Json.json_decode Examples.app_url
      Examples.stub_no_params Examples.model_name
      (PyStr.q "{'action': 'goto'}")
      [Retry.initial_request Examples.model_name Examples.user_message None]
    = (Py.Raises (Py.ValueError m),
       [Retry.initial_request Examples.model_name Examples.user_message None;
        Retry.corrective_request Examples.app_url Examples.model_name "no-params";
        Retry.final_request Examples.app_url Examples.model_name])
    /\ fst (fst (SmokeTest.ainvoke Json.json_decode Examples.app_url
                   Examples.py_str
                   (SmokeTest.OpenAICompatWrapper Examples.stub_no_params
                      Examples.model_name)
                   Examples.user_args Examples.no_kwargs []))
       = Py.Returns
           {| SmokeTest.resp_content := PyStr.q "{'action': 'goto'}";
              SmokeTest.resp_completion := PyStr.q "{'action': 'goto'}";
              SmokeTest.resp_usage := Llm.usage_record Llm.UsageNone;
              SmokeTest.resp_action := Json.JObj [("action", Json.JStr "goto")] |}.
Proof.
  eexists. split; vm_compute; reflexivity.
Qed.

(** C10, amended, at a model that answers with prose three times: the
    response carries the first text and the substitute action. *)
Lemma ainvoke_on_exhaustion_witness :
  SmokeTest.ainvoke Json.json_decode Examples.app_url Examples.py_str
    (SmokeTest.OpenAICompatWrapper Examples.stub_prose Examples.model_name)
    Examples.user_args Examples.no_kwargs []
  = (Py.Returns
       {| SmokeTest.resp_content := "first";
          SmokeTest.resp_completion := "first";
          SmokeTest.resp_usage := Llm.usage_record Llm.UsageNone;
          SmokeTest.resp_action := SmokeTest.error_action |},
     Entry.counted
       (SmokeTest.OpenAICompatWrapper Examples.stub_prose Examples.model_name),
     [Retry.initial_request Examples.model_name Examples.user_message None;
      Retry.corrective_request Examples.app_url Examples.model_name "no-json";
      Retry.final_request Examples.app_url Examples.model_name]).
Proof.
  apply (ainvoke_on_exhaustion Json.json_decode Examples.app_url
           Examples.stub_prose Examples.model_name Examples.py_str
           (SmokeTest.OpenAICompatWrapper Examples.stub_prose Examples.model_name)
           Examples.user_args Examples.no_kwargs Examples.user_message
           [] _ (Examples.reply "first") "first"
           (Retry.exhausted_message "no-json" "first")).
  - repeat split. exists 0. reflexivity.
  - reflexivity.
  - reflexivity.
  - vm_compute. reflexivity.
Defined.

(* ================================================================== *)
(** * The Response Normalizers *)
(* ================================================================== *)

Section NormalizerProofs.
Import PyStr Py Json Llm Normalizer PyStrFacts.
Variable json_loads : decoder.

(** The guard of the brace search, in the two ways it is written. *)
Lemma brace_guard (t : string) :
  negb (find t "{" =? -1) && negb (rfind t "}" =? -1) && (find t "{" <? rfind t "}")
  = (0 <=? find t "{") && (find t "{" <? rfind t "}").
Proof.
  pose proof (find_ge t "{"). pose proof (rfind_ge t "}").
  destruct (Z.eqb_spec (find t "{") (-1)), (Z.eqb_spec (rfind t "}") (-1)),
    (Z.ltb_spec (find t "{") (rfind t "}")), (Z.leb_spec 0 (find t "{"));
    simpl; try reflexivity; lia.
Qed.

(** The loop body of [ai_smoke_test_clean.py] never raises, and leaves
    [clean_result]. *)
Lemma clean_transform_choice (c : choice) :
  SmokeTestClean.transform_choice json_loads c
  = Returns (clean_result json_loads c).
Proof.
  unfold SmokeTestClean.transform_choice, clean_result, usable.
  destruct (message_content c) as [t|]; [|reflexivity].
  destruct (negb (String.eqb t EmptyString)); [|reflexivity].
  unfold parsed_object, searched. rewrite <- strip_code_fence_spec.
  rewrite brace_guard.
  destruct ((0 <=? _) && _); [|reflexivity].
  unfold loads. destruct (json_loads _) as [v|[d|m|m]]; try reflexivity.
  simpl. destruct v as [|b|n|l|u|xs|kvs]; simpl; try reflexivity.
  - now destruct (contains u "action").
  - now destruct (existsb (is_JStr "action") xs).
  - now destruct (has_key "action" kvs).
Qed.

(** The loop body of [ai_smoke_test.py] never raises, and leaves
    [main_result]. *)
Lemma main_transform_choice (c : choice) :
  SmokeTest.transform_choice json_loads c
  = Returns (main_result json_loads c).
Proof.
  unfold SmokeTest.transform_choice, main_result, usable.
  destruct (message_content c) as [t|]; [|reflexivity].
  destruct (negb (String.eqb t EmptyString)); [|reflexivity].
  unfold parsed_object, searched. rewrite <- strip_code_fence_spec.
  rewrite brace_guard.
  destruct ((0 <=? _) && _); [|reflexivity].
  unfold loads. destruct (json_loads _) as [v|[d|m|m]]; try reflexivity.
  simpl. destruct v as [|b|n|l|u|xs|kvs]; simpl; try reflexivity.
  - now destruct (contains u "action").
  - now destruct (existsb (is_JStr "action") xs).
  - now destruct (has_key "action" kvs).
Qed.

(** A loop whose body never raises visits every choice. *)
Lemma for_each_total (f : choice -> outcome choice) (g : choice -> choice)
    (cs : list choice) :
  (forall c, f c = Returns (g c)) ->
  SmokeTest.for_each f cs = Returns (map g cs).
Proof.
  intros F. induction cs as [|c r IH]; [reflexivity|].
  simpl. rewrite F, IH. reflexivity.
Qed.

(** C5, as amended.  Neither normalizer raises, and each choice gets its
    own result whatever the other choices hold.  In
    [ai_smoke_test_clean.py] a choice whose content is a non-empty str
    that fails to parse gets the fallback action, and one whose content
    is empty or [None] is left as it is; in [ai_smoke_test.py] a choice
    whose content fails to parse is left as it is. *)
Theorem normalizers_never_raise (cs : list choice) :
  SmokeTestClean._transform_choices json_loads cs
  = Returns (map (clean_result json_loads) cs)
  /\ SmokeTest._transform_choices json_loads cs
     = Returns (map (main_result json_loads) cs)
  /\ (forall c t,
         message_content c = Some t -> t <> EmptyString ->
         parsed_object json_loads t = None ->
         clean_result json_loads c = set_action c SmokeTestClean.fallback_action
         /\ main_result json_loads c = c)
  /\ (forall c,
         usable (message_content c) = false ->
         clean_result json_loads c = c /\ main_result json_loads c = c).
Proof.
  repeat apply conj.
  - apply for_each_total, clean_transform_choice.
  - apply for_each_total, main_transform_choice.
  - intros c t M N P. unfold clean_result, main_result, usable.
    rewrite M, P. apply String.eqb_neq in N. rewrite N. simpl. split; reflexivity.
  - intros c U. unfold clean_result, main_result.
    destruct (message_content c) as [t|]; [rewrite U|]; split; reflexivity.
Qed.

End NormalizerProofs.

(** C5 as stated fails.  The clean normalizer leaves a choice with empty
    content without any action; the normalizer of [ai_smoke_test.py]
    leaves a choice whose content holds no JSON without any action, and
    goes on to the next choice. *)
Lemma malformed_choice_without_fallback :
  SmokeTestClean._transform_choices Json.json_decode
    [Examples.choice_of EmptyString]
  = Py.Returns [Examples.choice_of EmptyString]
  /\ SmokeTest._transform_choices Json.json_decode
       [Examples.choice_of "no json here"; Examples.choice_of Examples.goto_text]
     = Py.Returns [Examples.choice_of "no json here";
                   Llm.set_action (Examples.choice_of Examples.goto_text)
                     Examples.goto_action].
Proof.
  split; vm_compute; reflexivity.
Qed.

(** C5, amended, at a response with a malformed and a well-formed
    choice. *)
Lemma normalizers_never_raise_witness :
  SmokeTestClean._transform_choices Json.json_decode
    [Examples.choice_of "no json here"; Examples.choice_of Examples.goto_text]
  = Py.Returns [Llm.set_action (Examples.choice_of "no json here")
                  SmokeTestClean.fallback_action;
                Llm.set_action (Examples.choice_of Examples.goto_text)
                  Examples.goto_action].
Proof.
  rewrite (proj1 (normalizers_never_raise Json.json_decode _)).
  vm_compute. reflexivity.
Defined.

(* ================================================================== *)
(** * The keys of the actions produced *)
(* ================================================================== *)

Section ActionProofs.
Import PyStr Py Json Llm Normalizer PyStrFacts.
Variable json_loads : decoder.

Hypothesis json_loads_object :
  forall s v, json_loads (String "{" s) = inl v -> exists kvs, v = JObj kvs.

(** What the normalizers take from the content is an object with the key
    [action]. *)
Lemma parsed_object_has_action (t : string) (v : json) :
  parsed_object json_loads t = Some v ->
  exists kvs, v = JObj kvs /\ has_key "action" kvs = true.
Proof.
  unfold parsed_object. set (u := searched t).
  destruct ((0 <=? find u "{") && (find u "{" <? rfind u "}")) eqn:G;
    [|discriminate].
  apply andb_true_iff in G as [G1 G2].
  apply Z.leb_le in G1. apply Z.ltb_lt in G2.
  destruct (slice_at_find u "{" (rfind u "}" + 1)) as [rest Hs]; [lia|lia|].
  rewrite Hs.
  destruct (json_loads (String "{" rest)) as [w|d] eqn:D; [|discriminate].
  destruct (json_loads_object _ _ D) as [kvs ->]. simpl.
  destruct (has_key "action" kvs) eqn:K; [|discriminate].
  intros [= <-]. eauto.
Qed.

(** C7, as amended.  The object [parse_action] returns on success holds
    the keys [action] and [params].  An action a normalizer attaches to a
    choice is a decoded object that holds the key [action], or (in
    [ai_smoke_test_clean.py]) the fallback.  The action
    [FixedOpenAIWrapper.ainvoke] attaches is the fallback or whatever the
    text between the braces decodes to.  The value under [action] is not
    looked at anywhere. *)
Theorem produced_actions :
  (forall raw obj,
      SmokeTest.parse_action json_loads raw = Returns (Some obj, None) ->
      exists kvs, obj = JObj kvs
                  /\ has_key "action" kvs = true /\ has_key "params" kvs = true)
  /\ (forall c c' a,
         SmokeTestClean.transform_choice json_loads c = Returns c' ->
         action c' = Some a ->
         action c = Some a
         \/ a = SmokeTestClean.fallback_action
         \/ exists kvs, a = JObj kvs /\ has_key "action" kvs = true)
  /\ (forall c c' a,
         SmokeTest.transform_choice json_loads c = Returns c' ->
         action c' = Some a ->
         action c = Some a
         \/ exists kvs, a = JObj kvs /\ has_key "action" kvs = true)
  /\ (forall content,
         SmokeTestFixed.extract_action json_loads content
         = SmokeTestFixed.fallback_action
         \/ exists t v,
             content = Some t
             /\ json_loads (slice t (find t "{") (rfind t "}" + 1)) = inl v
             /\ SmokeTestFixed.extract_action json_loads content = v).
Proof.
  repeat apply conj.
  - intros raw obj P. unfold SmokeTest.parse_action in P.
    set (t := SmokeTest.strip_code_fence (strip raw)) in P.
    destruct ((find t "{" =? -1) || (rfind t "}" =? -1)
              || (rfind t "}" <=? find t "{")) eqn:C; [discriminate|].
    apply orb_false_iff in C as [C C3]. apply orb_false_iff in C as [C1 C2].
    apply Z.eqb_neq in C1. apply Z.leb_gt in C3.
    pose proof (find_ge t "{") as Hi.
    destruct (slice_at_find t "{" (rfind t "}" + 1)) as [rest Hs]; [lia|lia|].
    unfold loads in P. rewrite Hs in P.
    destruct (json_loads (String "{" rest)) as [w|[d|m|m]] eqn:D;
      try discriminate.
    destruct (json_loads_object _ _ D) as [kvs ->]. simpl in P.
    destruct (has_key "action" kvs) eqn:A; [|discriminate].
    destruct (has_key "params" kvs) eqn:B; [|discriminate].
    simpl in P. injection P as <-. eauto.
  - intros c c' a T A. rewrite clean_transform_choice in T. injection T as <-.
    unfold clean_result in A.
    destruct (message_content c) as [t|]; [|now left].
    destruct (usable (Some t)); [|now left].
    destruct (parsed_object json_loads t) as [v|] eqn:P; simpl in A;
      injection A as <-; [|now right; left].
    right; right. now apply (parsed_object_has_action t).
  - intros c c' a T A. rewrite main_transform_choice in T. injection T as <-.
    unfold main_result in A.
    destruct (message_content c) as [t|]; [|now left].
    destruct (usable (Some t)); [|now left].
    destruct (parsed_object json_loads t) as [v|] eqn:P; [|now left].
    simpl in A. injection A as <-.
    right. now apply (parsed_object_has_action t).
  - intros [t|]; [|now left].
    unfold SmokeTestFixed.extract_action. simpl.
    destruct (contains t "{" && contains t "}"); [|now left].
    unfold loads.
    destruct (json_loads _) as [v|[d|m|m]] eqn:D; try (now left).
    right. exists t, v. auto.
Qed.

End ActionProofs.

(** C7 as stated fails.  [parse_action] succeeds on an object whose
    [action] is the empty string; the clean normalizer attaches an object
    with a numeric [action] and no [params]; [FixedOpenAIWrapper.ainvoke]
    attaches an object with neither key. *)
Lemma produced_action_unchecked :
  SmokeTest.parse_action Json.json_decode (PyStr.q "{'action': '', 'params': {}}")
  = Py.Returns (Some (Json.JObj [("action", Json.JStr EmptyString);
                                 ("params", Json.JObj [])]), None)
  /\ SmokeTestClean._transform_choices Json.json_decode
       [Examples.choice_of (PyStr.q "{'action': 7}")]
     = Py.Returns [Llm.set_action (Examples.choice_of (PyStr.q "{'action': 7}"))
                     (Json.JObj [("action", Json.JInt 7)])]
  /\ SmokeTestFixed.extract_action Json.json_decode (Some (PyStr.q "{'foo': 1}"))
     = Json.JObj [("foo", Json.JInt 1)].
Proof.
  repeat split; vm_compute; reflexivity.
Qed.

(** C7, amended, at the end-to-end scenario of the specification. *)
Lemma produced_actions_witness :
  exists kvs,
    Examples.goto_action = Json.JObj kvs
    /\ Json.has_key "action" kvs = true /\ Json.has_key "params" kvs = true.
Proof.
  apply (proj1 (produced_actions Json.json_decode JsonFacts.json_decode_object)
           Examples.scenario_text).
  vm_compute. reflexivity.
Defined.

(* ================================================================== *)
(** * Normalizing twice *)
(* ================================================================== *)

Section IdempotenceProofs.
Import PyStr Py Json Llm Normalizer.
Variable json_loads : decoder.

(** The result of the clean loop body is a fixed point of it. *)
Lemma clean_result_idempotent (c : choice) :
  clean_result json_loads (clean_result json_loads c) = clean_result json_loads c.
Proof.
  unfold clean_result.
  destruct (message_content c) as [t|] eqn:M; [|now rewrite M].
  destruct (usable (Some t)) eqn:U; [|now rewrite M, U].
  destruct (parsed_object json_loads t) as [v|] eqn:P;
    unfold set_action; cbn [message_content]; rewrite M, U, P; reflexivity.
Qed.

(** The loop body never touches the content. *)
Lemma clean_result_content (c : choice) :
  message_content (clean_result json_loads c) = message_content c.
Proof.
  unfold clean_result.
  destruct (message_content c) as [t|] eqn:M; [|assumption].
  destruct (usable (Some t)); [|assumption].
  now destruct (parsed_object json_loads t).
Qed.

Lemma clean_normalize (r : response) :
  SmokeTestClean.normalize json_loads r
  = Returns (SmokeTestClean.fix_usage
       {| choices := map (clean_result json_loads) (choices r);
          usage := usage r; model := model r; created := created r;
          completion := Some match choices r with
                             | c :: _ => message_content c
                             | [] => Some EmptyString
                             end |}).
Proof.
  unfold SmokeTestClean.normalize, SmokeTestClean.OpenAIResponseInterceptor.
  unfold SmokeTestClean._transform_choices.
  rewrite (for_each_total _ _ _ (clean_transform_choice json_loads)).
  reflexivity.
Qed.

(** C8, as amended.  Normalizing never raises.  A second normalization
    leaves the choices, with their actions, and every other attribute
    but [usage] as the first one left them.  When the response had a
    usage that is true, the first normalization stores the record read
    from it and the second one stores the record with every field zero:
    the cache and image fields stay zero, while [prompt_tokens],
    [completion_tokens] and [total_tokens] are reset.  When the response
    had no usage, both leave it alone. *)
Theorem second_normalization (r : response) :
  exists r1 r2,
    SmokeTestClean.normalize json_loads r = Returns r1
    /\ SmokeTestClean.normalize json_loads r1 = Returns r2
    /\ choices r2 = choices r1
    /\ model r2 = model r1 /\ created r2 = created r1
    /\ completion r2 = completion r1
    /\ (if usage_truthy (usage r)
        then usage r1 = UsageDict (usage_record (usage r))
             /\ usage r2 = UsageDict zero_usage
        else usage r1 = usage r /\ usage r2 = usage r).
Proof.
  eexists. eexists. split; [apply clean_normalize|].
  split; [apply clean_normalize|].
  unfold SmokeTestClean.fix_usage. simpl.
  assert (C : map (clean_result json_loads)
                (map (clean_result json_loads) (choices r))
              = map (clean_result json_loads) (choices r)).
  { rewrite map_map. apply map_ext, clean_result_idempotent. }
  assert (K : match map (clean_result json_loads) (choices r) with
              | [] => Some EmptyString
              | c :: _ => message_content c
              end
              = match choices r with
                | [] => Some EmptyString
                | c :: _ => message_content c
                end).
  { destruct (choices r) as [|c cs]; [reflexivity|apply clean_result_content]. }
  destruct (usage_truthy (usage r)) eqn:U; simpl.
  - rewrite C, K. repeat split.
  - rewrite U. simpl. rewrite C, K. repeat split.
Qed.

End IdempotenceProofs.

(** C8 as stated fails.  The response reports 10, 5 and 15 tokens.  The
    first normalization stores them in the usage record; the second one
    stores zeros in their place. *)
Lemma second_normalization_resets_usage :
  exists r1 r2,
    SmokeTestClean.normalize Json.json_decode Examples.counted_response
    = Py.Returns r1
    /\ SmokeTestClean.normalize Json.json_decode r1 = Py.Returns r2
    /\ Llm.usage r1
       = Llm.UsageDict
           [("prompt_tokens", 10); ("completion_tokens", 5); ("total_tokens", 15);
            ("prompt_cached_tokens", 0); ("prompt_cache_creation_tokens", 0);
            ("prompt_image_tokens", 0)]
    /\ Llm.usage r2
       = Llm.UsageDict
           [("prompt_tokens", 0); ("completion_tokens", 0); ("total_tokens", 0);
            ("prompt_cached_tokens", 0); ("prompt_cache_creation_tokens", 0);
            ("prompt_image_tokens", 0)]
    /\ Llm.choices r2 = Llm.choices r1.
Proof.
  eexists. eexists.
  split; [vm_compute; reflexivity|].
  split; [vm_compute; reflexivity|].
  repeat split; reflexivity.
Qed.

(* ================================================================== *)
(** * Fenced and unfenced text *)
(* ================================================================== *)

Section FenceProofs.
Import PyStr Py Json Llm PyStrFacts.
Variable json_loads : decoder.

(** [parse_action] depends on its text through the brace span of the
    trimmed, de-fenced text only. *)
Lemma parse_action_by_span (a b : string) :
  Spec.brace_span (SmokeTest.strip_code_fence (strip a))
  = Spec.brace_span (SmokeTest.strip_code_fence (strip b)) ->
  SmokeTest.parse_action json_loads a = SmokeTest.parse_action json_loads b.
Proof.
  unfold SmokeTest.parse_action, Spec.brace_span.
  set (ta := SmokeTest.strip_code_fence (strip a)).
  set (tb := SmokeTest.strip_code_fence (strip b)).
  destruct ((find ta "{" =? -1) || _ || _), ((find tb "{" =? -1) || _ || _);
    try discriminate; [reflexivity|].
  intros [= ->]. reflexivity.
Qed.

(** C6, as amended.  When the trimmed text opens and closes with a
    triple backtick, [parse_action] gives what it gives for the lines
    strictly between the first and the last line, provided these lines,
    once trimmed, do not open and close with a triple backtick
    themselves. *)
Theorem parse_action_fenced (raw : string) :
  Spec.fenced (strip raw) = true ->
  Spec.fenced (strip (Spec.interior (strip raw))) = false ->
  SmokeTest.parse_action json_loads raw
  = SmokeTest.parse_action json_loads (Spec.interior (strip raw)).
Proof.
  intros F N. apply parse_action_by_span.
  rewrite !strip_code_fence_spec, F, N.
  symmetry. apply brace_span_strip.
Qed.

End FenceProofs.

(** C6 as stated fails.  In [nested_fence] the interior lines are fenced
    again, with the inner markers on the lines of the object: the whole
    text parses, its interior does not.  In [one_line_fence] the markers
    and the object share one line: the text between the markers parses,
    the fenced text does not. *)
Lemma fenced_differs_from_unfenced :
  (Spec.fenced (PyStr.strip Examples.nested_fence) = true
   /\ SmokeTest.parse_action Json.json_decode Examples.nested_fence
      = Py.Returns (Some (Json.JObj [("action", Json.JInt 1);
                                     ("params", Json.JInt 2)]), None)
   /\ SmokeTest.parse_action Json.json_decode
        (Spec.interior (PyStr.strip Examples.nested_fence))
      = Py.Returns (None, Some "no-json"))
  /\ (Spec.fenced (PyStr.strip Examples.one_line_fence) = true
      /\ Examples.one_line_fence = "```" ++ Examples.goto_text ++ "```"
      /\ SmokeTest.parse_action Json.json_decode Examples.one_line_fence
         = Py.Returns (None, Some "no-json")
      /\ SmokeTest.parse_action Json.json_decode Examples.goto_text
         = Py.Returns (Some Examples.goto_action, None)).
Proof.
  repeat split; vm_compute; reflexivity.
Qed.

(** C6, amended, at a fenced block tagged [json]. *)
Lemma parse_action_fenced_witness :
  SmokeTest.parse_action Json.json_decode Examples.fenced_text
  = SmokeTest.parse_action Json.json_decode Examples.goto_text.
Proof.
  exact (parse_action_fenced Json.json_decode Examples.fenced_text
           eq_refl eq_refl).
Defined.

(* ================================================================== *)
(** * The polling waits *)
(* ================================================================== *)

Section PollingProofs.
Import PyStr Py StartSinglePlayer Polling.
Variable e : env.
Variable url_path : string -> string.

(** No await takes negative time, and a sleep lasts at least the delay
    asked for. *)
Hypothesis io_time_nonneg : forall k, 0 <= io_time e k.
Hypothesis sleep_lag_nonneg : forall k, 0 <= sleep_lag e k.

Lemma poll_index_succ (w : world) (k : nat) :
  S (S (poll_index w k)) = poll_index w (S k).
Proof. unfold poll_index. lia. Qed.

Lemma world_at_start (w : world) : world_at e w 0 = w.
Proof.
  destruct w as [t n]. unfold world_at, poll_index. simpl. f_equal. lia.
Qed.

(** After a check that did not hold and the sleep, the next check. *)
Lemma world_at_next (w : world) (k : nat) :
  asyncio_sleep e 200 (tick (world_at e w k) (io_time e (poll_index w k)))
  = world_at e w (S k).
Proof.
  unfold asyncio_sleep, tick, world_at. cbn [now awaits clock_at].
  f_equal. apply poll_index_succ.
Qed.

(** The clock does not go back from one check to the next. *)
Lemma clock_at_next (w : world) (k : nat) :
  clock_at e w k + 200 <= clock_at e w (S k).
Proof.
  cbn [clock_at]. pose proof (io_time_nonneg (poll_index w k)).
  pose proof (sleep_lag_nonneg (S (poll_index w k))). lia.
Qed.

(** The loop of [_wait_for_selector], entered for the check [k0] of a
    wait that began in [w0]: with one unit of fuel for each 200 ms left
    and one more, it ends as [selector_wait] says. *)
Lemma selector_loop_ends (selector : string) (deadline : Z) (w0 : world) :
  forall (fuel k0 : nat),
    (forall j, (j < k0)%nat ->
               selector_ready e w0 j = false /\ clock_at e w0 j < deadline) ->
    deadline - clock_at e w0 k0 <= 200 * Z.of_nat fuel ->
    exists r w',
      selector_loop e (S fuel) selector deadline (world_at e w0 k0) = Some (r, w')
      /\ selector_wait e w0 deadline selector r w'.
Proof.
  induction fuel as [|fuel IH]; intros k0 B T.
  - cbn [selector_loop world_at now].
    destruct (Z.ltb_spec (clock_at e w0 k0) deadline) as [L|L]; [lia|].
    eexists. eexists. split; [reflexivity|].
    now apply (selector_timed_out e w0 deadline selector k0).
  - cbn [selector_loop].
    change (now (world_at e w0 k0)) with (clock_at e w0 k0).
    change (awaits (world_at e w0 k0)) with (poll_index w0 k0).
    destruct (Z.ltb_spec (clock_at e w0 k0) deadline) as [L|L].
    + destruct (evaluate_js e (poll_index w0 k0)) eqn:R.
      * eexists. eexists. split; [reflexivity|].
        apply (selector_found e w0 deadline selector k0).
        -- intros j J. now apply B.
        -- intros j J. destruct (Nat.eq_dec j k0) as [->|N]; [exact L|].
           apply B. lia.
        -- exact R.
      * rewrite world_at_next. apply IH.
        -- intros j J. destruct (Nat.eq_dec j k0) as [->|N]; [now split|].
           apply B. lia.
        -- pose proof (clock_at_next w0 k0). lia.
    + eexists. eexists. split; [reflexivity|].
      now apply (selector_timed_out e w0 deadline selector k0).
Qed.

Lemma path_loop_ends (prefix : string) (deadline : Z) (w0 : world) :
  forall (fuel k0 : nat),
    (forall j, (j < k0)%nat ->
               path_ready e url_path prefix w0 j = None
               /\ clock_at e w0 j < deadline) ->
    deadline - clock_at e w0 k0 <= 200 * Z.of_nat fuel ->
    exists r w',
      path_loop e url_path (S fuel) prefix deadline (world_at e w0 k0)
      = Some (r, w')
      /\ path_wait e url_path w0 deadline prefix r w'.
Proof.
  induction fuel as [|fuel IH]; intros k0 B T.
  - cbn [path_loop world_at now].
    destruct (Z.ltb_spec (clock_at e w0 k0) deadline) as [L|L]; [lia|].
    eexists. eexists. split; [reflexivity|].
    now apply (path_timed_out e url_path w0 deadline prefix k0).
  - cbn [path_loop].
    change (now (world_at e w0 k0)) with (clock_at e w0 k0).
    change (awaits (world_at e w0 k0)) with (poll_index w0 k0).
    destruct (Z.ltb_spec (clock_at e w0 k0) deadline) as [L|L].
    + assert (Next :
        path_ready e url_path prefix w0 k0 = None ->
        exists r w',
          path_loop e url_path (S fuel) prefix deadline
            (asyncio_sleep e 200
               (tick (world_at e w0 k0) (io_time e (poll_index w0 k0))))
          = Some (r, w')
          /\ path_wait e url_path w0 deadline prefix r w').
      { intros R. rewrite world_at_next. apply IH.
        - intros j J. destruct (Nat.eq_dec j k0) as [->|N]; [now split|].
          apply B. lia.
        - pose proof (clock_at_next w0 k0). lia. }
      unfold path_ready in Next.
      destruct (get_current_page_url e (poll_index w0 k0)) as [url|] eqn:U;
        [|now apply Next].
      destruct (negb (String.eqb url EmptyString)
                && startswith (url_path url) prefix) eqn:C;
        [|now apply Next].
      eexists. eexists. split; [reflexivity|].
      apply (path_found e url_path w0 deadline prefix k0).
      * intros j J. now apply B.
      * intros j J. destruct (Nat.eq_dec j k0) as [->|N]; [exact L|].
        apply B. lia.
      * unfold path_ready. now rewrite U, C.
    + eexists. eexists. split; [reflexivity|].
      now apply (path_timed_out e url_path w0 deadline prefix k0).
Qed.

Lemma enough_covers (timeout : Z) (fuel : nat) :
  (enough timeout <= S fuel)%nat -> timeout <= 200 * Z.of_nat fuel.
Proof.
  unfold enough. intros E.
  destruct (Z.le_gt_cases timeout 0) as [N|P]; [lia|].
  pose proof (Z.mod_pos_bound timeout 200 ltac:(lia)) as M.
  pose proof (Z.div_mod timeout 200 ltac:(lia)) as D.
  assert (0 <= timeout / 200) by (apply Z.div_pos; lia).
  lia.
Qed.

(** Each wait, given enough fuel for its timeout, ends as its relation
    says. *)
Lemma selector_wait_ends (selector : string) (timeout : Z) (w : world)
    (fuel : nat) :
  (enough timeout <= fuel)%nat ->
  exists r w',
    _wait_for_selector e fuel selector timeout w = Some (r, w')
    /\ selector_wait e w (now w + timeout) selector r w'.
Proof.
  intros E. destruct fuel as [|fuel]; [unfold enough in E; lia|].
  apply enough_covers in E. unfold _wait_for_selector.
  pose proof (selector_loop_ends selector (now w + timeout) w fuel 0) as H.
  rewrite world_at_start in H.
  apply H; [intros j J; lia|cbn [clock_at]; lia].
Qed.

Lemma path_wait_ends (prefix : string) (timeout : Z) (w : world) (fuel : nat) :
  (enough timeout <= fuel)%nat ->
  exists r w',
    _wait_for_path e url_path fuel prefix timeout w = Some (r, w')
    /\ path_wait e url_path w (now w + timeout) prefix r w'.
Proof.
  intros E. destruct fuel as [|fuel]; [unfold enough in E; lia|].
  apply enough_covers in E. unfold _wait_for_path.
  pose proof (path_loop_ends prefix (now w + timeout) w fuel 0) as H.
  rewrite world_at_start in H.
  apply H; [intros j J; lia|cbn [clock_at]; lia].
Qed.

(** C9.  With time in milliseconds, a clock that no await sets back and
    sleeps that last at least the 200 ms asked for: each wait ends
    within one iteration for each 200 ms of the timeout and two more,
    whatever the page does.  It returns at the first check at which the
    condition holds, when the clock was before the deadline at that
    check and at every one before; otherwise it raises [TimeoutError] at
    the first check at which the clock is at or past the deadline, the
    start time plus the timeout.  Between two checks lie the time of the
    check and a sleep of 200 ms and its lag, and nothing else. *)
Theorem polling_waits_terminate (timeout : Z) (w : world) (fuel : nat) :
  (enough timeout <= fuel)%nat ->
  (forall selector, exists r w',
      _wait_for_selector e fuel selector timeout w = Some (r, w')
      /\ selector_wait e w (now w + timeout) selector r w'
      /\ match r with
         | Returns _ => True
         | Raises _ => now w + timeout <= now w'
         end)
  /\ (forall prefix, exists r w',
         _wait_for_path e url_path fuel prefix timeout w = Some (r, w')
         /\ path_wait e url_path w (now w + timeout) prefix r w'
         /\ match r with
            | Returns _ => True
            | Raises _ => now w + timeout <= now w'
            end).
Proof.
  intros E. split.
  - intros selector.
    destruct (selector_wait_ends selector timeout w fuel E) as (r & w' & R & S).
    exists r, w'. repeat split; try assumption.
    destruct S as [k B L K|k B L]; [exact I|exact L].
  - intros prefix.
    destruct (path_wait_ends prefix timeout w fuel E) as (r & w' & R & S).
    exists r, w'. repeat split; try assumption.
    destruct S as [k url B L K|k B L]; [exact I|exact L].
Qed.

End PollingProofs.

(** C9 on two pages, with the default timeout of 10 s.  On the idle
    page both waits give up after fifty checks, with the clock at the
    deadline.  On the slow page the button is found at the third check
    and the URL at the first. *)
Lemma polling_waits_terminate_witness :
  (exists r w',
      StartSinglePlayer._wait_for_selector Examples.idle_page
        (Polling.enough StartSinglePlayer.default_timeout)
        "[aria-label='Start Single Player']"
        StartSinglePlayer.default_timeout Examples.start_world = Some (r, w')
      /\ Polling.selector_wait Examples.idle_page Examples.start_world
           (0 + StartSinglePlayer.default_timeout)
           "[aria-label='Start Single Player']" r w'
      /\ match r with
         | Py.Returns _ => True
         | Py.Raises _ =>
             0 + StartSinglePlayer.default_timeout <= StartSinglePlayer.now w'
         end)
  /\ (exists r w',
         StartSinglePlayer._wait_for_path Examples.slow_page (fun u => u)
           (Polling.enough StartSinglePlayer.default_timeout)
           "/single-player"
           StartSinglePlayer.default_timeout Examples.start_world = Some (r, w')
         /\ Polling.path_wait Examples.slow_page (fun u => u) Examples.start_world
              (0 + StartSinglePlayer.default_timeout) "/single-player" r w'
         /\ match r with
            | Py.Returns _ => True
            | Py.Raises _ =>
                0 + StartSinglePlayer.default_timeout <= StartSinglePlayer.now w'
            end)
  /\ StartSinglePlayer._wait_for_selector Examples.idle_page
       (Polling.enough StartSinglePlayer.default_timeout)
       "[aria-label='Start Single Player']"
       StartSinglePlayer.default_timeout Examples.start_world
     = Some (Py.Raises (Py.TimeoutError
               "Timed out waiting for selector [aria-label='Start Single Player']"),
             {| StartSinglePlayer.now := 10000; StartSinglePlayer.awaits := 100 |})
  /\ StartSinglePlayer._wait_for_selector Examples.slow_page
       (Polling.enough StartSinglePlayer.default_timeout)
       "[aria-label='Start Single Player']"
       StartSinglePlayer.default_timeout Examples.start_world
     = Some (Py.Returns tt,
             {| StartSinglePlayer.now := 500; StartSinglePlayer.awaits := 5 |})
  /\ StartSinglePlayer._wait_for_path Examples.idle_page (fun u => u)
       (Polling.enough StartSinglePlayer.default_timeout)
       "/single-player"
       StartSinglePlayer.default_timeout Examples.start_world
     = Some (Py.Raises (Py.TimeoutError
               "Timed out waiting for path starting with /single-player"),
             {| StartSinglePlayer.now := 10000; StartSinglePlayer.awaits := 100 |})
  /\ StartSinglePlayer._wait_for_path Examples.slow_page (fun u => u)
       (Polling.enough StartSinglePlayer.default_timeout)
       "/single-player"
       StartSinglePlayer.default_timeout Examples.start_world
     = Some (Py.Returns "/single-player/new",
             {| StartSinglePlayer.now := 30; StartSinglePlayer.awaits := 1 |}).
Proof.
  split; [|split; [|repeat split; vm_compute; reflexivity]].
  - apply (proj1 (polling_waits_terminate Examples.idle_page (fun u => u)
                    (fun k => Z.le_refl 0) (fun k => Z.le_refl 0)
                    StartSinglePlayer.default_timeout Examples.start_world
                    (Polling.enough StartSinglePlayer.default_timeout)
                    (Nat.le_refl _))).
  - apply (proj2 (polling_waits_terminate Examples.slow_page (fun u => u)
                    (fun k => ltac:(simpl; lia)) (fun k => ltac:(simpl; lia))
                    StartSinglePlayer.default_timeout Examples.start_world
                    (Polling.enough StartSinglePlayer.default_timeout)
                    (Nat.le_refl _))).
Defined.

(* ================================================================== *)
(** * More facts about the brace search *)
(* ================================================================== *)

Module BraceFacts.
Import PyStr PyStrFacts.

(** The needle right after a prefix that does not hold it is found at
    the length of the prefix. *)
Lemma find_app_hit (pre r : string) (c : ascii) :
  find pre c = -1 -> find (pre ++ String c r) c = Z.of_nat (length pre).
Proof.
  induction pre as [|a t IH]; intros H.
  - simpl. now rewrite Ascii.eqb_refl.
  - cbn [append find length] in *. cbv zeta in *. rewrite Nat2Z.inj_succ.
    destruct (Ascii.eqb a c); [discriminate|].
    pose proof (find_ge t c).
    destruct (Z.eqb_spec (find t c) (-1)) as [E|E]; [|lia].
    rewrite (IH E).
    destruct (Z.eqb_spec (Z.of_nat (length t)) (-1)); lia.
Qed.

(** The needle right before a suffix that does not hold it is the last
    one. *)
Lemma rfind_app_hit (u post : string) (c : ascii) :
  rfind post c = -1 -> rfind (u ++ String c post) c = Z.of_nat (length u).
Proof.
  intros H. induction u as [|a t IH].
  - simpl. now rewrite H, Ascii.eqb_refl.
  - cbn [append rfind length]. rewrite Nat2Z.inj_succ, IH.
    destruct (Z.eqb_spec (Z.of_nat (length t)) (-1)); lia.
Qed.

Lemma substring_skip (pre s : string) (n m : nat) :
  substring (length pre + n) m (pre ++ s) = substring n m s.
Proof. induction pre as [|a t IH]; [reflexivity|apply IH]. Qed.

Lemma substring_prefix (t post : string) :
  substring 0 (length t) (t ++ post) = t.
Proof.
  induction t as [|a t IH]; simpl; [now destruct post|]. now rewrite IH.
Qed.

Lemma length_app (a b : string) : length (a ++ b) = (length a + length b)%nat.
Proof. induction a as [|c a IH]; simpl; [reflexivity|now rewrite IH]. Qed.

Lemma app_assoc (a b c : string) : (a ++ b) ++ c = a ++ (b ++ c).
Proof. induction a as [|x a IH]; simpl; [reflexivity|now rewrite IH]. Qed.

(** The brace span of an object inside text that has no opening brace
    before it and no closing brace after it is the object. *)
Lemma brace_span_inside (pre mid post : string) :
  find pre "{" = -1 -> rfind post "}" = -1 ->
  Spec.brace_span (pre ++ String "{" (mid ++ String "}" post))
  = Some (String "{" (mid ++ String "}" EmptyString)).
Proof.
  intros P Q. unfold Spec.brace_span.
  rewrite (find_app_hit pre _ "{" P).
  replace (pre ++ String "{" (mid ++ String "}" post))
    with ((pre ++ String "{" mid) ++ String "}" post)
    by (rewrite app_assoc; reflexivity).
  rewrite (rfind_app_hit _ post "}" Q), length_app. cbn [length].
  destruct (Z.eqb_spec (Z.of_nat (length pre)) (-1)); [lia|].
  destruct (Z.eqb_spec (Z.of_nat (length pre + S (length mid))) (-1)); [lia|].
  destruct (Z.leb_spec (Z.of_nat (length pre + S (length mid)))
              (Z.of_nat (length pre))); [lia|].
  simpl. f_equal. unfold slice.
  rewrite Nat2Z.id.
  replace (Z.to_nat (Z.of_nat (length pre + S (length mid)) + 1
                     - Z.of_nat (length pre)))
    with (length (String "{" (mid ++ String "}" EmptyString)))
    by (cbn [length]; rewrite length_app; simpl; lia).
  rewrite app_assoc.
  replace (length pre) with (length pre + 0)%nat at 1 by lia.
  rewrite substring_skip.
  replace (String "{" mid ++ String "}" post)
    with (String "{" (mid ++ String "}" EmptyString) ++ post)
    by (simpl; rewrite app_assoc; reflexivity).
  apply substring_prefix.
Qed.

(** Text that ends with a character that is not white space keeps its
    end under [rstrip]. *)
Lemma rstrip_keeps (u : string) (c : ascii) :
  is_space c = false ->
  rstrip (u ++ String c EmptyString) = u ++ String c EmptyString.
Proof.
  intros C. induction u as [|a t IH].
  - simpl. now rewrite C.
  - cbn [append rstrip]. rewrite IH. now destruct t.
Qed.

(** An object text is its own trimmed form, and it is not fenced. *)
Lemma strip_object (mid : string) :
  strip (String "{" (mid ++ String "}" EmptyString))
  = String "{" (mid ++ String "}" EmptyString).
Proof.
  unfold strip.
  change (String "{" (mid ++ String "}" EmptyString))
    with (String "{" mid ++ String "}" EmptyString).
  now rewrite (rstrip_keeps _ "}" eq_refl).
Qed.

(** [c in s] is true exactly when [find] finds [c]. *)
Lemma contains_find (s : string) (c : ascii) :
  contains s (String c EmptyString) = negb (find s c =? -1).
Proof.
  induction s as [|a t IH]; [reflexivity|].
  cbn [contains find startswith]. rewrite IH.
  rewrite (Ascii.eqb_sym c a).
  destruct (Ascii.eqb a c); simpl.
  - now destruct t.
  - pose proof (find_ge t c).
    destruct (Z.eqb_spec (find t c) (-1)) as [E|E]; [reflexivity|].
    destruct (Z.eqb_spec (find t c + 1) (-1)); [lia|reflexivity].
Qed.

(** [find] and [rfind] miss together. *)
Lemma rfind_miss (s : string) (c : ascii) :
  rfind s c = -1 <-> find s c = -1.
Proof.
  induction s as [|a t IH]; [tauto|].
  cbn [find rfind].
  pose proof (find_ge t c). pose proof (rfind_ge t c).
  destruct (Ascii.eqb a c);
    destruct (Z.eqb_spec (rfind t c) (-1)) as [E|E];
    destruct (Z.eqb_spec (find t c) (-1)) as [F|F];
    try tauto; try lia; split; intros; try lia; tauto.
Qed.

Lemma substring_none (n : nat) (s : string) : substring n 0 s = EmptyString.
Proof.
  revert n. induction s as [|a t IH]; intros [|n]; simpl; auto.
Qed.

End BraceFacts.

(* ================================================================== *)
(** * Objects inside prose *)
(* ================================================================== *)

Section ProseProofs.
Import PyStr Py Json Llm PyStrFacts BraceFacts.
Variable json_loads : decoder.

(** X1.  Prose around an object does not change what [parse_action]
    returns: when no opening brace comes before the object, no closing
    brace after it, and the whole text (trimmed) does not open and close
    with a triple backtick, the result is the one for the object text
    alone. *)
Theorem parse_action_ignores_prose (pre mid post : string) :
  find pre "{" = -1 ->
  rfind post "}" = -1 ->
  Spec.fenced (strip (pre ++ String "{" (mid ++ String "}" post))) = false ->
  SmokeTest.parse_action json_loads (pre ++ String "{" (mid ++ String "}" post))
  = SmokeTest.parse_action json_loads (String "{" (mid ++ String "}" EmptyString)).
Proof.
  intros P Q F. apply parse_action_by_span.
  rewrite !strip_code_fence_spec, F, strip_object.
  replace (Spec.fenced (String "{" (mid ++ String "}" EmptyString))) with false
    by reflexivity.
  rewrite brace_span_strip, (brace_span_inside pre mid post P Q).
  symmetry. apply (brace_span_inside EmptyString mid EmptyString); reflexivity.
Qed.

End ProseProofs.

(** X1 at the end-to-end scenario of the specification: the prose and
    the fence lines around the object count for nothing. *)
Lemma parse_action_ignores_prose_witness :
  SmokeTest.parse_action Json.json_decode Examples.scenario_text
  = SmokeTest.parse_action Json.json_decode Examples.goto_text.
Proof.
  exact (parse_action_ignores_prose Json.json_decode
           ("Here you go:" ++ PyStr.nl ++ "```json" ++ PyStr.nl)
           (PyStr.q "'action': 'goto', 'params': {'url': 'http://localhost:3000'}")
           (PyStr.nl ++ "```")
           eq_refl eq_refl eq_refl).
Defined.

(* ================================================================== *)
(** * ai_smoke_test_fixed.py: the action read from the content *)
(* ================================================================== *)

Section FixedProofs.
Import PyStr Py Json Llm PyStrFacts BraceFacts.
Variable json_loads : decoder.
Variable ep : endpoint.

(** A successful [parse_action] decoded the brace span of the trimmed,
    de-fenced text. *)
Lemma parse_action_success_span (raw : string) (obj : json) :
  SmokeTest.parse_action json_loads raw = Returns (Some obj, None) ->
  exists span,
    Spec.brace_span (SmokeTest.strip_code_fence (strip raw)) = Some span
    /\ json_loads span = inl obj.
Proof.
  unfold SmokeTest.parse_action, Spec.brace_span.
  set (t := SmokeTest.strip_code_fence (strip raw)).
  destruct (_ || _ || _); [discriminate|].
  unfold loads. destruct (json_loads _) as [w|[d|m|m]] eqn:D; simpl;
    try discriminate.
  destruct (py_in "action" w) as [[]|]; simpl; try discriminate.
  destruct (py_in "params" w) as [[]|]; simpl; try discriminate.
  intros [= <-]. eauto.
Qed.

(** What a brace span says about the two indices. *)
Lemma brace_span_some (t span : string) :
  Spec.brace_span t = Some span ->
  find t "{" <> -1 /\ rfind t "}" <> -1
  /\ slice t (find t "{") (rfind t "}" + 1) = span.
Proof.
  unfold Spec.brace_span.
  destruct (Z.eqb_spec (find t "{") (-1)); [discriminate|].
  destruct (Z.eqb_spec (rfind t "}") (-1)); [discriminate|].
  simpl. destruct (_ <=? _); [discriminate|].
  intros [= <-]. auto.
Qed.

(** X2.  On text that is not fenced, the action
    [FixedOpenAIWrapper.ainvoke] reads from the content is the object
    [parse_action] validates, whenever [parse_action] succeeds. *)
Theorem fixed_action_agrees_with_parse_action (content : string) (obj : json) :
  Spec.fenced (strip content) = false ->
  SmokeTest.parse_action json_loads content = Returns (Some obj, None) ->
  SmokeTestFixed.extract_action json_loads (Some content) = obj.
Proof.
  intros F P.
  destruct (parse_action_success_span _ _ P) as (span & S & D).
  rewrite strip_code_fence_spec, F, brace_span_strip in S.
  destruct (brace_span_some _ _ S) as (A & B & E).
  unfold SmokeTestFixed.extract_action. cbn [try_except].
  rewrite !contains_find.
  assert (B' : find content "}" <> -1) by (rewrite <- rfind_miss; exact B).
  destruct (Z.eqb_spec (find content "{") (-1)); [contradiction|].
  destruct (Z.eqb_spec (find content "}") (-1)); [contradiction|].
  simpl. unfold loads. rewrite E, D. reflexivity.
Qed.

(** json.loads rejects the empty text. *)
Hypothesis json_loads_empty : exists d, json_loads EmptyString = inr d.

(** X3.  [FixedOpenAIWrapper.ainvoke] makes one request, at temperature
    0.7, and lets an exception of the endpoint through.  Given a
    response with a choice it always returns: the text is the content,
    and the action is the fallback when the content is [None], has no
    opening or no closing brace, has its last closing brace before its
    first opening brace, or has a brace span that does not decode. *)
Theorem fixed_ainvoke_falls_back (model_name : string)
    (messages : list message) (h : list request) :
  let req := {| req_model := model_name;
                req_messages := map SmokeTestFixed.modify_message messages;
                req_temperature := Some "0.7" |} in
  let run := SmokeTestFixed.ainvoke json_loads ep model_name messages h in
  snd run = (h ++ [req])%list
  /\ (forall x, ep h req = Raises x -> fst run = Raises x)
  /\ (forall r c cs,
         ep h req = Returns r -> choices r = c :: cs ->
         exists a,
           fst run = Returns
             {| SmokeTestFixed.text := match message_content c with
                                       | Some s => s
                                       | None => "None"
                                       end;
                SmokeTestFixed.action := a;
                SmokeTestFixed.completion := message_content c |}
           /\ (match message_content c with
               | None => True
               | Some t =>
                   find t "{" = -1 \/ find t "}" = -1
                   \/ rfind t "}" < find t "{"
                   \/ (exists d, json_loads
                                   (slice t (find t "{") (rfind t "}" + 1))
                                 = inr d)
               end ->
               a = SmokeTestFixed.fallback_action)).
Proof.
  cbv zeta. unfold SmokeTestFixed.ainvoke, bindM, call.
  repeat apply conj.
  - destruct (ep h _) as [r|x]; [|reflexivity].
    destruct (choices r); reflexivity.
  - intros x E. now rewrite E.
  - intros r c cs E C. rewrite E, C. eexists. split; [reflexivity|].
    destruct (message_content c) as [t|]; [|reflexivity].
    unfold SmokeTestFixed.extract_action. cbn [try_except].
    rewrite !contains_find.
    intros [A|[A|[A|[d A]]]].
    + rewrite A. reflexivity.
    + rewrite A. simpl. now rewrite andb_false_r.
    + destruct (negb (find t "{" =? -1) && negb (find t "}" =? -1));
        [|reflexivity].
      unfold loads, slice.
      replace (Z.to_nat (rfind t "}" + 1 - find t "{")) with 0%nat by lia.
      rewrite substring_none.
      destruct json_loads_empty as [[d|m|m] ->]; reflexivity.
    + destruct (negb (find t "{" =? -1) && negb (find t "}" =? -1));
        [|reflexivity].
      unfold loads. rewrite A. now destruct d.
Qed.

End FixedProofs.

(** X2 at the object text of the examples. *)
Lemma fixed_action_agrees_with_parse_action_witness :
  SmokeTestFixed.extract_action Json.json_decode (Some Examples.scenario_text)
  = Examples.goto_action.
Proof.
  apply (fixed_action_agrees_with_parse_action Json.json_decode
           Examples.scenario_text Examples.goto_action).
  - reflexivity.
  - vm_compute. reflexivity.
Defined.

(** X3 at an answer whose braces are the wrong way round. *)
Lemma fixed_ainvoke_falls_back_witness :
  fst (SmokeTestFixed.ainvoke Json.json_decode MoreExamples.stub_reversed
         Examples.model_name Examples.user_message [])
  = Py.Returns
      {| SmokeTestFixed.text := "} then {";
         SmokeTestFixed.action := SmokeTestFixed.fallback_action;
         SmokeTestFixed.completion := Some "} then {" |}.
Proof.
  destruct (fixed_ainvoke_falls_back Json.json_decode MoreExamples.stub_reversed
              (ex_intro _ (Json.Malformed "Expecting value") eq_refl)
              Examples.model_name Examples.user_message [])
    as (_ & _ & H).
  destruct (H (Examples.reply "} then {")
              {| Llm.message_content := Some "} then {"; Llm.action := None |}
              [] eq_refl eq_refl) as (a & E & F).
  rewrite E, F; [reflexivity|].
  right; right; left. reflexivity.
Defined.

(* ================================================================== *)
(** * ai_smoke_test.py: what [ainvoke] returns *)
(* ================================================================== *)

Section AinvokeRunProofs.
Import PyStr Py Json Llm Retry PyStrFacts BraceFacts.
Variable json_loads : decoder.
Variable APP_URL : string.
Variable ep : endpoint.
Variable model_name : string.

(** The coordinator adds at most two requests, of one message each. *)
Lemma validate_and_retry_calls (raw : string) (h : list request) :
  exists extra,
    snd (validate_and_retry json_loads APP_URL ep model_name raw h)
    = (h ++ extra)%list
    /\ (List.length extra <= 2)%nat
    /\ Forall (fun r => List.length (req_messages r) = 1%nat) extra.
Proof.
  unfold validate_and_retry, SmokeTest.validate_and_retry_llm_response.
  unfold bindM at 1. unfold lift at 1.
  destruct (SmokeTest.parse_action json_loads raw) as [[obj err]|x] eqn:P.
  2:{ exists []. split; [simpl; now rewrite app_nil_r|split; [simpl; lia|constructor]]. }
  destruct (truthy err) eqn:T.
  2:{ exists []. split; [simpl; now rewrite app_nil_r|split; [simpl; lia|constructor]]. }
  unfold bindM at 1.
  pose proof (attempt_calls json_loads ep model_name
                (SmokeTest.corrective_messages APP_URL err) obj err h) as C1.
  destruct (SmokeTest.attempt _ _ _ _ obj err h) as [[[v|[obj1 err1]]|x] h1];
    simpl in C1; subst h1; simpl;
    try (eexists [_]; split; [reflexivity|split; [simpl; lia|repeat constructor]]).
  unfold bindM at 1.
  pose proof (attempt_calls json_loads ep model_name
                (SmokeTest.final_messages APP_URL) obj1 err1
                (h ++ [{| req_model := model_name;
                          req_messages := SmokeTest.corrective_messages APP_URL err;
                          req_temperature := Some "0.1" |}])) as C2.
  destruct (SmokeTest.attempt _ _ _ _ obj1 err1 _) as [[[v|[obj2 err2]]|x] h2];
    simpl in C2; subst h2; simpl;
    (eexists [_; _]; split;
     [rewrite <- List.app_assoc; reflexivity|split; [simpl; lia|repeat constructor]]).
Qed.

(** A response without a choice, or with a content that is not a str,
    makes the [try] statement raise after the one request. *)
Lemma ainvoke_without_content (messages : list message)
    (temperature : option string) (h : list request) (r0 : response) (x : exn) :
  ep h (initial_request model_name messages temperature) = Returns r0 ->
  first_content r0 = Raises x ->
  SmokeTest.ainvoke_body json_loads APP_URL ep model_name messages temperature h
  = (Raises x, h ++ [initial_request model_name messages temperature])%list.
Proof.
  intros E C. unfold SmokeTest.ainvoke_body, try_exceptM. unfold bindM at 1.
  unfold call at 1.
  fold (initial_request model_name messages temperature). rewrite E.
  unfold bindM at 1. unfold lift at 1. rewrite C. now destruct (any_Exception x).
Qed.

(** The [try] statement once the model has answered, in terms of the run
    of the coordinator. *)
Lemma ainvoke_after_answer (messages : list message)
    (temperature : option string) (h : list request) (r0 : response)
    (c0 : string) :
  ep h (initial_request model_name messages temperature) = Returns r0 ->
  first_content r0 = Returns c0 ->
  SmokeTest.ainvoke_body json_loads APP_URL ep model_name messages temperature h
  = let content := handed_content json_loads c0 in
    let respond (validated : string) :=
      {| SmokeTest.resp_content := validated;
         SmokeTest.resp_completion := validated;
         SmokeTest.resp_usage :=
           if usage_truthy (usage r0) then usage_record (usage r0)
           else usage_record UsageNone;
         SmokeTest.resp_action :=
           match json_loads validated with
           | inl v => v
           | inr _ => SmokeTest.error_action
           end |} in
    let validated :=
      match validate_and_retry json_loads APP_URL ep model_name content
              (h ++ [initial_request model_name messages temperature])%list with
      | (Returns (validated, action_obj), h') =>
          match SmokeTest.getitem action_obj "action",
                SmokeTest.getitem action_obj "params" with
          | Returns _, Returns _ => (Returns validated, h')
          | Raises x, _ => (Raises x, h')
          | Returns _, Raises x => (Raises x, h')
          end
      | (Raises x, h') => (Raises x, h')
      end in
    match validated with
    | (Returns v, h') => (Returns (respond v), h')
    | (Raises x, h') =>
        if is_ValueError x then (Returns (respond content), h')
        else (Raises x, h')
    end.
Proof.
  intros E C. cbv zeta.
  unfold SmokeTest.ainvoke_body, try_exceptM at 1.
  unfold bindM at 1. unfold call at 1.
  fold (initial_request model_name messages temperature). rewrite E.
  unfold bindM at 1. unfold lift at 1. rewrite C.
  assert (K : match loads json_loads (SmokeTest.extract_json_content c0) with
              | Returns _ => SmokeTest.extract_json_content c0
              | Raises _ => c0
              end = handed_content json_loads c0).
  { unfold handed_content, loads.
    now destruct (json_loads (SmokeTest.extract_json_content c0)). }
  rewrite K.
  unfold bindM at 1. unfold try_exceptM at 1. unfold bindM at 1.
  unfold validate_and_retry.
  destruct (SmokeTest.validate_and_retry_llm_response _ _ _ _ _ _)
    as [[[validated action_obj]|x] h'].
  - unfold bindM, lift.
    destruct (SmokeTest.getitem action_obj "action") as [a|x]; simpl.
    + destruct (SmokeTest.getitem action_obj "params") as [b|x]; simpl.
      * unfold ret, loads. now destruct (json_loads validated).
      * destruct (is_ValueError x); simpl; [|now destruct (any_Exception x)].
        unfold ret, loads.
        now destruct (json_loads (handed_content json_loads c0)).
    + destruct (is_ValueError x); simpl; [|now destruct (any_Exception x)].
      unfold ret, loads.
      now destruct (json_loads (handed_content json_loads c0)).
  - destruct (is_ValueError x) eqn:V; simpl; [|now destruct (any_Exception x)].
    unfold ret, loads.
    now destruct (json_loads (handed_content json_loads c0)).
Qed.

(** Whatever the model does, the [try] statement makes the initial
    request and at most two more, and a response it returns has the
    shape the host framework reads. *)
Lemma ainvoke_body_invariant (messages : list message)
    (temperature : option string) (h : list request) :
  let run := SmokeTest.ainvoke_body json_loads APP_URL ep model_name messages
               temperature h in
  (exists extra,
      snd run = (h ++ initial_request model_name messages temperature :: extra)%list
      /\ (List.length extra <= 2)%nat
      /\ Forall (fun r => List.length (req_messages r) = 1%nat) extra)
  /\ (forall resp,
         fst run = Returns resp ->
         SmokeTest.resp_completion resp = SmokeTest.resp_content resp
         /\ SmokeTest.resp_action resp
            = match json_loads (SmokeTest.resp_content resp) with
              | inl v => v
              | inr _ => SmokeTest.error_action
              end
         /\ map fst (SmokeTest.resp_usage resp) = map fst Normalizer.zero_usage
         /\ skipn 3 (SmokeTest.resp_usage resp) = skipn 3 Normalizer.zero_usage).
Proof.
  cbv zeta.
  destruct (ep h (initial_request model_name messages temperature)) as [r0|x] eqn:E.
  2:{ rewrite (ainvoke_body_endpoint_raises json_loads APP_URL ep model_name
                 messages temperature h x E). simpl.
      split; [exists []; split; [reflexivity|split; [simpl; lia|constructor]]
             |discriminate]. }
  destruct (first_content r0) as [c0|x] eqn:C.
  2:{ rewrite (ainvoke_without_content messages temperature h r0 x E C). simpl.
      split; [exists []; split; [reflexivity|split; [simpl; lia|constructor]]
             |discriminate]. }
  rewrite (ainvoke_after_answer messages temperature h r0 c0 E C). cbv zeta.
  destruct (validate_and_retry_calls (handed_content json_loads c0)
              (h ++ [initial_request model_name messages temperature])%list)
    as (extra & S & L & F1).
  assert (U : forall u : usage_val,
             map fst (if usage_truthy u then usage_record u
                      else usage_record UsageNone)
             = map fst Normalizer.zero_usage
             /\ skipn 3 (if usage_truthy u then usage_record u
                         else usage_record UsageNone)
                = skipn 3 Normalizer.zero_usage)
    by (intros u; destruct (usage_truthy u); split; reflexivity).
  set (inner :=
         match validate_and_retry json_loads APP_URL ep model_name
                 (handed_content json_loads c0)
                 (h ++ [initial_request model_name messages temperature])%list with
         | (Returns (validated, action_obj), h') =>
             match SmokeTest.getitem action_obj "action",
                   SmokeTest.getitem action_obj "params" with
             | Returns _, Returns _ => (Returns validated, h')
             | Raises x, _ => (Raises x, h')
             | Returns _, Raises x => (Raises x, h')
             end
         | (Raises x, h') => (Raises x, h')
         end).
  assert (I : snd inner
              = (h ++ initial_request model_name messages temperature :: extra)%list).
  { unfold inner.
    destruct (validate_and_retry _ _ _ _ _ _) as [[[validated action_obj]|x] h'];
      simpl in S; subst h'; rewrite <- List.app_assoc;
      [destruct (SmokeTest.getitem action_obj "action");
       [destruct (SmokeTest.getitem action_obj "params")|]|]; reflexivity. }
  destruct inner as [[v|x] h']; simpl in I; subst h'.
  - split; [exists extra; auto|].
    intros resp [= <-]. simpl. destruct (U (usage r0)). auto.
  - destruct (is_ValueError x); simpl.
    + split; [exists extra; auto|].
      intros resp [= <-]. simpl. destruct (U (usage r0)). auto.
    + split; [exists extra; auto|discriminate].
Qed.

End AinvokeRunProofs.

Section AinvokeEntryProofs.
Import PyStr Py Json Llm Retry.
Variable json_loads : decoder.
Variable APP_URL : string.
Variable py_str : SmokeTest.pyval -> string.

(** Short of its request, [ainvoke] raises, and all it has done is to
    count the call, when it could. *)
Lemma ainvoke_stops (self : SmokeTest.receiver) (args : list SmokeTest.pyval)
    (kw : SmokeTest.kwargs) (h : list request) :
  (exists client model_name messages,
      Entry.reaches_request py_str self args kw client model_name messages)
  \/ (exists x,
         SmokeTest.ainvoke json_loads APP_URL py_str self args kw h
         = (Raises x, Entry.counted self, h)
         /\ (SmokeTest.self_call_count self = None ->
             exists m, x = AttributeError m /\ Entry.counted self = self)).
Proof.
  unfold SmokeTest.ainvoke, Entry.counted, Entry.reaches_request,
    SmokeTest.count_call.
  destruct (SmokeTest.self_call_count self) as [n|] eqn:N.
  2:{ right. eexists. split; [reflexivity|]. intros _. eauto. }
  cbn [SmokeTest.self_client SmokeTest.self_model].
  destruct (SmokeTest.message_list py_str (SmokeTest.select_messages args))
    as [messages|x] eqn:L.
  2:{ right. eexists. split; [reflexivity|discriminate]. }
  destruct (SmokeTest.self_client self) as [client|] eqn:C.
  2:{ right. eexists. split; [reflexivity|discriminate]. }
  destruct (SmokeTest.self_model self) as [model_name|] eqn:M.
  2:{ right. eexists. split; [reflexivity|discriminate]. }
  destruct (SmokeTest.kw_messages kw) as [v|] eqn:K1.
  { right. eexists. split; [reflexivity|discriminate]. }
  destruct (SmokeTest.kw_model kw) as [v|] eqn:K2.
  { right. eexists. split; [reflexivity|discriminate]. }
  left. exists client, model_name, messages. repeat split; eauto.
Qed.

(** X4.  Whatever the receiver, the arguments and the model: [ainvoke]
    counts the call when the receiver has a counter, and either raises
    without a request, or makes its initial request and at most two
    more.  A receiver without [call_count], as the
    [CompletionsInterceptor] the method is bound to, gets [AttributeError]
    and no request.  A keyword [messages] or [model], on a receiver and
    arguments that are otherwise in order, gets [TypeError] and no
    request.  When [ainvoke] returns a response, the completion is the
    content, the action is what the content decodes to, or the
    substitute [{action: error, params: {}}] when the content does not
    decode, and the usage record has its six keys with the three cache
    and image counts zero. *)
Theorem ainvoke_response_invariant (self : SmokeTest.receiver)
    (args : list SmokeTest.pyval) (kw : SmokeTest.kwargs) (h : list request) :
  let run := SmokeTest.ainvoke json_loads APP_URL py_str self args kw h in
  snd (fst run) = Entry.counted self
  /\ ((exists x, fst (fst run) = Raises x) /\ snd run = h
      \/ exists client model_name messages extra,
           Entry.reaches_request py_str self args kw client model_name messages
           /\ snd run
              = (h ++ initial_request model_name messages
                        (SmokeTest.kw_temperature kw) :: extra)%list
           /\ (List.length extra <= 2)%nat)
  /\ (SmokeTest.self_call_count self = None ->
      exists m, run = (Raises (AttributeError m), self, h))
  /\ (exists m,
         SmokeTest.ainvoke json_loads APP_URL py_str
           SmokeTest.CompletionsInterceptor args kw h
         = (Raises (AttributeError m), SmokeTest.CompletionsInterceptor, h))
  /\ (forall n client model_name messages,
         SmokeTest.self_call_count self = Some n ->
         SmokeTest.self_client self = Some client ->
         SmokeTest.self_model self = Some model_name ->
         SmokeTest.message_list py_str (SmokeTest.select_messages args)
         = Returns messages ->
         SmokeTest.kw_messages kw <> None \/ SmokeTest.kw_model kw <> None ->
         exists m, run = (Raises (TypeError m), Entry.counted self, h))
  /\ (forall resp,
         fst (fst run) = Returns resp ->
         SmokeTest.resp_completion resp = SmokeTest.resp_content resp
         /\ SmokeTest.resp_action resp
            = match json_loads (SmokeTest.resp_content resp) with
              | inl v => v
              | inr _ => SmokeTest.error_action
              end
         /\ map fst (SmokeTest.resp_usage resp) = map fst Normalizer.zero_usage
         /\ skipn 3 (SmokeTest.resp_usage resp) = skipn 3 Normalizer.zero_usage).
Proof.
  cbv zeta.
  assert (T : forall n client model_name messages,
             SmokeTest.self_call_count self = Some n ->
             SmokeTest.self_client self = Some client ->
             SmokeTest.self_model self = Some model_name ->
             SmokeTest.message_list py_str (SmokeTest.select_messages args)
             = Returns messages ->
             SmokeTest.kw_messages kw <> None \/ SmokeTest.kw_model kw <> None ->
             exists m,
               SmokeTest.ainvoke json_loads APP_URL py_str self args kw h
               = (Raises (TypeError m), Entry.counted self, h)).
  { intros n client model_name messages N C M L K.
    unfold SmokeTest.ainvoke, Entry.counted, SmokeTest.count_call.
    rewrite N. cbn [SmokeTest.self_client SmokeTest.self_model].
    rewrite L, C, M.
    destruct (SmokeTest.kw_messages kw), (SmokeTest.kw_model kw);
      try (eexists; reflexivity).
    destruct K as [K|K]; now elim K. }
  destruct (ainvoke_stops self args kw h)
    as [(client & model_name & messages & R)|(x & E & A)].
  - rewrite (ainvoke_reaches json_loads APP_URL client model_name py_str
               self args kw messages h R) in *.
    destruct (ainvoke_body_invariant json_loads APP_URL client model_name
                messages (SmokeTest.kw_temperature kw) h)
      as [(extra & S & L & _) I].
    cbn [fst snd]. repeat apply conj.
    + reflexivity.
    + right. exists client, model_name, messages, extra. auto.
    + intros N. destruct R as ([n N'] & _). congruence.
    + eexists. reflexivity.
    + exact T.
    + exact I.
  - rewrite E in *. cbn [fst snd]. repeat apply conj.
    + reflexivity.
    + left. eauto.
    + intros N. destruct (A N) as (m & -> & ->). eauto.
    + eexists. reflexivity.
    + exact T.
    + discriminate.
Qed.

End AinvokeEntryProofs.

Section AinvokeParsesProofs.
Import PyStr Py Json Llm Retry PyStrFacts BraceFacts.
Variable json_loads : decoder.
Variable APP_URL : string.
Variable ep : endpoint.
Variable model_name : string.

(** A text that parses is handed back at once, without a call. *)
Lemma validate_when_parses (raw : string) (obj : json) (h : list request) :
  parses json_loads raw obj ->
  validate_and_retry json_loads APP_URL ep model_name raw h
  = (Returns (raw, Some obj), h).
Proof.
  intros P. unfold validate_and_retry, SmokeTest.validate_and_retry_llm_response.
  unfold bindM, lift. rewrite P. reflexivity.
Qed.

Lemma has_key_lookup (k : string) (kvs : list (string * json)) :
  has_key k kvs = true -> exists v, lookup k kvs = Some v.
Proof.
  induction kvs as [|[k' v'] r IH]; [discriminate|].
  simpl. destruct (String.eqb k' k); simpl; eauto.
Qed.

(** [parse_action] from the brace span of the trimmed, de-fenced text,
    when the span decodes to an object with both keys. *)
Lemma parse_action_of_span (raw span : string) (kvs : list (string * json)) :
  Spec.brace_span (SmokeTest.strip_code_fence (strip raw)) = Some span ->
  json_loads span = inl (JObj kvs) ->
  has_key "action" kvs = true -> has_key "params" kvs = true ->
  parses json_loads raw (JObj kvs).
Proof.
  unfold parses, SmokeTest.parse_action, Spec.brace_span.
  set (t := SmokeTest.strip_code_fence (strip raw)).
  destruct (_ || _ || _); [discriminate|].
  intros [= ->] D A B. unfold loads. rewrite D. simpl. rewrite A, B. reflexivity.
Qed.

Hypothesis json_loads_object :
  forall s v, json_loads (String "{" s) = inl v -> exists kvs, v = JObj kvs.

(** The object of a successful parse can be subscripted by both keys. *)
Lemma parses_getitem (t : string) (obj : json) :
  parses json_loads t obj ->
  exists a p,
    SmokeTest.getitem (Some obj) "action" = Returns a
    /\ SmokeTest.getitem (Some obj) "params" = Returns p.
Proof.
  unfold parses, SmokeTest.parse_action.
  set (u := SmokeTest.strip_code_fence (strip t)).
  destruct ((find u "{" =? -1) || (rfind u "}" =? -1)
            || (rfind u "}" <=? find u "{")) eqn:C; [discriminate|].
  apply orb_false_iff in C as [C C3]. apply orb_false_iff in C as [C1 C2].
  apply Z.eqb_neq in C1. apply Z.leb_gt in C3.
  pose proof (find_ge u "{") as Hi.
  destruct (slice_at_find u "{" (rfind u "}" + 1)) as [rest Hs]; [lia|lia|].
  unfold loads. rewrite Hs.
  destruct (json_loads (String "{" rest)) as [w|[d|m|m]] eqn:D;
    try discriminate.
  destruct (json_loads_object _ _ D) as [kvs ->]. simpl.
  destruct (has_key "action" kvs) eqn:A; [|discriminate].
  destruct (has_key "params" kvs) eqn:B; [|discriminate].
  simpl. intros [= <-].
  destruct (has_key_lookup _ _ A) as [a La].
  destruct (has_key_lookup _ _ B) as [p Lp].
  exists a, p. simpl. now rewrite La, Lp.
Qed.

(** X5.  For a receiver that has the attributes [ainvoke] reads: when
    the text the model first answers with parses, [ainvoke] makes no
    corrective call and returns that text as the content.  The action of
    the response is what the whole text decodes to: for a text that
    parses only because the object is dug out of prose or a fence, it is
    the substitute [{action: error, params: {}}], not the object that
    was validated. *)
Theorem ainvoke_first_answer_parses (py_str : SmokeTest.pyval -> string)
    (self : SmokeTest.receiver) (args : list SmokeTest.pyval)
    (kw : SmokeTest.kwargs) (messages : list message) (h : list request)
    (r0 : response) (c0 : string) (obj : json) :
  Entry.reaches_request py_str self args kw ep model_name messages ->
  ep h (initial_request model_name messages (SmokeTest.kw_temperature kw))
  = Returns r0 ->
  first_content r0 = Returns c0 ->
  parses json_loads (handed_content json_loads c0) obj ->
  SmokeTest.ainvoke json_loads APP_URL py_str self args kw h
  = (Returns
       {| SmokeTest.resp_content := handed_content json_loads c0;
          SmokeTest.resp_completion := handed_content json_loads c0;
          SmokeTest.resp_usage :=
            if usage_truthy (usage r0) then usage_record (usage r0)
            else usage_record UsageNone;
          SmokeTest.resp_action :=
            match json_loads (handed_content json_loads c0) with
            | inl v => v
            | inr _ => SmokeTest.error_action
            end |},
     Entry.counted self,
     h ++ [initial_request model_name messages (SmokeTest.kw_temperature kw)])%list.
Proof.
  intros R E C P.
  rewrite (ainvoke_reaches json_loads APP_URL ep model_name py_str
             self args kw messages h R).
  rewrite (ainvoke_after_answer json_loads APP_URL ep model_name
             messages _ h r0 c0 E C).
  cbv zeta. rewrite (validate_when_parses _ _ _ P).
  destruct (parses_getitem _ _ P) as (a & p & -> & ->). reflexivity.
Qed.

(** X9.  When the raw text fails to parse, the first request of the
    coordinator is a single user message that quotes the failure and
    the target URL; a second request, if any, is a single user message
    that quotes the target URL.  Both go to the same model at
    temperature 0.1, and neither carries the conversation. *)
Theorem corrective_requests (raw e0 : string) (h : list request) :
  fails json_loads raw e0 ->
  exists m1 m2 rest,
    snd (validate_and_retry json_loads APP_URL ep model_name raw h)
    = (h ++ {| req_model := model_name; req_messages := [m1];
               req_temperature := Some "0.1" |} :: rest)%list
    /\ (rest = []
        \/ rest = [{| req_model := model_name; req_messages := [m2];
                      req_temperature := Some "0.1" |}])
    /\ role m1 = "user" /\ role m2 = "user"
    /\ contains (content m1) e0 = true
    /\ contains (content m1) APP_URL = true
    /\ contains (content m2) APP_URL = true.
Proof.
  intros F.
  exists {| role := "user";
            content := q "Reply with ONLY JSON: {'action': 'goto', 'params': {'url': '"
                       ++ APP_URL ++ q "'}}" ++ nl ++ nl ++ "Error: " ++ e0 |},
         {| role := "user";
            content := q "Respond exactly: {'action': 'goto', 'params': {'url': '"
                       ++ APP_URL ++ q "'}}" |}.
  assert (Cr : forall a s p, contains s p = true -> contains (a ++ s) p = true).
  { induction a as [|c a IH]; intros s p Hs; [exact Hs|].
    cbn [append contains]. rewrite (IH s p Hs). apply orb_true_r. }
  assert (Cp : forall p s, contains (p ++ s) p = true).
  { intros p s.
    assert (Sw : startswith (p ++ s) p = true).
    { induction p as [|c p IH]; [now destruct s|].
      simpl. now rewrite Ascii.eqb_refl, IH. }
    destruct (p ++ s); cbn [contains]; now rewrite Sw. }
  assert (Ce : forall s, contains s s = true).
  { intros s. generalize (Cp s EmptyString).
    assert (N : forall s : string, s ++ EmptyString = s)
      by (clear; induction s as [|c s IH]; simpl; [reflexivity|now rewrite IH]).
    now rewrite N. }
  assert (K1 : contains
                 (q "Reply with ONLY JSON: {'action': 'goto', 'params': {'url': '"
                  ++ APP_URL ++ q "'}}" ++ nl ++ nl ++ "Error: " ++ e0) e0 = true)
    by apply Cr, Cr, Cr, Cr, Cr, Cr, Ce.
  assert (K2 : contains
                 (q "Reply with ONLY JSON: {'action': 'goto', 'params': {'url': '"
                  ++ APP_URL ++ q "'}}" ++ nl ++ nl ++ "Error: " ++ e0) APP_URL
               = true)
    by apply Cr, Cp.
  assert (K3 : contains
                 (q "Respond exactly: {'action': 'goto', 'params': {'url': '"
                  ++ APP_URL ++ q "'}}") APP_URL = true)
    by apply Cr, Cp.
  rewrite (validate_after_failure json_loads APP_URL ep model_name raw e0 h F).
  cbv zeta. rewrite attempt_calls.
  destruct (fst (SmokeTest.attempt json_loads ep model_name
                   (SmokeTest.corrective_messages APP_URL (Some e0))
                   None (Some e0) h))
    as [[v|[obj1 err1]]|x].
  - exists []. repeat apply conj;
      [reflexivity|left; reflexivity|reflexivity|reflexivity
      |exact K1|exact K2|exact K3].
  - pose proof (attempt_calls json_loads ep model_name
                  (SmokeTest.final_messages APP_URL) obj1 err1
                  (h ++ [{| req_model := model_name;
                            req_messages :=
                              SmokeTest.corrective_messages APP_URL (Some e0);
                            req_temperature := Some "0.1" |}])) as C2.
    destruct (fst (SmokeTest.attempt json_loads ep model_name
                     (SmokeTest.final_messages APP_URL) obj1 err1 _))
      as [[v|[obj2 err2]]|x];
      eexists [_]; cbn [fst snd]; rewrite C2, <- List.app_assoc;
      (repeat apply conj;
       [reflexivity|right; reflexivity|reflexivity|reflexivity
       |exact K1|exact K2|exact K3]).
  - exists []. repeat apply conj;
      [reflexivity|left; reflexivity|reflexivity|reflexivity
      |exact K1|exact K2|exact K3].
Qed.

End AinvokeParsesProofs.

(** X5 at the end-to-end scenario of the specification: the text parses
    (the object is found inside the prose), no corrective call is made,
    and the action of the response is the substitute. *)
Lemma ainvoke_first_answer_parses_witness :
  SmokeTest.ainvoke Json.json_decode Examples.app_url Examples.py_str
    (SmokeTest.OpenAICompatWrapper MoreExamples.stub_scenario Examples.model_name)
    Examples.user_args Examples.no_kwargs []
  = (Py.Returns
       {| SmokeTest.resp_content := Examples.scenario_text;
          SmokeTest.resp_completion := Examples.scenario_text;
          SmokeTest.resp_usage := Llm.usage_record Llm.UsageNone;
          SmokeTest.resp_action := SmokeTest.error_action |},
     Entry.counted
       (SmokeTest.OpenAICompatWrapper MoreExamples.stub_scenario
          Examples.model_name),
     [Retry.initial_request Examples.model_name Examples.user_message None]).
Proof.
  apply (ainvoke_first_answer_parses Json.json_decode Examples.app_url
           MoreExamples.stub_scenario Examples.model_name
           JsonFacts.json_decode_object Examples.py_str
           (SmokeTest.OpenAICompatWrapper MoreExamples.stub_scenario
              Examples.model_name)
           Examples.user_args Examples.no_kwargs Examples.user_message []
           (Examples.reply Examples.scenario_text) Examples.scenario_text
           Examples.goto_action).
  - repeat split. exists 0. reflexivity.
  - reflexivity.
  - reflexivity.
  - vm_compute. reflexivity.
Defined.

(** X9 at a text without JSON: the first corrective message quotes
    [no-json]. *)
Lemma corrective_requests_witness :
  exists m1 m2 rest,
    snd (Retry.validate_and_retry Json.json_decode Examples.app_url
           Examples.stub_never_ok Examples.model_name "no json here" [])
    = ([] ++ {| Llm.req_model := Examples.model_name; Llm.req_messages := [m1];
                Llm.req_temperature := Some "0.1" |} :: rest)%list
    /\ (rest = []
        \/ rest = [{| Llm.req_model := Examples.model_name;
                      Llm.req_messages := [m2];
                      Llm.req_temperature := Some "0.1" |}])
    /\ Llm.role m1 = "user" /\ Llm.role m2 = "user"
    /\ PyStr.contains (Llm.content m1) "no-json" = true
    /\ PyStr.contains (Llm.content m1) Examples.app_url = true
    /\ PyStr.contains (Llm.content m2) Examples.app_url = true.
Proof.
  exact (corrective_requests Json.json_decode Examples.app_url
           Examples.stub_never_ok Examples.model_name "no json here" "no-json"
           [] eq_refl).
Defined.

(* ================================================================== *)
(** * ai_smoke_test.py: the offline client behind [ainvoke] *)
(* ================================================================== *)

Section MockProofs.
Import PyStr Py Json Llm Retry PyStrFacts BraceFacts.
Variable json_loads : decoder.
Variable dumps : json -> string.
Variable APP_URL : string.
Variable time_now : Z.
Variable model_name : string.

(** json.dumps writes the dict as an object text, and json.loads reads
    it back. *)
Hypothesis dumps_object :
  exists mid, dumps (Mock.mock_action APP_URL)
              = String "{" (mid ++ String "}" EmptyString).
Hypothesis loads_dumps :
  json_loads (dumps (Mock.mock_action APP_URL)) = inl (Mock.mock_action APP_URL).

(** X6.  With the offline client behind a receiver that has the
    attributes [ainvoke] reads, every [ainvoke] validates at once: it
    makes the one request, no corrective call, and returns the dumped
    dict as content, the dict [{action: goto, params: {url: APP_URL}}] as
    action, and a usage record of zeros. *)
Theorem mock_mode_validates (py_str : SmokeTest.pyval -> string)
    (self : SmokeTest.receiver) (args : list SmokeTest.pyval)
    (kw : SmokeTest.kwargs) (messages : list message) (h : list request) :
  Entry.reaches_request py_str self args kw
    (Mock.MockChatCompletions_create dumps APP_URL time_now) model_name messages ->
  SmokeTest.ainvoke json_loads APP_URL py_str self args kw h
  = (Returns
       {| SmokeTest.resp_content := dumps (Mock.mock_action APP_URL);
          SmokeTest.resp_completion := dumps (Mock.mock_action APP_URL);
          SmokeTest.resp_usage := Normalizer.zero_usage;
          SmokeTest.resp_action := Mock.mock_action APP_URL |},
     Entry.counted self,
     h ++ [initial_request model_name messages (SmokeTest.kw_temperature kw)])%list.
Proof.
  intros R.
  rewrite (ainvoke_reaches json_loads APP_URL _ model_name py_str
             self args kw messages h R).
  destruct dumps_object as [mid T].
  set (text := dumps (Mock.mock_action APP_URL)) in *.
  assert (X : SmokeTest.extract_json_content text = text).
  { unfold SmokeTest.extract_json_content. rewrite T, strip_object. reflexivity. }
  assert (H : handed_content json_loads text = text).
  { unfold handed_content. rewrite X, loads_dumps. reflexivity. }
  assert (P : parses json_loads text (Mock.mock_action APP_URL)).
  { apply (parse_action_of_span json_loads text text); try reflexivity.
    - rewrite strip_code_fence_spec, T, strip_object.
      replace (Spec.fenced (String "{" (mid ++ String "}" EmptyString)))
        with false by reflexivity.
      apply (brace_span_inside EmptyString mid EmptyString); reflexivity.
    - exact loads_dumps. }
  rewrite (ainvoke_after_answer json_loads APP_URL _ model_name messages
             (SmokeTest.kw_temperature kw) h
             (Mock.MockResponse text model_name time_now) text
             eq_refl eq_refl).
  cbv zeta. rewrite H.
  rewrite (validate_when_parses json_loads APP_URL _ model_name text _ _ P).
  change (SmokeTest.getitem (Some (Mock.mock_action APP_URL)) "action")
    with (@Returns json (JStr "goto")).
  change (SmokeTest.getitem (Some (Mock.mock_action APP_URL)) "params")
    with (@Returns json (JObj [("url", JStr APP_URL)])).
  cbv iota beta. rewrite loads_dumps. reflexivity.
Qed.

End MockProofs.

(** X6 with the encoder and the decoder of the examples, the receiver
    having the attributes of an [OpenAICompatWrapper]. *)
Lemma mock_mode_validates_witness :
  SmokeTest.ainvoke Json.json_decode Examples.app_url Examples.py_str
    (SmokeTest.OpenAICompatWrapper MoreExamples.mock_client Examples.model_name)
    Examples.user_args Examples.no_kwargs []
  = (Py.Returns
       {| SmokeTest.resp_content := Examples.goto_text;
          SmokeTest.resp_completion := Examples.goto_text;
          SmokeTest.resp_usage := Normalizer.zero_usage;
          SmokeTest.resp_action := Examples.goto_action |},
     Entry.counted
       (SmokeTest.OpenAICompatWrapper MoreExamples.mock_client Examples.model_name),
     [Retry.initial_request Examples.model_name Examples.user_message None]).
Proof.
  apply (mock_mode_validates Json.json_decode JsonEncode.json_encode
           Examples.app_url 1700000000 Examples.model_name
           (ex_intro _
              (PyStr.q "'action': 'goto', 'params': {'url': 'http://localhost:3000'}")
              eq_refl)
           eq_refl Examples.py_str
           (SmokeTest.OpenAICompatWrapper MoreExamples.mock_client
              Examples.model_name)
           Examples.user_args Examples.no_kwargs Examples.user_message []).
  repeat split. exists 0. reflexivity.
Defined.

(* ================================================================== *)
(** * ai_smoke_test_clean.py: [create] and the entry point *)
(* ================================================================== *)

Section CleanCreateProofs.
Import PyStr Py Json Llm Normalizer.
Variable json_loads : decoder.
Variable ep : endpoint.
Variable wrapper_model : string.



(** The request [create] makes. *)
Lemma clean_create_calls (kw_model : option string) (messages : list message)
    (temperature : option string) (h : list request) :
  snd (SmokeTestClean.create json_loads ep wrapper_model kw_model
         messages temperature h)
  = (h ++ [{| req_model := match kw_model with
                           | Some m => m
                           | None => wrapper_model
                           end;
              req_messages := SmokeTestClean.messages_after_create messages;
              req_temperature := temperature |}])%list.
Proof.
  unfold SmokeTestClean.create, try_exceptM, bindM, call, lift.
  destruct (ep h _) as [r|x]; [|now destruct (any_Exception x)].
  destruct (log_first_content r) as [u|x]; [|now destruct (any_Exception x)].
  rewrite clean_normalize. reflexivity.
Qed.


(** X8.  The entry point [OpenAICompatWrapper.ainvoke] of
    [ai_smoke_test_clean.py]: without messages, by position or by
    keyword, it raises [ValueError]; with messages both by position and
    by keyword it raises [TypeError]; in both cases the endpoint is not
    called.  Otherwise it is [create] on the first positional argument,
    or on the keyword when there is no positional argument, and the
    endpoint is called once. *)
Theorem clean_ainvoke_dispatch (args : list (list message))
    (kw : SmokeTestCleanEntry.kwargs) (h : list request) :
  let run := SmokeTestCleanEntry.ainvoke json_loads ep wrapper_model args kw h in
  match args, SmokeTestCleanEntry.kw_messages kw with
  | [], None => run = (Raises (ValueError "No messages provided to ainvoke"), h)
  | _ :: _, Some _ => (exists m, fst run = Raises (TypeError m)) /\ snd run = h
  | messages :: _, None | [], Some messages =>
      run = SmokeTestClean.create json_loads ep wrapper_model
              (SmokeTestCleanEntry.kw_model kw) messages
              (SmokeTestCleanEntry.kw_temperature kw) h
      /\ List.length (snd run) = S (List.length h)
  end.
Proof.
  cbv zeta. unfold SmokeTestCleanEntry.ainvoke.
  assert (L : forall messages,
             List.length
               (snd (SmokeTestClean.create json_loads ep wrapper_model
                       (SmokeTestCleanEntry.kw_model kw) messages
                       (SmokeTestCleanEntry.kw_temperature kw) h))
             = S (List.length h)).
  { intros messages. rewrite clean_create_calls, length_app. simpl. lia. }
  destruct args as [|messages rest],
    (SmokeTestCleanEntry.kw_messages kw) as [kwm|]; auto.
  split; [eexists; reflexivity|reflexivity].
Qed.

End CleanCreateProofs.

(* ================================================================== *)
(** * The polling waits: bounds and results *)
(* ================================================================== *)

Section PollingBoundsProofs.
Import PyStr Py StartSinglePlayer Polling.
Variable e : env.
Variable url_path : string -> string.

(** X10.  A wait with a timeout of zero or less raises [TimeoutError]
    without looking at the page once, whatever the page holds. *)
Theorem wait_without_time (fuel : nat) (timeout : Z) (w : world) :
  timeout <= 0 ->
  (forall selector,
      _wait_for_selector e (S fuel) selector timeout w
      = Some (Raises (TimeoutError ("Timed out waiting for selector " ++ selector)),
              w))
  /\ (forall prefix,
         _wait_for_path e url_path (S fuel) prefix timeout w
         = Some (Raises (TimeoutError
                   ("Timed out waiting for path starting with " ++ prefix)), w)).
Proof.
  intros T. split; intros s;
    unfold _wait_for_selector, _wait_for_path; simpl;
    destruct (Z.ltb_spec (now w) (now w + timeout)); [lia|reflexivity|lia|reflexivity].
Qed.

(** X12.  A URL that [_wait_for_path] returns was read from the page, is
    not empty, and has a path that starts with the prefix. *)
Theorem wait_for_path_result (fuel : nat) (prefix : string) (timeout : Z)
    (w w' : world) (url : string) :
  _wait_for_path e url_path fuel prefix timeout w = Some (Returns url, w') ->
  url <> EmptyString
  /\ startswith (url_path url) prefix = true
  /\ exists k, get_current_page_url e k = Some url.
Proof.
  unfold _wait_for_path. generalize (now w + timeout). intros deadline.
  revert w. induction fuel as [|fuel IH]; intros w; [discriminate|].
  cbn [path_loop]. destruct (now w <? deadline); [|discriminate].
  destruct (get_current_page_url e (awaits w)) as [u|] eqn:U; [|apply IH].
  destruct (negb (String.eqb u EmptyString) && startswith (url_path u) prefix)
    eqn:C; [|apply IH].
  intros [= -> _]. apply andb_true_iff in C as [N S].
  apply negb_true_iff, String.eqb_neq in N. eauto.
Qed.

Hypothesis io_time_nonneg : forall k, 0 <= io_time e k.
Hypothesis sleep_lag_nonneg : forall k, 0 <= sleep_lag e k.

Lemma ceil_step (x : Z) : (x - 200 + 199) / 200 = (x + 199) / 200 - 1.
Proof.
  replace (x - 200 + 199) with (x + 199 + (-1) * 200) by lia.
  rewrite Z.div_add by lia. lia.
Qed.

Lemma selector_loop_checks (selector : string) (deadline : Z) :
  forall (fuel : nat) (w w' : world) (r : outcome unit),
    selector_loop e fuel selector deadline w = Some (r, w') ->
    now w <= now w'
    /\ Z.of_nat (awaits w')
       <= Z.of_nat (awaits w) + 2 * Z.max 0 ((deadline - now w + 199) / 200).
Proof.
  induction fuel as [|fuel IH]; intros w w' r; [discriminate|].
  cbn [selector_loop].
  pose proof (io_time_nonneg (awaits w)) as I.
  pose proof (sleep_lag_nonneg (S (awaits w))) as L.
  destruct (Z.ltb_spec (now w) deadline) as [D|D].
  - assert (Q : 1 <= (deadline - now w + 199) / 200)
      by (apply Z.div_le_lower_bound; lia).
    destruct (evaluate_js e (awaits w)).
    + intros [= <- <-]. unfold tick; cbn [now awaits]. lia.
    + intros H. apply IH in H. revert H.
      unfold asyncio_sleep, tick; cbn [now awaits]. intros [H1 H2].
      split; [lia|].
      assert (M : (deadline - (now w + io_time e (awaits w)
                               + (200 + sleep_lag e (S (awaits w)))) + 199) / 200
                  <= (deadline - now w + 199) / 200 - 1).
      { rewrite <- ceil_step. apply Z.div_le_mono; lia. }
      lia.
  - intros [= <- <-]. lia.
Qed.

Lemma path_loop_checks (prefix : string) (deadline : Z) :
  forall (fuel : nat) (w w' : world) (r : outcome string),
    path_loop e url_path fuel prefix deadline w = Some (r, w') ->
    now w <= now w'
    /\ Z.of_nat (awaits w')
       <= Z.of_nat (awaits w) + 2 * Z.max 0 ((deadline - now w + 199) / 200).
Proof.
  induction fuel as [|fuel IH]; intros w w' r; [discriminate|].
  cbn [path_loop].
  pose proof (io_time_nonneg (awaits w)) as I.
  pose proof (sleep_lag_nonneg (S (awaits w))) as L.
  destruct (Z.ltb_spec (now w) deadline) as [D|D].
  - assert (Q : 1 <= (deadline - now w + 199) / 200)
      by (apply Z.div_le_lower_bound; lia).
    assert (Next :
      path_loop e url_path fuel prefix deadline
        (asyncio_sleep e 200 (tick w (io_time e (awaits w)))) = Some (r, w') ->
      now w <= now w'
      /\ Z.of_nat (awaits w')
         <= Z.of_nat (awaits w) + 2 * Z.max 0 ((deadline - now w + 199) / 200)).
    { intros H. apply IH in H. revert H.
      unfold asyncio_sleep, tick; cbn [now awaits]. intros [H1 H2].
      split; [lia|].
      assert (M : (deadline - (now w + io_time e (awaits w)
                               + (200 + sleep_lag e (S (awaits w)))) + 199) / 200
                  <= (deadline - now w + 199) / 200 - 1).
      { rewrite <- ceil_step. apply Z.div_le_mono; lia. }
      lia. }
    destruct (get_current_page_url e (awaits w)) as [u|]; [|exact Next].
    destruct (negb (String.eqb u EmptyString) && startswith (url_path u) prefix);
      [|exact Next].
    intros [= <- <-]. unfold tick; cbn [now awaits]. lia.
  - intros [= <- <-]. lia.
Qed.

(** X11.  With a clock that no await sets back and sleeps that last at
    least the 200 ms asked for, a wait never ends with the clock before
    its start, and it makes at most one check and one sleep for each
    200 ms of the timeout, rounded up: fifty checks for the default
    timeout. *)
Theorem polling_waits_are_bounded (fuel : nat) (timeout : Z) (w : world) :
  0 <= timeout ->
  (forall selector r w',
      _wait_for_selector e fuel selector timeout w = Some (r, w') ->
      now w <= now w'
      /\ Z.of_nat (awaits w') - Z.of_nat (awaits w)
         <= 2 * ((timeout + 199) / 200))
  /\ (forall prefix r w',
         _wait_for_path e url_path fuel prefix timeout w = Some (r, w') ->
         now w <= now w'
         /\ Z.of_nat (awaits w') - Z.of_nat (awaits w)
            <= 2 * ((timeout + 199) / 200)).
Proof.
  intros T.
  assert (P : 0 <= (timeout + 199) / 200) by (apply Z.div_pos; lia).
  split; intros s r w' H.
  - apply selector_loop_checks in H.
    replace (now w + timeout - now w) with timeout in H by lia. lia.
  - apply path_loop_checks in H.
    replace (now w + timeout - now w) with timeout in H by lia. lia.
Qed.

End PollingBoundsProofs.

(** X10 on the slow page at the moment its button is there. *)
Lemma wait_without_time_witness :
  StartSinglePlayer.evaluate_js Examples.slow_page
    (StartSinglePlayer.awaits MoreExamples.late_world) = true
  /\ StartSinglePlayer._wait_for_selector Examples.slow_page 1
       "[data-testid='create-lineup']" 0 MoreExamples.late_world
     = Some (Py.Raises (Py.TimeoutError
               "Timed out waiting for selector [data-testid='create-lineup']"),
             MoreExamples.late_world).
Proof.
  split; [reflexivity|].
  apply (proj1 (wait_without_time Examples.slow_page (fun u => u) 0 0
                  MoreExamples.late_world (Z.le_refl 0))).
Defined.

(** X12 on the slow page: the URL is right at the first check. *)
Lemma wait_for_path_result_witness :
  "/single-player/new" <> EmptyString
  /\ PyStr.startswith "/single-player/new" "/single-player" = true
  /\ exists k,
      StartSinglePlayer.get_current_page_url Examples.slow_page k
      = Some "/single-player/new".
Proof.
  apply (wait_for_path_result Examples.slow_page (fun u => u) 3
           "/single-player" StartSinglePlayer.default_timeout
           Examples.start_world
           {| StartSinglePlayer.now := 30; StartSinglePlayer.awaits := 1 |}
           "/single-player/new").
  reflexivity.
Defined.

(** X11 on the idle page with the default timeout: fifty checks and
    fifty sleeps. *)
Lemma polling_waits_are_bounded_witness :
  StartSinglePlayer.now Examples.start_world
  <= StartSinglePlayer.now
       {| StartSinglePlayer.now := 10000; StartSinglePlayer.awaits := 100 |}
  /\ Z.of_nat (StartSinglePlayer.awaits
                 {| StartSinglePlayer.now := 10000;
                    StartSinglePlayer.awaits := 100 |})
     - Z.of_nat (StartSinglePlayer.awaits Examples.start_world)
     <= 2 * ((StartSinglePlayer.default_timeout + 199) / 200).
Proof.
  apply (proj1 (polling_waits_are_bounded Examples.idle_page (fun u => u)
                  (fun k => Z.le_refl 0) (fun k => Z.le_refl 0)
                  52 StartSinglePlayer.default_timeout Examples.start_world
                  (proj1 (Z.leb_le 0 StartSinglePlayer.default_timeout) eq_refl))
           "[aria-label='Start Single Player']"
           (Py.Raises (Py.TimeoutError
              "Timed out waiting for selector [aria-label='Start Single Player']"))).
  vm_compute. reflexivity.
Defined.

(* ================================================================== *)
(** * start_single_player_test.py: the clean-up of the test run *)
(* ================================================================== *)

Section RunTestProofs.
Import PyStr Py StartSinglePlayer RunTest.
Variable b : browser.
Variable url_path url_scheme url_netloc : string -> string.
Variable APP_URL : string.
Variable artifact_path : string -> string.
Variable fuel : nat.

Local Ltac unfold_run H :=
  cbv beta iota zeta delta
    [run_test finallyR try_exceptR body on_exception cleanup bindR call retR
     raiseR mkdir navigate_to take_screenshot _select_random_player_count
     _click_create_lineup _click_selector wait_for_selector wait_for_path
     current_page_url initial] in H;
  cbn [clock log session_started awaits tick now app] in H.

(** One case for each outcome of each call, in the order of the run. *)
Local Ltac split_run H :=
  repeat match type of H with
         | context [match ?x with _ => _ end] =>
             lazymatch x with
             | context [match _ with _ => _ end] => fail
             | _ => destruct x eqn:?;
                    cbn [clock log session_started awaits tick now app] in H
             end
         end;
  try discriminate H.





(** X13.  [browser.stop()] is called exactly when [browser.start()]
    returned, and then once, as the last call on the browser, on every
    path out of [run_test].  When [start] raises, nothing else is asked
    of the browser (no screenshot, no stop), and the run ends with that
    exception, or with the one of the [mkdir] of the handler. *)
Theorem run_test_cleanup (w : world) (o : outcome string) (s' : rstate) :
  run_test b url_path url_scheme url_netloc APP_URL artifact_path fuel (initial w)
  = Some (o, s') ->
  match start_result b with
  | Raises x =>
      log s' = [Start]
      /\ (o = Raises x
          \/ exists y, mkdir_result b (S (awaits w)) = Raises y /\ o = Raises y)
  | Returns _ =>
      exists mid, log s' = Start :: mid ++ [Stop]
                  /\ ~ In Stop mid /\ ~ In Start mid
  end.
Proof.
  intros H. unfold_run H. split_run H.
  all: injection H as <- <-.
  all: try (split; [reflexivity|];
            first [left; reflexivity
                  |right; eexists; split; reflexivity]).
  all: try (match goal with
            | |- context [log ?s] => exists (removelast (tl (log s)))
            end;
            cbn [log tl removelast app];
            (split; [reflexivity|]); cbn [In]; intuition discriminate).
Qed.


End RunTestProofs.

(** X13 on a browser whose first navigation fails: a failure
    screenshot, then [stop]. *)
Lemma run_test_cleanup_witness :
  exists mid,
    [RunTest.Start; RunTest.NavigateTo Examples.app_url;
     RunTest.TakeScreenshot "artifacts/ai-tests/start-single-player-error.png";
     RunTest.Stop]
    = RunTest.Start :: mid ++ [RunTest.Stop]
    /\ ~ In RunTest.Stop mid /\ ~ In RunTest.Start mid.
Proof.
  exact (run_test_cleanup RunExamples.unreachable_app (fun u => u) (fun u => u)
           (fun u => u) Examples.app_url
           (fun name => "artifacts/ai-tests/" ++ name) 0 Examples.start_world
           (Py.Raises (Py.EndpointError "net::ERR_CONNECTION_REFUSED"))
           {| RunTest.clock :=
                {| StartSinglePlayer.now := 0; StartSinglePlayer.awaits := 4 |};
              RunTest.log :=
                [RunTest.Start; RunTest.NavigateTo Examples.app_url;
                 RunTest.TakeScreenshot
                   "artifacts/ai-tests/start-single-player-error.png";
                 RunTest.Stop];
              RunTest.session_started := true |}
           eq_refl).
Defined.


(* ================================================================== *)
(** * start_single_player_test.py: the test run ends *)
(* ================================================================== *)

Section RunTestEndsProofs.
Import PyStr Py StartSinglePlayer RunTest Polling.
Variable b : browser.
Variable url_path url_scheme url_netloc : string -> string.
Variable APP_URL : string.
Variable artifact_path : string -> string.
Variable fuel : nat.

Lemma total_ret {A} (a : A) : total (retR a).
Proof. intros s. unfold retR. eauto. Qed.

Lemma total_raise {A} (x : exn) : total (@raiseR A x).
Proof. intros s. unfold raiseR. eauto. Qed.

Lemma total_bind {A B} (m : R A) (k : A -> R B) :
  total m -> (forall a, total (k a)) -> total (bindR m k).
Proof.
  intros M K s. unfold bindR. destruct (M s) as ([a|x] & s1 & ->); [apply K|eauto].
Qed.

Lemma total_try {A} (m : R A) (handler : exn -> R A) :
  total m -> (forall x, total (handler x)) -> total (try_exceptR m handler).
Proof.
  intros M K s. unfold try_exceptR.
  destruct (M s) as ([a|x] & s1 & ->); [eauto|].
  destruct (any_Exception x); [apply K|eauto].
Qed.

Lemma total_finally {A} (m : R A) (final : R unit) :
  total m -> total final -> total (finallyR m final).
Proof.
  intros M F s. unfold finallyR. destruct (M s) as (o & s1 & ->).
  destruct (F s1) as ([u|y] & s2 & ->); eauto.
Qed.

Lemma total_call (ev : event) (result : nat -> outcome unit) :
  total (call b ev result).
Proof. intros s. unfold call. eauto. Qed.

Lemma total_when_started {A} (m1 m2 : R A) :
  total m1 -> total m2 ->
  total (fun s => if session_started s then m1 s else m2 s).
Proof. intros M1 M2 s. destruct (session_started s); [apply M1|apply M2]. Qed.

Hypothesis io_time_nonneg : forall k, 0 <= io_time (page b) k.
Hypothesis sleep_lag_nonneg : forall k, 0 <= sleep_lag (page b) k.
Hypothesis enough_fuel : (enough default_timeout <= fuel)%nat.

Lemma total_wait_for_selector (selector : string) :
  total (wait_for_selector b fuel selector).
Proof.
  intros s. unfold wait_for_selector, _wait_for_selector.
  destruct fuel as [|f] eqn:F; [unfold enough in enough_fuel; simpl in *; lia|].
  rewrite <- F in enough_fuel.
  destruct (selector_wait_ends (page b) io_time_nonneg sleep_lag_nonneg selector
              default_timeout (clock s) fuel enough_fuel)
    as (r & w' & E & _).
  unfold _wait_for_selector in E. rewrite F in E. rewrite E. eauto.
Qed.

Lemma total_wait_for_path (prefix : string) :
  total (wait_for_path b url_path fuel prefix).
Proof.
  intros s. unfold wait_for_path, _wait_for_path.
  destruct fuel as [|f] eqn:F; [unfold enough in enough_fuel; simpl in *; lia|].
  rewrite <- F in enough_fuel.
  destruct (path_wait_ends (page b) url_path io_time_nonneg sleep_lag_nonneg prefix
              default_timeout (clock s) fuel enough_fuel)
    as (r & w' & E & _).
  unfold _wait_for_path in E. rewrite F in E. rewrite E. eauto.
Qed.

Local Ltac ends :=
  repeat first
    [ apply total_bind; [|intros ?]
    | apply total_try; [|intros ?]
    | apply total_ret
    | apply total_raise
    | apply total_call
    | apply total_wait_for_selector
    | apply total_wait_for_path
    | apply total_when_started
    | match goal with
      | |- total (if ?c then _ else _) => destruct c
      end ].

(** X15.  With a clock that no await sets back, sleeps that last at
    least the 200 ms asked for, and every call on the browser returning
    or raising, [run_test] ends from every state, whatever the browser
    answers: no wait of it is left without a deadline. *)
Theorem run_test_ends :
  total (run_test b url_path url_scheme url_netloc APP_URL artifact_path fuel).
Proof.
  unfold run_test. apply total_finally.
  - apply total_try.
    + unfold body, navigate_to, take_screenshot, _click_selector,
        _select_random_player_count, _click_create_lineup, _click_selector.
      cbv zeta. ends.
      * intros s. eauto.
      * intros s. unfold current_page_url. eauto.
      * intros s. unfold mkdir. eauto.
    + intros x. unfold on_exception, take_screenshot. ends.
      intros s. unfold mkdir. eauto.
  - unfold cleanup. ends.
Qed.

End RunTestEndsProofs.

(** X15 on the browser whose first navigation fails, with the fuel the
    default timeout asks for. *)
Lemma run_test_ends_witness :
  exists o s',
    RunTest.run_test RunExamples.unreachable_app (fun u => u) (fun u => u)
      (fun u => u) Examples.app_url (fun name => "artifacts/ai-tests/" ++ name)
      (Polling.enough StartSinglePlayer.default_timeout)
      (RunTest.initial Examples.start_world)
    = Some (o, s').
Proof.
  exact (run_test_ends RunExamples.unreachable_app (fun u => u) (fun u => u)
           (fun u => u) Examples.app_url
           (fun name => "artifacts/ai-tests/" ++ name)
           (Polling.enough StartSinglePlayer.default_timeout)
           (fun k => Z.le_refl 0) (fun k => Z.le_refl 0) (Nat.le_refl _)
           (RunTest.initial Examples.start_world)).
Defined.

(* ================================================================== *)
(** * ai_smoke_test.py: [create] and the arguments of [ainvoke] *)
(* ================================================================== *)

Section MainEntryProofs.
Import PyStr Py Json Llm Normalizer Retry.
Variable json_loads : decoder.
Variable ep : endpoint.



End MainEntryProofs.

Section ArgumentProofs.
Import PyStr Py Json Llm Retry.
Variable json_loads : decoder.
Variable APP_URL : string.
Variable py_str : SmokeTest.pyval -> string.

(** The loop of the log lines goes through when every item is a dict,
    and leaves the list as it is. *)
Lemma logged_dicts (items : list SmokeTest.pyval) (ms : list message) :
  SmokeTest.logged items = Returns ms -> map SmokeTest.VDict ms = items.
Proof.
  revert ms. induction items as [|v items IH]; intros ms.
  - intros [= <-]. reflexivity.
  - destruct v as [s|m|l| |n]; try discriminate. cbn [SmokeTest.logged].
    destruct (SmokeTest.logged items) as [ms'|x]; [|discriminate].
    intros [= <-]. simpl. now rewrite (IH ms' eq_refl).
Qed.

(** What the message list is, by the value taken as [messages]. *)
Lemma message_list_cases (v : SmokeTest.pyval) (ms : list message) :
  SmokeTest.message_list py_str v = Returns ms ->
  ms <> []
  /\ match v with
     | SmokeTest.VStr s => ms = [{| role := "user"; content := s |}]
     | SmokeTest.VList (SmokeTest.VDict m :: items) =>
         map SmokeTest.VDict ms = SmokeTest.VDict m :: items
     | _ => ms = [{| role := "user"; content := py_str v |}]
     end.
Proof.
  destruct v as [s|m|items| |n]; cbn [SmokeTest.message_list];
    try (intros [= <-]; split; [discriminate|reflexivity]).
  destruct items as [|[s|m|l| |n] items]; cbn [List.length Nat.eqb negb hd andb
    SmokeTest.is_dict];
    try (intros [= <-]; split; [discriminate|reflexivity]).
  intros L. pose proof (logged_dicts _ _ L) as D. split; [|exact D].
  intros ->. discriminate D.
Qed.

(** X17.  Whatever the receiver, the arguments and the model, no
    request [ainvoke] makes has an empty message list.  The value it
    takes as [messages] is the second argument when there are two and
    the first is the receiver, the first argument otherwise, the empty
    str when there is none.  Its first request carries: for a str, one
    user message with that str; for a list that starts with a dict, the
    dicts of the list as they are; for anything else (the empty list, a
    list of message objects, any other object), one user message that
    holds the [str] of the value.  A list that starts with a dict and
    holds something that is not a dict gets [AttributeError], and no
    request. *)
Theorem ainvoke_messages_never_empty (self : SmokeTest.receiver)
    (args : list SmokeTest.pyval) (kw : SmokeTest.kwargs) (h : list request) :
  SmokeTest.select_messages args = Entry.taken args
  /\ (exists extra,
         snd (SmokeTest.ainvoke json_loads APP_URL py_str self args kw h)
         = (h ++ extra)%list
         /\ Forall (fun r => req_messages r <> []) extra
         /\ forall r rest,
             extra = r :: rest ->
             match Entry.taken args with
             | SmokeTest.VStr s =>
                 req_messages r = [{| role := "user"; content := s |}]
             | SmokeTest.VList (SmokeTest.VDict m :: items) =>
                 map SmokeTest.VDict (req_messages r) = SmokeTest.VDict m :: items
             | v => req_messages r = [{| role := "user"; content := py_str v |}]
             end)
  /\ (forall n m items,
         SmokeTest.self_call_count self = Some n ->
         Entry.taken args = SmokeTest.VList (SmokeTest.VDict m :: items) ->
         forallb SmokeTest.is_dict items = false ->
         exists msg,
           SmokeTest.ainvoke json_loads APP_URL py_str self args kw h
           = (Raises (AttributeError msg), Entry.counted self, h)).
Proof.
  assert (T : SmokeTest.select_messages args = Entry.taken args).
  { unfold Entry.taken.
    destruct args as [|a0 [|a1 [|a2 rest]]]; reflexivity. }
  rewrite <- T. repeat apply conj.
  - reflexivity.
  - destruct (ainvoke_stops json_loads APP_URL py_str self args kw h)
      as [(client & model_name & messages & R)|(x & -> & _)].
    + rewrite (ainvoke_reaches json_loads APP_URL client model_name py_str
                 self args kw messages h R).
      destruct (ainvoke_body_invariant json_loads APP_URL client model_name
                  messages (SmokeTest.kw_temperature kw) h)
        as [(extra & S & _ & F) _].
      destruct R as (_ & _ & _ & L & _).
      destruct (message_list_cases _ _ L) as [N C].
      exists (initial_request model_name messages (SmokeTest.kw_temperature kw)
              :: extra).
      cbn [snd]. repeat apply conj.
      * exact S.
      * constructor; [exact N|].
        apply Forall_impl with (2 := F). intros r E Z. now rewrite Z in E.
      * intros r rest [= <- _]. cbn [req_messages initial_request].
        destruct (SmokeTest.select_messages args)
          as [s|m|[|[s|m|l| |n] items]| |n]; exact C.
    + exists []. cbn [snd]. repeat apply conj.
      * now rewrite app_nil_r.
      * constructor.
      * discriminate.
  - intros n m items N S D.
    assert (L : exists msg,
               SmokeTest.logged (SmokeTest.VDict m :: items)
               = Raises (AttributeError msg)).
    { cbn [SmokeTest.logged].
      assert (L : exists msg,
                 SmokeTest.logged items = Raises (AttributeError msg)).
      { clear S. induction items as [|v items IH]; [discriminate|].
        destruct v as [s|m'|l| |k]; try (eexists; reflexivity).
        cbn [forallb SmokeTest.is_dict andb] in D.
        destruct (IH D) as [msg E]. cbn [SmokeTest.logged]. rewrite E.
        eexists. reflexivity. }
      destruct L as [msg ->]. eexists. reflexivity. }
    destruct L as [msg L].
    exists msg. unfold SmokeTest.ainvoke, Entry.counted, SmokeTest.count_call.
    rewrite N, S. cbn [SmokeTest.message_list List.length Nat.eqb negb hd andb
                         SmokeTest.is_dict].
    now rewrite L.
Qed.

End ArgumentProofs.
